(** * IHC nuclear count: the workflow controller of [src/App.tsx], the
      two-pass analysis of [src/services/geminiService.ts] and the handlers
      of [src/components/CalibrationModal.tsx]

    The development embeds the TypeScript sources shallowly, in two layers.

    The first layer is the program over the numbers its values denote and
    with handlers that run one after the other.

    - JavaScript numbers are the numbers they denote: the JSON counts of a
      model reply are rationals ([Q], so the aggregation computes), the
      pointer coordinates of the selection polygon are reals ([R], because
      the closing test takes a square root; on rational points it computes,
      see [closesPolygon_rational]).
    - [async] functions are computations in a state-and-exception monad over
      the [World]: the React state of [App], [localStorage] and a log of the
      calls that leave the component.  An [await] is sequencing.
    - The collaborators (the model provider, [FileReader], the canvas, the
      object-URL registry) are an [Env] of functions: what they answer is
      an input of every handler.
    - The handlers of [CalibrationModal] are functions on the state of the
      modal; strings are sequences of code units below 256.

    The second layer has what the first leaves out, where a property
    depends on it.

    - [Interleaved]: the event loop.  A handler runs up to its next [await]
      on a collaborator; what the user does meanwhile runs before the
      handler continues, and the continuation keeps the state variables of
      the render that started it.  A handler of the first layer is the
      handler of this one run without interruption ([complete_handler]).
    - [Binary64]: Numbers as IEEE 754 binary64 floats, every operation
      rounded to nearest, for the aggregation of the two passes and the
      closing test of the polygon.  On integers up to 2^53 the aggregation
      is the exact one ([average_exact]). *)

From Stdlib Require Import String List ZArith QArith Qround Reals Qreals Lra Lia Bool.
From Stdlib Require Import Ascii Decimal DecimalString DecimalN.
From Stdlib Require Import FunctionalExtensionality SpecFloat Qpower.
From stdpp Require Import gmap strings.

Import ListNotations.
Local Open Scope string_scope.
Local Open Scope list_scope.

(** ** Values of [JSON.parse] *)

#[local] Set Warnings "-register-all".

Inductive JsValue :=
| JNull
| JBool (b : bool)
| JNumber (q : Q)
| JString (s : string)
| JArray (items : list JsValue)
| JObject (fields : list (string * JsValue)).

(** The result of the [typeof] operator on a value, or on [undefined] when a
    property is absent ([None]). *)
Inductive TypeTag := TUndefined | TObject | TBoolean | TNumber | TString.

Definition typeof (v : option JsValue) : TypeTag :=
  match v with
  | None => TUndefined
  | Some JNull => TObject
  | Some (JBool _) => TBoolean
  | Some (JNumber _) => TNumber
  | Some (JString _) => TString
  | Some (JArray _) => TObject
  | Some (JObject _) => TObject
  end.

Definition TypeTag_eqb (a b : TypeTag) : bool :=
  match a, b with
  | TUndefined, TUndefined | TObject, TObject | TBoolean, TBoolean
  | TNumber, TNumber | TString, TString => true
  | _, _ => false
  end.

Fixpoint assoc (k : string) (fields : list (string * JsValue)) : option JsValue :=
  match fields with
  | [] => None
  | (k', v) :: rest => if String.eqb k k' then Some v else assoc k rest
  end.

(** Exceptions. *)
Inductive Exn :=
| Error (message : string)   (* [throw new Error(message)] *)
| TypeError                  (* reading a property of [null] *)
| SyntaxError                (* [JSON.parse] of a text that is not JSON *)
| Rejection.                 (* a collaborator rejected its promise *)

Inductive Result (A : Type) :=
| Ok (a : A)
| Throw (e : Exn).
Arguments Ok {A} a.
Arguments Throw {A} e.

(** [v.k] for one of the field names the services read: [null] has no
    properties and the access throws; primitives and arrays have no such own
    or inherited property and give [undefined]; an object holds each key
    once, and [assoc] reads its first binding. *)
Definition getProp (v : JsValue) (k : string) : Result (option JsValue) :=
  match v with
  | JNull => Throw TypeError
  | JObject fields => Ok (assoc k fields)
  | _ => Ok None
  end.

(** [Math.round]: the nearest integer, the midpoint going towards
    +Infinity. *)
Definition Math_round (q : Q) : Q := inject_Z (Qfloor (q + (1 # 2))).

(** ** [types.ts] *)

Record AnalysisResult := {
  positive_nuclei_count : Q;
  negative_nuclei_count : Q;
  total_nuclei_count : Q
}.

Record QualityCheckResult := {
  is_suitable : bool;
  feedback : string;
  issues : list JsValue
}.

(** ** Files, images and points *)

(** A [File]: its name, its MIME type and its bytes, the bytes kept as their
    base64 text (what [fileToBase64] resolves to). *)
Record File := {
  name : string;
  type : string;
  content : string
}.

(** An object URL [blob:...#id]; never the empty string, so [image?.url] is
    truthy exactly when [image] is not [null]. *)
Definition Url := nat.

Record Image := {
  file : File;
  url : Url
}.

Record Point := {
  x : R;
  y : R
}.

(** The pointer event of a click or a move over the preview box: the pointer
    position and the bounding client rectangle of the box. *)
Record MouseEvent := {
  clientX : R;
  clientY : R;
  rect_left : R;
  rect_top : R;
  rect_width : R;
  rect_height : R
}.

Inductive Mode := ANALYSIS | EDIT.

(** ** The React state of [App] (lines 38-54) *)

Record AppState := {
  mode : Mode;
  image : option Image;
  analysisResult : option AnalysisResult;
  isLoading : bool;
  error : option string;
  prompt : string;
  qualityCheckResult : option QualityCheckResult;
  isQualityChecking : bool;
  qualityCheckError : option string;
  analysisProgress : option Q;
  selectionPoints : list Point;
  isDrawing : bool;
  previewPoint : option Point
}.

Definition initialState : AppState := {|
  mode := ANALYSIS;
  image := None;
  analysisResult := None;
  isLoading := false;
  error := None;
  prompt := "";
  qualityCheckResult := None;
  isQualityChecking := false;
  qualityCheckError := None;
  analysisProgress := None;
  selectionPoints := [];
  isDrawing := true;
  previewPoint := None
|}.

(** ** [localStorage] and the log of outgoing calls *)

(** What the component writes under its two keys: the JSON text of an
    analysis result and the JSON text of [{base64, name, type}]. *)
Inductive Stored :=
| StoredResult (r : AnalysisResult)
| StoredImage (base64 name type : string).

Inductive Task := QualityPrompt | CountPrompt | EditPrompt (instruction : string).

(** The argument of [ai.models.generateContent]. *)
Record Request := {
  model : string;
  task : Task;
  mimeType : string;
  data : string;
  temperature : option Q
}.

Inductive Effect :=
| GenerateContent (req : Request)    (* a model request is issued *)
| Settled                            (* the pending request resolved or rejected *)
| OnProgress (progress : Q)          (* the progress callback is invoked *)
| CreateObjectURL (f : File) (u : Url)
| RevokeObjectURL (u : Url)
| ConsoleError (e : Exn).

Record World := {
  app : AppState;
  localStorage : gmap string Stored;
  log : list Effect                  (* oldest first *)
}.

(** What the provider answers to a request. *)
Inductive Reply :=
| Rejects                            (* the promise rejects *)
| Text (parsed : option JsValue)     (* [response.text]; [None]: not JSON *)
| InlineData (data mimeType : string).

(** What becomes of the clip path of [getMaskedFile] (lines 110-150). *)
Inductive Raster :=
| LoadError                          (* [image.onerror] *)
| NoContext                          (* [getContext('2d')] gave [null] *)
| NoBlob                             (* [toBlob] gave [null] *)
| Png (base64 : string).             (* the clipped canvas, as PNG *)

Definition isRequest (e : Effect) : bool :=
  match e with GenerateContent _ => true | _ => false end.

(** How many model requests a history holds. *)
Definition requests (h : list Effect) : nat := length (List.filter isRequest h).

(** The collaborators.  The provider answers the request numbered [n] (from
    0, over the whole history) as it likes; so does the registry of object
    URLs with the history it is asked in. *)
Record Env := {
  readable : File -> bool;                             (* [FileReader] succeeds *)
  provider : nat -> Request -> Reply;
  canvas : File -> list Point -> Raster;
  objectURL : list Effect -> Url
}.

(** ** The monad of handlers *)

Definition M (A : Type) : Type := World -> Result A * World.

Definition ret {A} (a : A) : M A := fun w => (Ok a, w).

Definition throw {A} (e : Exn) : M A := fun w => (Throw e, w).

Definition bind {A B} (m : M A) (k : A -> M B) : M B :=
  fun w =>
    match m w with
    | (Ok a, w') => k a w'
    | (Throw e, w') => (Throw e, w')
    end.

Declare Scope js_scope.
Delimit Scope js_scope with js.
Bind Scope js_scope with M.
Notation "v <- m ;; k" := (bind m (fun v => k))
  (at level 100, m at next level, right associativity) : js_scope.
Notation "m ;; k" := (bind m (fun _ => k))
  (at level 100, right associativity) : js_scope.

(** [try { body } catch (err) { handler err }]. *)
Definition try_catch (body : M unit) (handler : Exn -> M unit) : M unit :=
  fun w =>
    match body w with
    | (Ok _, w') => (Ok tt, w')
    | (Throw e, w') => handler e w'
    end.

(** [try { body } finally { final }]: [final] runs on both ways out and an
    exception of [body] goes on after it. *)
Definition try_finally (body : M unit) (final : M unit) : M unit :=
  fun w =>
    match body w with
    | (Ok _, w') => final w'
    | (Throw e, w') =>
        match final w' with
        | (Ok _, w'') => (Throw e, w'')
        | thrown => thrown
        end
    end.

Definition try_catch_finally (body : M unit) (handler : Exn -> M unit)
    (final : M unit) : M unit :=
  try_finally (try_catch body handler) final.

(** The state a handler leaves behind, whether it returned or its promise
    rejected. *)
Definition run (handler : M unit) (w : World) : World := snd (handler w).

Definition emit (e : Effect) : M unit :=
  fun w => (Ok tt, {| app := app w; localStorage := localStorage w;
                      log := log w ++ [e] |}).

Definition history : M (list Effect) := fun w => (Ok (log w), w).

Definition getState : M AppState := fun w => (Ok (app w), w).

Definition update (f : AppState -> AppState) : M unit :=
  fun w => (Ok tt, {| app := f (app w); localStorage := localStorage w;
                      log := log w |}).

Definition localStorage_getItem (k : string) : M (option Stored) :=
  fun w => (Ok (localStorage w !! k), w).

Definition localStorage_setItem (k : string) (v : Stored) : M unit :=
  fun w => (Ok tt, {| app := app w; localStorage := <[k := v]> (localStorage w);
                      log := log w |}).

Definition localStorage_removeItem (k : string) : M unit :=
  fun w => (Ok tt, {| app := app w; localStorage := delete k (localStorage w);
                      log := log w |}).

Definition console_error (e : Exn) : M unit := emit (ConsoleError e).

Definition URL_revokeObjectURL (u : Url) : M unit := emit (RevokeObjectURL u).

(** ** The state setters of [useState] *)

Definition with_mode (v : Mode) (st : AppState) : AppState :=
  {| mode := v; image := image st; analysisResult := analysisResult st;
     isLoading := isLoading st; error := error st; prompt := prompt st;
     qualityCheckResult := qualityCheckResult st;
     isQualityChecking := isQualityChecking st;
     qualityCheckError := qualityCheckError st;
     analysisProgress := analysisProgress st;
     selectionPoints := selectionPoints st; isDrawing := isDrawing st;
     previewPoint := previewPoint st |}.

Definition with_image (v : option Image) (st : AppState) : AppState :=
  {| mode := mode st; image := v; analysisResult := analysisResult st;
     isLoading := isLoading st; error := error st; prompt := prompt st;
     qualityCheckResult := qualityCheckResult st;
     isQualityChecking := isQualityChecking st;
     qualityCheckError := qualityCheckError st;
     analysisProgress := analysisProgress st;
     selectionPoints := selectionPoints st; isDrawing := isDrawing st;
     previewPoint := previewPoint st |}.

Definition with_analysisResult (v : option AnalysisResult) (st : AppState) : AppState :=
  {| mode := mode st; image := image st; analysisResult := v;
     isLoading := isLoading st; error := error st; prompt := prompt st;
     qualityCheckResult := qualityCheckResult st;
     isQualityChecking := isQualityChecking st;
     qualityCheckError := qualityCheckError st;
     analysisProgress := analysisProgress st;
     selectionPoints := selectionPoints st; isDrawing := isDrawing st;
     previewPoint := previewPoint st |}.

Definition with_isLoading (v : bool) (st : AppState) : AppState :=
  {| mode := mode st; image := image st; analysisResult := analysisResult st;
     isLoading := v; error := error st; prompt := prompt st;
     qualityCheckResult := qualityCheckResult st;
     isQualityChecking := isQualityChecking st;
     qualityCheckError := qualityCheckError st;
     analysisProgress := analysisProgress st;
     selectionPoints := selectionPoints st; isDrawing := isDrawing st;
     previewPoint := previewPoint st |}.

Definition with_error (v : option string) (st : AppState) : AppState :=
  {| mode := mode st; image := image st; analysisResult := analysisResult st;
     isLoading := isLoading st; error := v; prompt := prompt st;
     qualityCheckResult := qualityCheckResult st;
     isQualityChecking := isQualityChecking st;
     qualityCheckError := qualityCheckError st;
     analysisProgress := analysisProgress st;
     selectionPoints := selectionPoints st; isDrawing := isDrawing st;
     previewPoint := previewPoint st |}.

Definition with_prompt (v : string) (st : AppState) : AppState :=
  {| mode := mode st; image := image st; analysisResult := analysisResult st;
     isLoading := isLoading st; error := error st; prompt := v;
     qualityCheckResult := qualityCheckResult st;
     isQualityChecking := isQualityChecking st;
     qualityCheckError := qualityCheckError st;
     analysisProgress := analysisProgress st;
     selectionPoints := selectionPoints st; isDrawing := isDrawing st;
     previewPoint := previewPoint st |}.

Definition with_qualityCheckResult (v : option QualityCheckResult) (st : AppState) : AppState :=
  {| mode := mode st; image := image st; analysisResult := analysisResult st;
     isLoading := isLoading st; error := error st; prompt := prompt st;
     qualityCheckResult := v; isQualityChecking := isQualityChecking st;
     qualityCheckError := qualityCheckError st;
     analysisProgress := analysisProgress st;
     selectionPoints := selectionPoints st; isDrawing := isDrawing st;
     previewPoint := previewPoint st |}.

Definition with_isQualityChecking (v : bool) (st : AppState) : AppState :=
  {| mode := mode st; image := image st; analysisResult := analysisResult st;
     isLoading := isLoading st; error := error st; prompt := prompt st;
     qualityCheckResult := qualityCheckResult st; isQualityChecking := v;
     qualityCheckError := qualityCheckError st;
     analysisProgress := analysisProgress st;
     selectionPoints := selectionPoints st; isDrawing := isDrawing st;
     previewPoint := previewPoint st |}.

Definition with_qualityCheckError (v : option string) (st : AppState) : AppState :=
  {| mode := mode st; image := image st; analysisResult := analysisResult st;
     isLoading := isLoading st; error := error st; prompt := prompt st;
     qualityCheckResult := qualityCheckResult st;
     isQualityChecking := isQualityChecking st; qualityCheckError := v;
     analysisProgress := analysisProgress st;
     selectionPoints := selectionPoints st; isDrawing := isDrawing st;
     previewPoint := previewPoint st |}.

Definition with_analysisProgress (v : option Q) (st : AppState) : AppState :=
  {| mode := mode st; image := image st; analysisResult := analysisResult st;
     isLoading := isLoading st; error := error st; prompt := prompt st;
     qualityCheckResult := qualityCheckResult st;
     isQualityChecking := isQualityChecking st;
     qualityCheckError := qualityCheckError st; analysisProgress := v;
     selectionPoints := selectionPoints st; isDrawing := isDrawing st;
     previewPoint := previewPoint st |}.

Definition with_selectionPoints (v : list Point) (st : AppState) : AppState :=
  {| mode := mode st; image := image st; analysisResult := analysisResult st;
     isLoading := isLoading st; error := error st; prompt := prompt st;
     qualityCheckResult := qualityCheckResult st;
     isQualityChecking := isQualityChecking st;
     qualityCheckError := qualityCheckError st;
     analysisProgress := analysisProgress st; selectionPoints := v;
     isDrawing := isDrawing st; previewPoint := previewPoint st |}.

Definition with_isDrawing (v : bool) (st : AppState) : AppState :=
  {| mode := mode st; image := image st; analysisResult := analysisResult st;
     isLoading := isLoading st; error := error st; prompt := prompt st;
     qualityCheckResult := qualityCheckResult st;
     isQualityChecking := isQualityChecking st;
     qualityCheckError := qualityCheckError st;
     analysisProgress := analysisProgress st;
     selectionPoints := selectionPoints st; isDrawing := v;
     previewPoint := previewPoint st |}.

Definition with_previewPoint (v : option Point) (st : AppState) : AppState :=
  {| mode := mode st; image := image st; analysisResult := analysisResult st;
     isLoading := isLoading st; error := error st; prompt := prompt st;
     qualityCheckResult := qualityCheckResult st;
     isQualityChecking := isQualityChecking st;
     qualityCheckError := qualityCheckError st;
     analysisProgress := analysisProgress st;
     selectionPoints := selectionPoints st; isDrawing := isDrawing st;
     previewPoint := v |}.

Definition setMode (v : Mode) : M unit :=
  update (with_mode v).
Definition setImage (v : option Image) : M unit :=
  update (with_image v).
Definition setAnalysisResult (v : option AnalysisResult) : M unit :=
  update (with_analysisResult v).
Definition setIsLoading (v : bool) : M unit :=
  update (with_isLoading v).
Definition setError (v : option string) : M unit :=
  update (with_error v).
Definition setPrompt (v : string) : M unit :=
  update (with_prompt v).
Definition setQualityCheckResult (v : option QualityCheckResult) : M unit :=
  update (with_qualityCheckResult v).
Definition setIsQualityChecking (v : bool) : M unit :=
  update (with_isQualityChecking v).
Definition setQualityCheckError (v : option string) : M unit :=
  update (with_qualityCheckError v).
Definition setAnalysisProgress (v : option Q) : M unit :=
  update (with_analysisProgress v).
Definition setSelectionPoints (v : list Point) : M unit :=
  update (with_selectionPoints v).
Definition setIsDrawing (v : bool) : M unit :=
  update (with_isDrawing v).
Definition setPreviewPoint (v : option Point) : M unit :=
  update (with_previewPoint v).

(** ** [services/geminiService.ts] *)

Section Service.

Variable env : Env.

Local Open Scope js_scope.

Definition fileToBase64 (f : File) : M string :=
  if readable env f then ret (content f) else throw Rejection.

Definition URL_createObjectURL (f : File) : M Url :=
  h <- history ;;
  let u := objectURL env h in
  emit (CreateObjectURL f u) ;;
  ret u.

Definition base64ToFile (base64 filename mimeType : string) : M Image :=
  let f := {| name := filename; type := mimeType; content := base64 |} in
  u <- URL_createObjectURL f ;;
  ret {| file := f; url := u |}.

(** [await ai.models.generateContent(req)]: the request goes out, the
    provider answers it, and the promise settles. *)
Definition generateContent (req : Request) : M Reply :=
  h <- history ;;
  emit (GenerateContent req) ;;
  emit Settled ;;
  match provider env (requests h) req with
  | Rejects => throw Rejection
  | reply => ret reply
  end.

(** [JSON.parse(response.text)]. *)
Definition JSON_parse_text (response : Reply) : M JsValue :=
  match response with
  | Text (Some v) => ret v
  | _ => throw SyntaxError
  end.

Definition prop (v : JsValue) (k : string) : M (option JsValue) :=
  match getProp v k with
  | Ok field => ret field
  | Throw e => throw e
  end.

Definition editImageWithText (imageFile : File) (prompt : string) : M Image :=
  base64Image <- fileToBase64 imageFile ;;
  response <- generateContent
    {| model := "gemini-2.5-flash-image"; task := EditPrompt prompt;
       mimeType := type imageFile; data := base64Image;
       temperature := None |} ;;
  match response with
  | InlineData enhancedBase64 mimeType =>
      base64ToFile enhancedBase64 ("edited_" ++ name imageFile)%string mimeType
  | _ => throw (Error "Failed to edit image. No image data received from API.")
  end.

Definition asBoolean (v : option JsValue) : bool :=
  match v with Some (JBool b) => b | _ => false end.

Definition asString (v : option JsValue) : string :=
  match v with Some (JString s) => s | _ => "" end.

Definition asArray (v : option JsValue) : list JsValue :=
  match v with Some (JArray l) => l | _ => [] end.

Definition asNumber (v : option JsValue) : Q :=
  match v with Some (JNumber q) => q | _ => 0%Q end.

Definition Array_isArray (v : option JsValue) : bool :=
  match v with Some (JArray _) => true | _ => false end.

Definition performQualityCheck (imageFile : File) : M QualityCheckResult :=
  base64Image <- fileToBase64 imageFile ;;
  response <- generateContent
    {| model := "gemini-2.5-flash"; task := QualityPrompt;
       mimeType := type imageFile; data := base64Image;
       temperature := Some 0%Q |} ;;
  parsedResult <- JSON_parse_text response ;;
  suitable <- prop parsedResult "is_suitable" ;;
  feedback <- prop parsedResult "feedback" ;;
  issues <- prop parsedResult "issues" ;;
  if negb (TypeTag_eqb (typeof suitable) TBoolean)
     || negb (TypeTag_eqb (typeof feedback) TString)
     || negb (Array_isArray issues)
  then throw (Error "Invalid data format received from API for quality check.")
  else ret {| is_suitable := asBoolean suitable;
              feedback := asString feedback;
              issues := asArray issues |}.

(** [onProgress?.(p)].  The callback is a state setter, as at its one call
    site (line 198). *)
Definition callProgress (onProgress : option (Q -> AppState -> AppState))
    (p : Q) : M unit :=
  match onProgress with
  | Some callback => emit (OnProgress p) ;; update (callback p)
  | None => ret tt
  end.

Definition requestConfig (imageFile : File) (base64Image : string) : Request :=
  {| model := "gemini-2.5-pro"; task := CountPrompt;
     mimeType := type imageFile; data := base64Image;
     temperature := Some 0%Q |}.

(** Lines 176-187.  The three [typeof] tests read the fields from left to
    right; on a value that is not [null] no read throws, so reading them
    first changes nothing. *)
Definition runSingleAnalysis (config : Request) : M AnalysisResult :=
  response <- generateContent config ;;
  parsedResult <- JSON_parse_text response ;;
  positive <- prop parsedResult "positive_nuclei_count" ;;
  negative <- prop parsedResult "negative_nuclei_count" ;;
  total <- prop parsedResult "total_nuclei_count" ;;
  if negb (TypeTag_eqb (typeof positive) TNumber)
     || negb (TypeTag_eqb (typeof negative) TNumber)
     || negb (TypeTag_eqb (typeof total) TNumber)
  then throw (Error "Invalid data format received from API.")
  else ret {| positive_nuclei_count := asNumber positive;
              negative_nuclei_count := asNumber negative;
              total_nuclei_count := asNumber total |}.

(** Lines 195-202. *)
Definition average (result1 result2 : AnalysisResult) : AnalysisResult :=
  let avgPositive :=
    Math_round ((positive_nuclei_count result1 + positive_nuclei_count result2) / 2) in
  let avgNegative :=
    Math_round ((negative_nuclei_count result1 + negative_nuclei_count result2) / 2) in
  {| positive_nuclei_count := avgPositive;
     negative_nuclei_count := avgNegative;
     total_nuclei_count := avgPositive + avgNegative |}.

Definition analyzeIHCImage (imageFile : File)
    (onProgress : option (Q -> AppState -> AppState)) : M AnalysisResult :=
  callProgress onProgress 0 ;;
  base64Image <- fileToBase64 imageFile ;;
  let config := requestConfig imageFile base64Image in
  result1 <- runSingleAnalysis config ;;
  callProgress onProgress 50 ;;
  result2 <- runSingleAnalysis config ;;
  callProgress onProgress 100 ;;
  ret (average result1 result2).

End Service.

(** ** [App.tsx]: the handlers *)

Section App.

Variable env : Env.

Local Open Scope js_scope.

(** Lines 58-76, the effect that runs once after the first render.  A key
    that holds anything but what lines 200-201 write there fails in the
    [try] block. *)
Definition loadLastSession : M unit :=
  savedResultJSON <- localStorage_getItem "lastAnalysisResult" ;;
  savedImageJSON <- localStorage_getItem "lastAnalysisImage" ;;
  match savedResultJSON, savedImageJSON with
  | Some savedResultJSON, Some savedImageJSON =>
      try_catch
        (match savedResultJSON, savedImageJSON with
         | StoredResult savedResult, StoredImage base64 name type =>
             restoredImage <- base64ToFile env base64 name type ;;
             setImage (Some restoredImage) ;;
             setAnalysisResult (Some savedResult) ;;
             setQualityCheckResult
               (Some {| is_suitable := true;
                        feedback := "Restored from previous session.";
                        issues := [] |})
         | _, _ => throw SyntaxError
         end)
        (fun e =>
           console_error e ;;
           localStorage_removeItem "lastAnalysisResult" ;;
           localStorage_removeItem "lastAnalysisImage")
  | _, _ => ret tt
  end.

Definition clearSelection : M unit :=
  setSelectionPoints [] ;;
  setIsDrawing true ;;
  setPreviewPoint None.

Definition resetState (clearImage : bool) : M unit :=
  st <- getState ;;
  match clearImage, image st with
  | true, Some img =>
      URL_revokeObjectURL (url img) ;;
      setImage None ;;
      localStorage_removeItem "lastAnalysisImage"
  | _, _ => ret tt
  end ;;
  setAnalysisResult None ;;
  setError None ;;
  setIsLoading false ;;
  setQualityCheckResult None ;;
  setIsQualityChecking false ;;
  setQualityCheckError None ;;
  setAnalysisProgress None ;;
  clearSelection ;;
  localStorage_removeItem "lastAnalysisResult".

Definition handleImageUpload (f : File) : M unit :=
  resetState true ;;
  u <- URL_createObjectURL env f ;;
  setImage (Some {| file := f; url := u |}).

Definition maskedName (sourceFile : File) : string :=
  ("masked_" ++ name sourceFile)%string.

(** Lines 106-151.  The temporary object URL is revoked at the end of
    [image.onload], which the two early ways out do not reach. *)
Definition getMaskedFile (sourceFile : File) (points : list Point) : M File :=
  src <- URL_createObjectURL env sourceFile ;;
  match canvas env sourceFile points with
  | LoadError => throw Rejection
  | NoContext => throw (Error "Failed to get canvas context")
  | NoBlob =>
      URL_revokeObjectURL src ;;
      throw (Error "Canvas to Blob conversion failed")
  | Png blob =>
      URL_revokeObjectURL src ;;
      ret {| name := maskedName sourceFile; type := "image/png"; content := blob |}
  end.

Definition scale (p : Point) : Point := {| x := x p / 100; y := y p / 100 |}.

Definition getFileToProcess : M (option File) :=
  st <- getState ;;
  match image st with
  | None => ret None
  | Some img =>
      if (2 <? length (selectionPoints st))%nat && negb (isDrawing st)
      then
        let scaledPoints := map scale (selectionPoints st) in
        masked <- getMaskedFile (file img) scaledPoints ;;
        ret (Some masked)
      else ret (Some (file img))
  end.

Definition handleQualityCheck : M unit :=
  fileToProcess <- getFileToProcess ;;
  match fileToProcess with
  | None => ret tt
  | Some fileToProcess =>
      setIsQualityChecking true ;;
      setQualityCheckError None ;;
      setQualityCheckResult None ;;
      try_catch_finally
        (result <- performQualityCheck env fileToProcess ;;
         setQualityCheckResult (Some result))
        (fun err =>
           console_error err ;;
           setQualityCheckError (Some "An error occurred during quality check."))
        (setIsQualityChecking false)
  end.

Definition handleAnalyzeClick : M unit :=
  fileToProcess <- getFileToProcess ;;
  st <- getState ;;
  match fileToProcess, image st with
  | Some fileToProcess, Some img =>
      setIsLoading true ;;
      setError None ;;
      setAnalysisResult None ;;
      setAnalysisProgress (Some 0%Q) ;;
      try_catch_finally
        (base64Image <- fileToBase64 env (file img) ;;
         result <- analyzeIHCImage env fileToProcess
                     (Some (fun progress => with_analysisProgress (Some progress))) ;;
         setAnalysisResult (Some result) ;;
         localStorage_setItem "lastAnalysisResult" (StoredResult result) ;;
         localStorage_setItem "lastAnalysisImage"
           (StoredImage base64Image (name (file img)) (type (file img))))
        (fun err =>
           console_error err ;;
           setError (Some "An error occurred during analysis. Please try another image."))
        (setIsLoading false ;;
         setAnalysisProgress None)
  | _, _ => ret tt
  end.

Definition handleEditClick : M unit :=
  st <- getState ;;
  match image st with
  | Some img =>
      if String.eqb (prompt st) "" then ret tt
      else
        setIsLoading true ;;
        setError None ;;
        resetState false ;;
        try_catch_finally
          (editedImage <- editImageWithText env (file img) (prompt st) ;;
           URL_revokeObjectURL (url img) ;;
           setImage (Some editedImage))
          (fun err =>
             console_error err ;;
             setError (Some "An error occurred during image editing."))
          (setIsLoading false)
  | None => ret tt
  end.

(** Lines 229-234. *)
Definition getPointFromEvent (e : MouseEvent) : Point :=
  let x := (((clientX e - rect_left e) / rect_width e) * 100)%R in
  let y := (((clientY e - rect_top e) / rect_height e) * 100)%R in
  {| x := Rmax 0 (Rmin 100 x); y := Rmax 0 (Rmin 100 y) |}.

Definition clickRadius : R := 2.

Definition distance (point firstPoint : Point) : R :=
  sqrt (pow (x point - x firstPoint) 2 + pow (y point - y firstPoint) 2)%R.

(** The test of lines 241-246: there is a first point and the click is
    nearer to it than [clickRadius]. *)
Definition closesPolygon (selectionPoints : list Point) (point : Point) : bool :=
  match selectionPoints with
  | [] => false
  | firstPoint :: _ =>
      if Rlt_dec (distance point firstPoint) clickRadius then true else false
  end.

(** Lines 236-254. *)
Definition handleImageClick (e : MouseEvent) : M unit :=
  st <- getState ;;
  if negb (isDrawing st) then ret tt
  else
    let point := getPointFromEvent e in
    if closesPolygon (selectionPoints st) point
    then
      setIsDrawing false ;;
      setPreviewPoint None
    else setSelectionPoints (selectionPoints st ++ [point]).

Definition handleMouseMove (e : MouseEvent) : M unit :=
  st <- getState ;;
  if isDrawing st && (0 <? length (selectionPoints st))%nat
  then setPreviewPoint (Some (getPointFromEvent e))
  else ret tt.

(** The [onClick] of a [NavButton]. *)
Definition navigate (targetMode : Mode) : M unit :=
  setMode targetMode ;;
  setError None.

End App.

(** ** What the render offers (lines 289-401) *)

Definition truthy (message : option string) : bool :=
  match message with
  | Some s => negb (String.eqb s "")
  | None => false
  end.

Definition isSome {A} (o : option A) : bool :=
  match o with Some _ => true | None => false end.

Definition hasSelection (st : AppState) : bool :=
  (0 <? length (selectionPoints st))%nat.

Definition isSelectionComplete (st : AppState) : bool :=
  hasSelection st && negb (isDrawing st).

Inductive View := LoadingView | ErrorView | AnalysisView | EditView.

Definition renderContent (st : AppState) : View :=
  if isLoading st && (match mode st with EDIT => true | ANALYSIS => false end)
     && negb (isSome (analysisResult st))
  then LoadingView
  else if truthy (error st) then ErrorView
  else match mode st with
       | ANALYSIS => AnalysisView
       | EDIT => EditView
       end.

(** What the user can do, the handler it runs and when the render offers
    it. *)
Inductive UserEvent :=
| Upload (f : File)              (* [ImageUploader], [onImageUpload] *)
| Click (e : MouseEvent)         (* the preview box, [onClick] *)
| Move (e : MouseEvent)          (* the preview box, [onMouseMove] *)
| QualityCheck                   (* line 371 *)
| ClearSelection                 (* line 372 *)
| Analyze                        (* line 373 *)
| ClearImage                     (* line 374 *)
| TypePrompt (s : string)        (* line 394 *)
| ApplyEdit                      (* line 395 *)
| Navigate (targetMode : Mode).  (* line 407 *)

Definition offered (st : AppState) (ev : UserEvent) : bool :=
  match ev, renderContent st with
  | Navigate _, _ => true
  | Upload _, (AnalysisView | EditView) => negb (isSome (image st))
  | (Click _ | Move _ | ClearImage), AnalysisView => isSome (image st)
  | QualityCheck, AnalysisView =>
      isSome (image st) && negb (isSome (qualityCheckResult st))
      && negb (isQualityChecking st || negb (isSome (image st))
               || (hasSelection st && isDrawing st))
  | ClearSelection, AnalysisView => isSome (image st) && hasSelection st
  | Analyze, AnalysisView =>
      isSome (image st) && isSome (qualityCheckResult st)
      && negb (isLoading st || (hasSelection st && isDrawing st))
  | TypePrompt _, EditView => isSome (image st)
  | ApplyEdit, EditView =>
      isSome (image st)
      && negb (isLoading st || String.eqb (prompt st) "")
  | _, _ => false
  end.

Definition handler (env : Env) (ev : UserEvent) : M unit :=
  match ev with
  | Upload f => handleImageUpload env f
  | Click e => handleImageClick e
  | Move e => handleMouseMove e
  | QualityCheck => handleQualityCheck env
  | ClearSelection => clearSelection
  | Analyze => handleAnalyzeClick env
  | ClearImage => resetState true
  | TypePrompt s => setPrompt s
  | ApplyEdit => handleEditClick env
  | Navigate targetMode => navigate targetMode
  end.

(** A pointer event reaches the preview box only when the box has an area. *)
Definition boxed (ev : UserEvent) : Prop :=
  match ev with
  | Click e | Move e => (0 < rect_width e)%R /\ (0 < rect_height e)%R
  | _ => True
  end.

(** The component after its first render and the session effect. *)
Definition mount (env : Env) (store : gmap string Stored) : World :=
  run (loadLastSession env)
      {| app := initialState; localStorage := store; log := [] |}.

Inductive step (env : Env) : World -> World -> Prop :=
| step_event (w : World) (ev : UserEvent) :
    offered (app w) ev = true ->
    boxed ev ->
    step env w (run (handler env ev) w).

Inductive reachable (env : Env) : World -> Prop :=
| reachable_mount (store : gmap string Stored) :
    reachable env (mount env store)
| reachable_step (w w' : World) :
    reachable env w -> step env w w' -> reachable env w'.

(** ** The event loop: handlers that are interrupted at their awaits

    Above, a handler runs from its event to its end.  In the browser an
    [async] handler runs until it awaits something that has not happened
    yet (a [FileReader] load, an image load, [toBlob], the answer of the
    provider); the event loop then handles other events, and the rest of the
    handler runs when the awaited promise settles.  An [await] of a promise
    that is already settled resumes in a microtask, before any other event,
    and is no interruption.

    The handler keeps the values of the render it was made in ([image],
    [prompt], [selectionPoints], [isDrawing]); its setters write to the
    state as it is when they are called. *)

Module Interleaved.

(** A handler as its uninterruptible segments: [Now m k] runs [m] and goes
    on with [k] at once, [Await k] leaves [k] for later. *)
Inductive Async (A : Type) : Type :=
| Return (a : A)
| Reject (e : Exn)
| Now {B : Type} (m : M B) (k : Result B -> Async A)
| Await (k : Async A).

Arguments Return {A} a.
Arguments Reject {A} e.
Arguments Now {A B} m k.
Arguments Await {A} k.

Fixpoint abind {A B} (a : Async A) (f : A -> Async B) : Async B :=
  match a with
  | Return x => f x
  | Reject e => Reject e
  | Now m k => Now m (fun r => abind (k r) f)
  | Await k => Await (abind k f)
  end.

Declare Scope async_scope.
Delimit Scope async_scope with async.
Bind Scope async_scope with Async.
Notation "v <- a ;; k" := (abind a (fun v => k))
  (at level 100, a at next level, right associativity) : async_scope.
Notation "a ;; k" := (abind a (fun _ => k))
  (at level 100, right associativity) : async_scope.

(** A synchronous computation, as one segment. *)
Definition lift {A} (m : M A) : Async A :=
  Now m (fun r => match r with Ok a => Return a | Throw e => Reject e end).

(** [await] of something that has not happened yet. *)
Definition suspend : Async unit := Await (Return tt).

Fixpoint try_catch (body : Async unit) (handler : Exn -> Async unit) : Async unit :=
  match body with
  | Return _ => Return tt
  | Reject e => handler e
  | Now m k => Now m (fun r => try_catch (k r) handler)
  | Await k => Await (try_catch k handler)
  end.

Fixpoint try_finally (body : Async unit) (final : Async unit) : Async unit :=
  match body with
  | Return _ => final
  | Reject e => abind final (fun _ => Reject e)
  | Now m k => Now m (fun r => try_finally (k r) final)
  | Await k => Await (try_finally k final)
  end.

Definition try_catch_finally (body : Async unit) (handler : Exn -> Async unit)
    (final : Async unit) : Async unit :=
  try_finally (try_catch body handler) final.

(** The handler run to its end with no event in between. *)
Fixpoint complete {A} (a : Async A) : M A :=
  match a with
  | Return x => ret x
  | Reject e => throw e
  | Now m k => fun w => let (r, w') := m w in complete (k r) w'
  | Await k => complete k
  end.

(** The handler run to its next interruption: its result, or what is left
    of it. *)
Fixpoint advance {A} (a : Async A) (w : World) : (Result A + Async A) * World :=
  match a with
  | Return x => (inl (Ok x), w)
  | Reject e => (inl (Throw e), w)
  | Now m k => let (r, w') := m w in advance (k r) w'
  | Await k => (inr k, w)
  end.

Section Service.

Variable env : Env.

Local Open Scope async_scope.

(** [reader.onload] and [reader.onerror] come later. *)
Definition fileToBase64 (f : File) : Async string :=
  suspend ;; lift (fileToBase64 env f).

(** The request goes out at the call and is numbered then; the answer
    comes later. *)
Definition generateContent (req : Request) : Async Reply :=
  n <- lift (h <- history ;; emit (GenerateContent req) ;; ret (requests h))%js ;;
  suspend ;;
  lift (emit Settled ;;
        match provider env n req with
        | Rejects => throw Rejection
        | reply => ret reply
        end)%js.

Definition editImageWithText (imageFile : File) (prompt : string) : Async Image :=
  base64Image <- fileToBase64 imageFile ;;
  response <- generateContent
    {| model := "gemini-2.5-flash-image"; task := EditPrompt prompt;
       mimeType := type imageFile; data := base64Image;
       temperature := None |} ;;
  lift (match response with
        | InlineData enhancedBase64 mimeType =>
            base64ToFile env enhancedBase64 ("edited_" ++ name imageFile)%string mimeType
        | _ => throw (Error "Failed to edit image. No image data received from API.")
        end).

Definition performQualityCheck (imageFile : File) : Async QualityCheckResult :=
  base64Image <- fileToBase64 imageFile ;;
  response <- generateContent
    {| model := "gemini-2.5-flash"; task := QualityPrompt;
       mimeType := type imageFile; data := base64Image;
       temperature := Some 0%Q |} ;;
  lift (parsedResult <- JSON_parse_text response ;;
        suitable <- prop parsedResult "is_suitable" ;;
        feedback <- prop parsedResult "feedback" ;;
        issues <- prop parsedResult "issues" ;;
        if negb (TypeTag_eqb (typeof suitable) TBoolean)
           || negb (TypeTag_eqb (typeof feedback) TString)
           || negb (Array_isArray issues)
        then throw (Error "Invalid data format received from API for quality check.")
        else ret {| is_suitable := asBoolean suitable;
                    feedback := asString feedback;
                    issues := asArray issues |})%js.

Definition runSingleAnalysis (config : Request) : Async AnalysisResult :=
  response <- generateContent config ;;
  lift (parsedResult <- JSON_parse_text response ;;
        positive <- prop parsedResult "positive_nuclei_count" ;;
        negative <- prop parsedResult "negative_nuclei_count" ;;
        total <- prop parsedResult "total_nuclei_count" ;;
        if negb (TypeTag_eqb (typeof positive) TNumber)
           || negb (TypeTag_eqb (typeof negative) TNumber)
           || negb (TypeTag_eqb (typeof total) TNumber)
        then throw (Error "Invalid data format received from API.")
        else ret {| positive_nuclei_count := asNumber positive;
                    negative_nuclei_count := asNumber negative;
                    total_nuclei_count := asNumber total |})%js.

Definition analyzeIHCImage (imageFile : File)
    (onProgress : option (Q -> AppState -> AppState)) : Async AnalysisResult :=
  lift (callProgress onProgress 0) ;;
  base64Image <- fileToBase64 imageFile ;;
  let config := requestConfig imageFile base64Image in
  result1 <- runSingleAnalysis config ;;
  lift (callProgress onProgress 50) ;;
  result2 <- runSingleAnalysis config ;;
  lift (callProgress onProgress 100) ;;
  Return (average result1 result2).

End Service.

Section App.

Variable env : Env.

Local Open Scope async_scope.

(** Lines 106-151: the object URL is made at the call; [image.onload] (or
    [image.onerror]) comes later, and the callback of [toBlob] later
    still, after the URL has been revoked. *)
Definition getMaskedFile (sourceFile : File) (points : list Point) : Async File :=
  src <- lift (URL_createObjectURL env sourceFile) ;;
  suspend ;;
  match canvas env sourceFile points with
  | LoadError => Reject Rejection
  | NoContext => Reject (Error "Failed to get canvas context")
  | NoBlob =>
      lift (URL_revokeObjectURL src) ;;
      suspend ;;
      Reject (Error "Canvas to Blob conversion failed")
  | Png blob =>
      lift (URL_revokeObjectURL src) ;;
      suspend ;;
      Return {| name := maskedName sourceFile; type := "image/png"; content := blob |}
  end.

(** Lines 153-164, on the values [st] of the render. *)
Definition getFileToProcess (st : AppState) : Async (option File) :=
  match image st with
  | None => Return None
  | Some img =>
      if (2 <? length (selectionPoints st))%nat && negb (isDrawing st)
      then
        let scaledPoints := map scale (selectionPoints st) in
        masked <- getMaskedFile (file img) scaledPoints ;;
        Return (Some masked)
      else Return (Some (file img))
  end.

Definition handleQualityCheck : Async unit :=
  st <- lift getState ;;
  fileToProcess <- getFileToProcess st ;;
  match fileToProcess with
  | None => Return tt
  | Some fileToProcess =>
      lift (setIsQualityChecking true ;;
            setQualityCheckError None ;;
            setQualityCheckResult None)%js ;;
      try_catch_finally
        (result <- performQualityCheck env fileToProcess ;;
         lift (setQualityCheckResult (Some result)))
        (fun err =>
           lift (console_error err ;;
                 setQualityCheckError (Some "An error occurred during quality check."))%js)
        (lift (setIsQualityChecking false))
  end.

Definition handleAnalyzeClick : Async unit :=
  st <- lift getState ;;
  fileToProcess <- getFileToProcess st ;;
  match fileToProcess, image st with
  | Some fileToProcess, Some img =>
      lift (setIsLoading true ;;
            setError None ;;
            setAnalysisResult None ;;
            setAnalysisProgress (Some 0%Q))%js ;;
      try_catch_finally
        (base64Image <- fileToBase64 env (file img) ;;
         result <- analyzeIHCImage env fileToProcess
                     (Some (fun progress => with_analysisProgress (Some progress))) ;;
         lift (setAnalysisResult (Some result) ;;
               localStorage_setItem "lastAnalysisResult" (StoredResult result) ;;
               localStorage_setItem "lastAnalysisImage"
                 (StoredImage base64Image (name (file img)) (type (file img))))%js)
        (fun err =>
           lift (console_error err ;;
                 setError
                   (Some "An error occurred during analysis. Please try another image."))%js)
        (lift (setIsLoading false ;;
               setAnalysisProgress None)%js)
  | _, _ => Return tt
  end.

Definition handleEditClick : Async unit :=
  st <- lift getState ;;
  match image st with
  | Some img =>
      if String.eqb (prompt st) "" then Return tt
      else
        lift (setIsLoading true ;;
              setError None ;;
              resetState false)%js ;;
        try_catch_finally
          (editedImage <- editImageWithText env (file img) (prompt st) ;;
           lift (URL_revokeObjectURL (url img) ;;
                 setImage (Some editedImage))%js)
          (fun err =>
             lift (console_error err ;;
                   setError (Some "An error occurred during image editing."))%js)
          (lift (setIsLoading false))
  | None => Return tt
  end.

(** The handler of an event; the handlers that await nothing are one
    segment. *)
Definition handler (ev : UserEvent) : Async unit :=
  match ev with
  | QualityCheck => handleQualityCheck
  | Analyze => handleAnalyzeClick
  | ApplyEdit => handleEditClick
  | Upload _ | Click _ | Move _ | ClearSelection | ClearImage | TypePrompt _
  | Navigate _ => lift (handler env ev)
  end.

End App.

(** The component between two tasks of the event loop: its world and the
    handlers that are waiting, oldest first. *)
Record Loop := {
  world : World;
  pending : list (Async unit)
}.

(** A handler starts: it runs to its first interruption. *)
Definition spawn (a : Async unit) (l : Loop) : Loop :=
  match advance a (world l) with
  | (inr k, w) => {| world := w; pending := pending l ++ [k] |}
  | (inl _, w) => {| world := w; pending := pending l |}
  end.

(** What the waiting handler number [i] awaits has happened: it runs to its
    next interruption. *)
Definition settle (i : nat) (l : Loop) : Loop :=
  match nth_error (pending l) i with
  | Some k =>
      match advance k (world l) with
      | (inr k', w) =>
          {| world := w;
             pending := firstn i (pending l) ++ k' :: skipn (S i) (pending l) |}
      | (inl _, w) =>
          {| world := w; pending := firstn i (pending l) ++ skipn (S i) (pending l) |}
      end
  | None => l
  end.

(** A task of the event loop: an event that the render offers, or the rest
    of a waiting handler, in any order. *)
Inductive step (env : Env) : Loop -> Loop -> Prop :=
| step_event (l : Loop) (ev : UserEvent) :
    offered (app (world l)) ev = true ->
    boxed ev ->
    step env l (spawn (handler env ev) l)
| step_settle (l : Loop) (i : nat) :
    (i < length (pending l))%nat ->
    step env l (settle i l).

Inductive reachable (env : Env) : Loop -> Prop :=
| reachable_mount (store : gmap string Stored) :
    reachable env {| world := mount env store; pending := [] |}
| reachable_step (l l' : Loop) :
    reachable env l -> step env l l' -> reachable env l'.

End Interleaved.

(** ** The payload of a data URL ([fileToBase64], lines 8-10) *)

(** [s.split(',')]: the pieces of [s] between its commas; never empty. *)
Fixpoint split_comma (s : string) : list string :=
  match s with
  | EmptyString => [EmptyString]
  | String c rest =>
      if Ascii.eqb c ","%char then EmptyString :: split_comma rest
      else match split_comma rest with
           | piece :: pieces => String c piece :: pieces
           | [] => [String c EmptyString]
           end
  end.

(** [(reader.result as string).split(',')[1]]; [None] is [undefined]. *)
Definition base64String (readerResult : string) : option string :=
  nth_error (split_comma readerResult) 1.

(** A data URL, as [readAsDataURL] gives it and as line 84 of
    [CalibrationModal.tsx] writes it:
    [`data:${ex.mime_type};base64,${ex.image_base64}`]. *)
Definition dataUrl (mime_type image_base64 : string) : string :=
  ("data:" ++ mime_type ++ ";base64," ++ image_base64)%string.

(** ** [components/CalibrationModal.tsx] *)

Module CalibrationModal.

Record TrainingExample := {
  id : string;
  image_base64 : string;
  image_name : string;
  mime_type : string;
  positive_nuclei_count : Q;
  negative_nuclei_count : Q
}.

(** The second argument of [handleCountChange]. *)
Inductive CountField := positive_field | negative_field.

(** The state of the modal (lines 15-16). *)
Record State := {
  examples : list TrainingExample;
  isLoading : bool
}.

(** *** [parseInt(value, 10)]

    A string is its sequence of code units, here the ones below 256.  The
    white space among them is TAB, LF, VT, FF, CR, SP and NBSP. *)
Definition isWhiteSpace (c : ascii) : bool :=
  let n := nat_of_ascii c in
  ((9 <=? n) && (n <=? 13))%nat || (n =? 32)%nat || (n =? 160)%nat.

Fixpoint trimStart (s : string) : string :=
  match s with
  | String c rest => if isWhiteSpace c then trimStart rest else s
  | EmptyString => s
  end.

Definition digit (c : ascii) (rest : uint) : option uint :=
  match c with
  | "0"%char => Some (D0 rest)
  | "1"%char => Some (D1 rest)
  | "2"%char => Some (D2 rest)
  | "3"%char => Some (D3 rest)
  | "4"%char => Some (D4 rest)
  | "5"%char => Some (D5 rest)
  | "6"%char => Some (D6 rest)
  | "7"%char => Some (D7 rest)
  | "8"%char => Some (D8 rest)
  | "9"%char => Some (D9 rest)
  | _ => None
  end.

(** The longest prefix of decimal digits, as a numeral. *)
Fixpoint digits (s : string) : uint :=
  match s with
  | String c rest =>
      match digit c (digits rest) with
      | Some d => d
      | None => Nil
      end
  | EmptyString => Nil
  end.

(** The digits after the sign; no digit gives [NaN]. *)
Definition magnitude (s : string) : option Z :=
  match digits s with
  | Nil => None
  | d => Some (Z.of_N (N.of_uint d))
  end.

(** [parseInt(value, 10)]: leading white space, a sign, the digits that
    follow; [None] is [NaN].  The result [-0] of a numeral like [-0] is the
    integer 0 here; [-0 < 0] is false in the source as well. *)
Definition parseInt (value : string) : option Z :=
  match trimStart value with
  | String "-"%char rest => option_map Z.opp (magnitude rest)
  | String "+"%char rest => magnitude rest
  | rest => magnitude rest
  end.

(** [String(n)] for a natural number. *)
Definition decimal (n : N) : string := NilEmpty.string_of_uint (N.to_uint n).

(** [{ ...ex, [field]: intValue }]. *)
Definition withCount (field : CountField) (intValue : Z) (ex : TrainingExample)
    : TrainingExample :=
  match field with
  | positive_field =>
      {| id := id ex; image_base64 := image_base64 ex; image_name := image_name ex;
         mime_type := mime_type ex;
         positive_nuclei_count := inject_Z intValue;
         negative_nuclei_count := negative_nuclei_count ex |}
  | negative_field =>
      {| id := id ex; image_base64 := image_base64 ex; image_name := image_name ex;
         mime_type := mime_type ex;
         positive_nuclei_count := positive_nuclei_count ex;
         negative_nuclei_count := inject_Z intValue |}
  end.

(** Lines 52-57. *)
Definition handleCountChange (i : string) (field : CountField) (value : string)
    (prev : list TrainingExample) : list TrainingExample :=
  match parseInt value with
  | None => prev
  | Some intValue =>
      if (intValue <? 0)%Z then prev
      else map (fun ex => if String.eqb (id ex) i then withCount field intValue ex else ex)
               prev
  end.

(** Lines 59-61. *)
Definition handleRemoveExample (i : string) (prev : list TrainingExample)
    : list TrainingExample :=
  List.filter (fun ex => negb (String.eqb (id ex) i)) prev.

Section FileChange.

(** [FileReader] succeeds on a file; [Date.now()] when the file numbered [k]
    of the selection has been read. *)
Variable readable : File -> bool.
Variable now : nat -> N.

(** The example pushed at lines 35-42. *)
Definition newExample (k : nat) (f : File) : TrainingExample :=
  {| id := (name f ++ "-" ++ decimal (now k))%string;
     image_base64 := content f;
     image_name := name f;
     mime_type := type f;
     positive_nuclei_count := 0;
     negative_nuclei_count := 0 |}.

(** The loop of lines 31-44 from the file numbered [k] on: [None] when a
    read rejects, which ends the handler. *)
Fixpoint readFiles (k : nat) (files : list File) (newExamples : list TrainingExample)
    : option (list TrainingExample) :=
  match files with
  | [] => Some newExamples
  | f :: rest =>
      if readable f then readFiles (S k) rest (newExamples ++ [newExample k f])
      else None
  end.

(** Lines 22-50; [files] is [e.target.files], [None] when it is [null]. *)
Definition handleFileChange (files : option (list File)) (st : State) : State :=
  match files with
  | None => st
  | Some files =>
      match readFiles 0 files (examples st) with
      | Some newExamples => {| examples := newExamples; isLoading := false |}
      | None => {| examples := examples st; isLoading := true |}
      end
  end.

End FileChange.

End CalibrationModal.

(** ** Numbers as the engine holds them: IEEE 754 binary64

    The definitions above compute with the numbers that the JavaScript
    values denote.  This module has the two computations whose result
    depends on rounding, the aggregation of lines 195-202 of the service
    and the closing test of lines 229-254 of [App], on the values
    themselves: a Number is a binary64 float, every operation rounds to
    nearest, ties to even ([SpecFloat] with 53 bits of precision). *)

Module Binary64.
Local Open Scope Z_scope.

Definition prec : Z := 53.
Definition emax : Z := 1024.

Definition Number : Type := spec_float.

(** The Number of an integer: of a literal of the source, or of an integer
    that [JSON.parse] or the DOM delivers.  Beyond 2^53 it is rounded. *)
Definition num (z : Z) : Number := binary_normalize prec emax z 0 false.

(** [+], [-], [*], [/], [Math.sqrt] and [<]. *)
Definition add : Number -> Number -> Number := SFadd prec emax.
Definition sub : Number -> Number -> Number := SFsub prec emax.
Definition mul : Number -> Number -> Number := SFmul prec emax.
Definition div : Number -> Number -> Number := SFdiv prec emax.
Definition Math_sqrt : Number -> Number := SFsqrt prec emax.
Definition lt : Number -> Number -> bool := SFltb.

(** [Math.round]: the integral Number nearest to [x], the one nearer to
    +Infinity of two that are equally near; zeros, infinities, NaN and the
    Numbers that are integral already (those of exponent 0 or more) are
    returned as they are.  For [x = m * 2^e] with [e < 0] that integer is
    [floor ((m + 2^(-e-1)) / 2^(-e))]; it keeps the sign of [x] when it is
    zero. *)
Definition Math_round (x : Number) : Number :=
  match x with
  | S754_finite s m e =>
      if 0 <=? e then x
      else binary_normalize prec emax
             (Z.shiftr (cond_Zopp s (Zpos m) + 2 ^ (- e - 1)) (- e)) 0 s
  | _ => x
  end.

Definition isNaN (x : Number) : bool :=
  match x with S754_nan => true | _ => false end.

(** [Math.max] and [Math.min] of two Numbers: NaN when one of them is NaN;
    of the two zeros, +0 is the larger. *)
Definition Math_max (a b : Number) : Number :=
  if isNaN a || isNaN b then S754_nan
  else match SFcompare a b with
       | Some Lt => b
       | Some Gt => a
       | _ => match a with S754_zero true => b | _ => a end
       end.

Definition Math_min (a b : Number) : Number :=
  if isNaN a || isNaN b then S754_nan
  else match SFcompare a b with
       | Some Lt => a
       | Some Gt => b
       | _ => match a with S754_zero false => b | _ => a end
       end.

(** The rational that a finite Number denotes (0 for the values that denote
    none). *)
Definition toQ (x : Number) : Q :=
  match x with
  | S754_finite s m e => (inject_Z (cond_Zopp s (Zpos m)) * Qpower 2 e)%Q
  | _ => 0%Q
  end.

(** The same bits. *)
Definition same (a b : Number) : bool :=
  match a, b with
  | S754_zero s, S754_zero t => Bool.eqb s t
  | S754_infinity s, S754_infinity t => Bool.eqb s t
  | S754_nan, S754_nan => true
  | S754_finite s m e, S754_finite t n f =>
      Bool.eqb s t && Pos.eqb m n && Z.eqb e f
  | _, _ => false
  end.

(** *** [services/geminiService.ts], lines 195-202 *)

Record AnalysisResult := {
  positive_nuclei_count : Number;
  negative_nuclei_count : Number;
  total_nuclei_count : Number
}.

Definition average (result1 result2 : AnalysisResult) : AnalysisResult :=
  let avgPositive :=
    Math_round (div (add (positive_nuclei_count result1)
                         (positive_nuclei_count result2)) (num 2)) in
  let avgNegative :=
    Math_round (div (add (negative_nuclei_count result1)
                         (negative_nuclei_count result2)) (num 2)) in
  {| positive_nuclei_count := avgPositive;
     negative_nuclei_count := avgNegative;
     total_nuclei_count := add avgPositive avgNegative |}.

(** *** [App.tsx], lines 229-260 *)

Record Point := {
  x : Number;
  y : Number
}.

Record MouseEvent := {
  clientX : Number;
  clientY : Number;
  rect_left : Number;
  rect_top : Number;
  rect_width : Number;
  rect_height : Number
}.

(** The three pieces of the state of [App] that the two pointer handlers
    read and set. *)
Record Selection := {
  selectionPoints : list Point;
  isDrawing : bool;
  previewPoint : option Point
}.

Definition setSelectionPoints (points : list Point) (s : Selection) : Selection :=
  {| selectionPoints := points; isDrawing := isDrawing s;
     previewPoint := previewPoint s |}.

Definition setIsDrawing (b : bool) (s : Selection) : Selection :=
  {| selectionPoints := selectionPoints s; isDrawing := b;
     previewPoint := previewPoint s |}.

Definition setPreviewPoint (p : option Point) (s : Selection) : Selection :=
  {| selectionPoints := selectionPoints s; isDrawing := isDrawing s;
     previewPoint := p |}.

(** Lines 229-234. *)
Definition getPointFromEvent (e : MouseEvent) : Point :=
  let x := mul (div (sub (clientX e) (rect_left e)) (rect_width e)) (num 100) in
  let y := mul (div (sub (clientY e) (rect_top e)) (rect_height e)) (num 100) in
  {| x := Math_max (num 0) (Math_min (num 100) x);
     y := Math_max (num 0) (Math_min (num 100) y) |}.

Definition clickRadius : Number := num 2.

Section Geometry.

(** [Math.pow]: ECMAScript leaves its result implementation-approximated,
    so the handlers take the function of the engine as a parameter. *)
Variable Math_pow : Number -> Number -> Number.

Definition distance (point firstPoint : Point) : Number :=
  Math_sqrt (add (Math_pow (sub (x point) (x firstPoint)) (num 2))
                 (Math_pow (sub (y point) (y firstPoint)) (num 2))).

(** The test of lines 241-246. *)
Definition closesPolygon (selectionPoints : list Point) (point : Point) : bool :=
  match selectionPoints with
  | [] => false
  | firstPoint :: _ => lt (distance point firstPoint) clickRadius
  end.

(** Lines 236-254. *)
Definition handleImageClick (e : MouseEvent) (s : Selection) : Selection :=
  if negb (isDrawing s) then s
  else
    let point := getPointFromEvent e in
    if closesPolygon (selectionPoints s) point
    then setPreviewPoint None (setIsDrawing false s)
    else setSelectionPoints (selectionPoints s ++ [point]) s.

(** Lines 256-260. *)
Definition handleMouseMove (e : MouseEvent) (s : Selection) : Selection :=
  if isDrawing s && (0 <? length (selectionPoints s))%nat
  then setPreviewPoint (Some (getPointFromEvent e)) s
  else s.

End Geometry.

(** [Math.pow] at the exponent 2, the only one the program passes, as V8,
    SpiderMonkey and JavaScriptCore compute it: the product of the base
    with itself, rounded once. *)
Definition bySquaring (base exponent : Number) : Number := mul base base.

(** The integers from 0 to [n - 1]. *)
Definition range (n : nat) : list Z := map Z.of_nat (seq 0 n).

End Binary64.

(** * The vocabulary of the properties *)

(** ** The two passes *)

Definition logged (es : list Effect) (w : World) : World :=
  {| app := app w; localStorage := localStorage w; log := log w ++ es |}.

(** The field [k] of a raw result, [None] when there is none. *)
Definition field (v : JsValue) (k : string) : option JsValue :=
  match getProp v k with
  | Ok o => o
  | Throw _ => None
  end.

(** The outcome of one pass, read off the provider's reply
    ([runSingleAnalysis_eval]). *)
Definition verdict (reply : Reply) : Result AnalysisResult :=
  match reply with
  | Rejects => Throw Rejection
  | Text (Some JNull) => Throw TypeError
  | Text (Some v) =>
      if negb (TypeTag_eqb (typeof (field v "positive_nuclei_count")) TNumber)
         || negb (TypeTag_eqb (typeof (field v "negative_nuclei_count")) TNumber)
         || negb (TypeTag_eqb (typeof (field v "total_nuclei_count")) TNumber)
      then Throw (Error "Invalid data format received from API.")
      else Ok {| positive_nuclei_count := asNumber (field v "positive_nuclei_count");
                 negative_nuclei_count := asNumber (field v "negative_nuclei_count");
                 total_nuclei_count := asNumber (field v "total_nuclei_count") |}
  | _ => Throw SyntaxError
  end.

(** The outcome of the two passes over [f], the first one being request
    number [n] ([analyzeIHCImage_outcome]). *)
Definition outcome (env : Env) (f : File) (n : nat) : Result AnalysisResult :=
  if readable env f then
    let config := requestConfig f (content f) in
    match verdict (provider env n config) with
    | Throw e => Throw e
    | Ok result1 =>
        match verdict (provider env (S n) config) with
        | Throw e => Throw e
        | Ok result2 => Ok (average result1 result2)
        end
    end
  else Throw Rejection.

(** The pass that issues request number [k] fails: the provider rejects, or
    its reply is not JSON, or the JSON is not a raw result. *)
Definition passFails (env : Env) (config : Request) (k : nat) : Prop :=
  exists e, verdict (provider env k config) = Throw e.

(** Following the spec (section 4.3): [r] is [q] rounded to the nearest
    integer, an exact midpoint going up. *)
Definition roundsHalfUp (q : Q) (r : Z) : Prop :=
  (inject_Z r - (1 # 2) <= q)%Q /\ (q < inject_Z r + (1 # 2))%Q.

(** Half of the integer [s], rounded that way. *)
Definition halfRoundedUp (s : Z) : Z := ((s + 1) / 2)%Z.

(** A raw result with integer counts [p] and [n] and any total. *)
Definition hasCounts (v : JsValue) (p n : Z) : Prop :=
  field v "positive_nuclei_count" = Some (JNumber (inject_Z p)) /\
  field v "negative_nuclei_count" = Some (JNumber (inject_Z n)) /\
  typeof (field v "total_nuclei_count") = TNumber.

Definition countFields : list string :=
  ["positive_nuclei_count"; "negative_nuclei_count"; "total_nuclei_count"].

(** Following the spec (section 4.3): a raw result in which one of the three
    count fields is missing or is not a number. *)
Definition malformed (v : JsValue) : Prop :=
  exists k, In k countFields /\ typeof (field v k) <> TNumber.

(** What a run of [analyzeIHCImage] with a progress callback adds to the
    log when both passes succeed. *)
Definition fullTrace (config : Request) : list Effect :=
  [OnProgress 0; GenerateContent config; Settled;
   OnProgress 50; GenerateContent config; Settled;
   OnProgress 100].

(** What a run with a progress callback adds to the log, by what its inputs
    are: whether the file can be read, and the outcomes of the first and of
    the second pass. *)
Definition passesTrace (config : Request) (canRead : bool)
    (first second : Result AnalysisResult) : list Effect :=
  OnProgress 0 ::
  if canRead then
    GenerateContent config :: Settled ::
    match first with
    | Ok _ =>
        OnProgress 50 :: GenerateContent config :: Settled ::
        match second with
        | Ok _ => [OnProgress 100]
        | Throw _ => []
        end
    | Throw _ => []
    end
  else [].

(** ** The handlers *)

(** The progress callback of line 198. *)
Definition reportProgress (progress : Q) : AppState -> AppState :=
  with_analysisProgress (Some progress).

(** The state after an analysis that failed, and after one that returned
    [result]. *)
Definition failedAnalysis (st : AppState) : AppState :=
  with_analysisProgress None
    (with_isLoading false
       (with_error (Some "An error occurred during analysis. Please try another image.")
          (with_analysisResult None st))).

Definition succeededAnalysis (result : AnalysisResult) (st : AppState) : AppState :=
  with_analysisProgress None
    (with_isLoading false
       (with_error None (with_analysisResult (Some result) st))).

(** The state that [resetState] leaves, the image apart. *)
Definition cleared (st : AppState) : AppState :=
  {| mode := mode st; image := image st; analysisResult := None;
     isLoading := false; error := None; prompt := prompt st;
     qualityCheckResult := None; isQualityChecking := false;
     qualityCheckError := None; analysisProgress := None;
     selectionPoints := []; isDrawing := true; previewPoint := None |}.

(** The request of [performQualityCheck] for the file [f]. *)
Definition qualityConfig (f : File) : Request :=
  {| model := "gemini-2.5-flash"; task := QualityPrompt;
     mimeType := type f; data := content f;
     temperature := Some 0%Q |}.

(** The file that [getMaskedFile] resolves to when the canvas gives [blob]. *)
Definition maskedFile (sourceFile : File) (blob : string) : File :=
  {| name := maskedName sourceFile; type := "image/png"; content := blob |}.

(** ** The selection polygon *)

(** The polygon and whether it is still being drawn. *)
Definition polygon (w : World) : list Point * bool :=
  (selectionPoints (app w), isDrawing (app w)).

(** A computation that leaves the polygon alone, however it ends. *)
Definition keepsPolygon {A} (m : M A) : Prop :=
  forall w, polygon (snd (m w)) = polygon w.

(** The normalized square. *)
Definition inSquare (p : Point) : Prop :=
  (0 <= x p <= 100)%R /\ (0 <= y p <= 100)%R.

(** The point with the rational coordinates [q]. *)
Definition rational (q : Q * Q) : Point :=
  {| x := Q2R (fst q); y := Q2R (snd q) |}.

(** The closing test on rational points, as a computation: the squared
    distance against the squared radius ([closesPolygon_rational]). *)
Definition closesRational (first p : Q * Q) : bool :=
  let dx := (fst p - fst first)%Q in
  let dy := (snd p - snd first)%Q in
  if Qlt_le_dec (dx * dx + dy * dy) 4 then true else false.

(** ** What a handler leaves alone *)

(** A computation that leaves [proj] of the world as it was, however it
    ends. *)
Definition preserves {A B} (proj : World -> B) (m : M A) : Prop :=
  forall w, proj (snd (m w)) = proj w.

(** A view of the React state alone. *)
Definition onApp {B} (g : AppState -> B) (w : World) : B := g (app w).

(** A computation that sends at most [k] requests to the provider and
    forgets none of those sent before. *)
Definition spends {A} (k : nat) (m : M A) : Prop :=
  forall w,
    (requests (log w) <= requests (log (snd (m w))) <= requests (log w) + k)%nat.

(** The requests that one run of the handler of an event may send. *)
Definition budget (ev : UserEvent) : nat :=
  match ev with
  | Analyze => 2
  | QualityCheck | ApplyEdit => 1
  | _ => 0
  end.

(** The request of [editImageWithText]. *)
Definition editConfig (f : File) (instruction : string) : Request :=
  {| model := "gemini-2.5-flash-image"; task := EditPrompt instruction;
     mimeType := type f; data := content f;
     temperature := None |}.

(** The file that [editImageWithText] makes of the reply. *)
Definition editedFile (f : File) (enhancedBase64 mimeType : string) : File :=
  {| name := ("edited_" ++ name f)%string; type := mimeType;
     content := enhancedBase64 |}.

(** The synthetic quality check result of a restored session (line 69). *)
Definition restoredMarker : QualityCheckResult :=
  {| is_suitable := true; feedback := "Restored from previous session.";
     issues := [] |}.

(** The session that [loadLastSession] can restore from a store: the saved
    result and the saved file, when both keys hold what lines 200-201
    write. *)
Definition savedSessionOf (store : gmap string Stored) : option (AnalysisResult * File) :=
  match store !! "lastAnalysisResult", store !! "lastAnalysisImage" with
  | Some (StoredResult r), Some (StoredImage base64 name type) =>
      Some (r, {| name := name; type := type; content := base64 |})
  | _, _ => None
  end.

(** The outcome of a quality check, read off the provider's reply
    ([performQualityCheck_eval]). *)
Definition qualityVerdict (reply : Reply) : Result QualityCheckResult :=
  match reply with
  | Rejects => Throw Rejection
  | Text (Some JNull) => Throw TypeError
  | Text (Some v) =>
      if negb (TypeTag_eqb (typeof (field v "is_suitable")) TBoolean)
         || negb (TypeTag_eqb (typeof (field v "feedback")) TString)
         || negb (Array_isArray (field v "issues"))
      then Throw (Error "Invalid data format received from API for quality check.")
      else Ok {| is_suitable := asBoolean (field v "is_suitable");
                 feedback := asString (field v "feedback");
                 issues := asArray (field v "issues") |}
  | _ => Throw SyntaxError
  end.

(** ** Strings and training examples *)

Fixpoint commaFree (s : string) : bool :=
  match s with
  | EmptyString => true
  | String c rest => negb (Ascii.eqb c ","%char) && commaFree rest
  end.

(** The count that [field] names, and the other one. *)
Definition countOf (field : CalibrationModal.CountField)
    (ex : CalibrationModal.TrainingExample) : Q :=
  match field with
  | CalibrationModal.positive_field => CalibrationModal.positive_nuclei_count ex
  | CalibrationModal.negative_field => CalibrationModal.negative_nuclei_count ex
  end.

Definition otherField (field : CalibrationModal.CountField)
    : CalibrationModal.CountField :=
  match field with
  | CalibrationModal.positive_field => CalibrationModal.negative_field
  | CalibrationModal.negative_field => CalibrationModal.positive_field
  end.

(** What a count change never touches. *)
Definition description (ex : CalibrationModal.TrainingExample)
    : string * string * string * string :=
  (CalibrationModal.id ex, CalibrationModal.image_base64 ex,
   CalibrationModal.image_name ex, CalibrationModal.mime_type ex).

(** The rubber band: the preview point with the polygon it extends. *)
Definition rubberBand (st : AppState) : option Point * list Point * bool :=
  (previewPoint st, selectionPoints st, isDrawing st).

(** A preview point is only there while a polygon with a first point is
    being drawn, and it lies in the normalized square. *)
Definition previewWhileDrawing (st : AppState) : Prop :=
  forall p, previewPoint st = Some p ->
    isDrawing st = true /\ selectionPoints st <> [] /\ inSquare p.

(** * Fixtures of the scenarios *)

(** A provider that answers from a script, a reader that never fails, a
    canvas that always ends the same way and object URLs numbered by the
    length of the history. *)
Definition scripted (replies : list Reply) (raster : Raster) : Env :=
  {| readable := fun _ => true;
     provider := fun n _ => nth n replies Rejects;
     canvas := fun _ _ => raster;
     objectURL := fun h => length h |}.

Definition rawResult (p n t : Z) : JsValue :=
  JObject [("positive_nuclei_count", JNumber (inject_Z p));
           ("negative_nuclei_count", JNumber (inject_Z n));
           ("total_nuclei_count", JNumber (inject_Z t))].

Definition slide : File :=
  {| name := "slide.png"; type := "image/png"; content := "iVBORw0KGgo=" |}.

Definition emptyWorld : World :=
  {| app := initialState; localStorage := ∅; log := [] |}.

(** A quality check that passes, and the world after uploading [slide] and
    checking it: the provider's first reply is spent on the check, the
    second and third are left for the two passes. *)
Definition qualityOk : Reply :=
  Text (Some (JObject [("is_suitable", JBool true);
                       ("feedback", JString "Sharp and well stained.");
                       ("issues", JArray [])])).

Definition checked (env : Env) : World :=
  run (handleQualityCheck env) (run (handleImageUpload env slide) emptyWorld).

(** The spec's malformed pass: the positive count is a string. *)
Definition stringCount : JsValue :=
  JObject [("positive_nuclei_count", JString "12");
           ("negative_nuclei_count", JNumber 7);
           ("total_nuclei_count", JNumber 19)].

Definition secondPassMalformed : Env :=
  scripted [qualityOk; Text (Some (rawResult 10 5 15)); Text (Some stringCount)]
           NoContext.

(** A session saved by an earlier analysis of [slide], and a provider whose
    second answer is a rejection. *)
Definition prior : AnalysisResult :=
  {| positive_nuclei_count := 40; negative_nuclei_count := 60;
     total_nuclei_count := 100 |}.

Definition savedSession : gmap string Stored :=
  <["lastAnalysisImage" := StoredImage (content slide) (name slide) (type slide)]>
    (<["lastAnalysisResult" := StoredResult prior]> ∅).

Definition secondPassRejects : Env :=
  scripted [Text (Some (rawResult 10 5 15)); Rejects] NoContext.

(** A world with [slide] loaded and the given selection. *)
Definition selecting (points : list Point) (drawing : bool) : World :=
  {| app := with_isDrawing drawing
              (with_selectionPoints points
                 (with_image (Some {| file := slide; url := 0%nat |}) initialState));
     localStorage := ∅;
     log := [] |}.

Definition triangle : list Point :=
  [{| x := 10; y := 10 |}; {| x := 60; y := 10 |}; {| x := 10; y := 60 |}].

(** An environment whose canvas clips. *)
Definition clipping : Env := scripted [] (Png "Y2xpcA==").

(** A pointer event over a preview box of 100 by 100 pixels at the origin,
    so that the pointer position is the percentage. *)
Definition pointerAt (cx cy : R) : MouseEvent :=
  {| clientX := cx; clientY := cy;
     rect_left := 0; rect_top := 0; rect_width := 100; rect_height := 100 |}.

(** The worlds after uploading [slide], after a click at (10, 10) and after
    a second click at the same spot. *)
Definition uploaded : World :=
  run (handler clipping (Upload slide)) (mount clipping ∅).

Definition clickedOnce : World :=
  run (handler clipping (Click (pointerAt 10 10))) uploaded.

Definition clickedTwice : World :=
  run (handler clipping (Click (pointerAt 10 10))) clickedOnce.

(** The world after uploading [slide] and clicking far outside the preview
    box, to the right of it and above it. *)
Definition clickedOutside : World :=
  run (handler clipping (Click (pointerAt 500 (-30)))) uploaded.

(** A store that holds a saved image and no saved result. *)
Definition orphanImage : gmap string Stored :=
  <["lastAnalysisImage" := StoredImage (content slide) (name slide) (type slide)]> ∅.

(** A provider whose two passes succeed, with a canvas that clips. *)
Definition twoPasses : Env :=
  scripted [Text (Some (rawResult 10 5 15)); Text (Some (rawResult 12 7 19))]
           (Png "Y2xpcA==").


(** A provider whose quality check passes, and one whose reply to the check
    lacks the list of issues. *)
Definition passingCheck : Env := scripted [qualityOk] NoContext.

Definition issuesMissing : Env :=
  scripted [Text (Some (JObject [("is_suitable", JBool true);
                                 ("feedback", JString "Sharp and well stained.")]))]
           NoContext.

(** A provider that would answer, behind a canvas that gives no context. *)
Definition noContext : Env :=
  scripted [qualityOk; Text (Some (rawResult 10 5 15)); Text (Some (rawResult 12 7 19))]
           NoContext.

(** A world with [slide] loaded, a triangle selected, a passed quality
    check, a result and the instruction "sharpen" typed. *)
Definition readyToEdit : World :=
  {| app := with_prompt "sharpen"
              (with_analysisResult (Some prior)
                 (with_qualityCheckResult (Some restoredMarker)
                    (app (selecting triangle false))));
     localStorage := savedSession;
     log := [] |}.

(** A provider that answers an edit with an image, and one that answers
    with text. *)
Definition editing : Env := scripted [InlineData "ZWRpdGVk" "image/webp"] NoContext.

Definition notEditing : Env := scripted [Text None] NoContext.

(** Two examples of one slide name read in the same millisecond, and one
    of another slide. *)
Definition example (i image_name : string) (p n : Z) : CalibrationModal.TrainingExample :=
  {| CalibrationModal.id := i;
     CalibrationModal.image_base64 := "AAAA";
     CalibrationModal.image_name := image_name;
     CalibrationModal.mime_type := "image/png";
     CalibrationModal.positive_nuclei_count := inject_Z p;
     CalibrationModal.negative_nuclei_count := inject_Z n |}.

Definition calibration : list CalibrationModal.TrainingExample :=
  [example "a.png-1700000000000" "a.png" 3 4;
   example "b.png-1700000000001" "b.png" 0 0;
   example "a.png-1700000000000" "a.png" 7 1].

(** The world after uploading [slide], clicking once and moving the
    pointer on. *)
Definition movedOn : World :=
  run (handler clipping (Move (pointerAt 40 40))) clickedOnce.

(** The world after restoring [savedSession] and running an analysis whose
    second pass is rejected. *)
Definition failedRun : World :=
  run (handler secondPassRejects Analyze) (mount secondPassRejects savedSession).

(** A second image. *)
Definition scan : File :=
  {| name := "scan.png"; type := "image/png"; content := "c2Nhbg==" |}.

(** The event loop of a restored session of [slide]: an analysis is
    started; while it waits, the image is cleared and [scan] is uploaded;
    then what the analysis awaits happens: its two file reads and the two
    answers of the provider. *)
Definition restored : Interleaved.Loop :=
  {| Interleaved.world := mount twoPasses savedSession; Interleaved.pending := [] |}.

Definition analysing : Interleaved.Loop :=
  Interleaved.spawn (Interleaved.handler twoPasses Analyze) restored.

Definition emptied : Interleaved.Loop :=
  Interleaved.spawn (Interleaved.handler twoPasses ClearImage) analysing.

Definition reloaded : Interleaved.Loop :=
  Interleaved.spawn (Interleaved.handler twoPasses (Upload scan)) emptied.


(** The same with a quality check of [slide] in place of the analysis. *)
Definition fresh : Interleaved.Loop :=
  {| Interleaved.world := mount passingCheck ∅; Interleaved.pending := [] |}.




(** A pointer event over a preview box of 250 by 250 pixels in the corner of
    the viewport, and over one of 100 by 100, as the engine holds them. *)
Definition pixelAt (px py : Z) : Binary64.MouseEvent :=
  {| Binary64.clientX := Binary64.num px; Binary64.clientY := Binary64.num py;
     Binary64.rect_left := Binary64.num 0; Binary64.rect_top := Binary64.num 0;
     Binary64.rect_width := Binary64.num 250;
     Binary64.rect_height := Binary64.num 250 |}.

Definition percentAt (cx cy : Z) : Binary64.MouseEvent :=
  {| Binary64.clientX := Binary64.num cx; Binary64.clientY := Binary64.num cy;
     Binary64.rect_left := Binary64.num 0; Binary64.rect_top := Binary64.num 0;
     Binary64.rect_width := Binary64.num 100;
     Binary64.rect_height := Binary64.num 100 |}.

(** Drawing has started and nothing is selected; then after a click at the
    pixel (1, 1) and after a second one at the pixel (1, 6). *)
Definition drawing : Binary64.Selection :=
  {| Binary64.selectionPoints := []; Binary64.isDrawing := true;
     Binary64.previewPoint := None |}.

Definition firstClick : Binary64.Selection :=
  Binary64.handleImageClick Binary64.bySquaring (pixelAt 1 1) drawing.

Definition secondClick : Binary64.Selection :=
  Binary64.handleImageClick Binary64.bySquaring (pixelAt 1 6) firstClick.

(** The polygon open at its first point (10, 10). *)
Definition openAtCorner : Binary64.Selection :=
  {| Binary64.selectionPoints :=
       [{| Binary64.x := Binary64.num 10; Binary64.y := Binary64.num 10 |}];
     Binary64.isDrawing := true;
     Binary64.previewPoint := None |}.

(** * Properties *)

(** Unfolds the monad and the primitive actions. *)
Ltac js_unfold :=
  cbv [bind ret throw getState history emit update run
       try_catch try_finally try_catch_finally
       localStorage_getItem localStorage_setItem localStorage_removeItem
       console_error URL_revokeObjectURL URL_createObjectURL
       setMode setImage setAnalysisResult setIsLoading setError setPrompt
       setQualityCheckResult setIsQualityChecking setQualityCheckError
       setAnalysisProgress setSelectionPoints setIsDrawing setPreviewPoint];
  cbn [fst snd app localStorage log].

(** ** How the two passes evaluate *)

Lemma requests_app (h h' : list Effect) :
  requests (h ++ h') = (requests h + requests h')%nat.
Proof. unfold requests. now rewrite List.filter_app, length_app. Qed.

Lemma runSingleAnalysis_eval (env : Env) (config : Request) (w : World) :
  runSingleAnalysis env config w =
  (verdict (provider env (requests (log w)) config),
   logged [GenerateContent config; Settled] w).
Proof.
  unfold runSingleAnalysis, generateContent, bind, history, emit, logged.
  cbn [log app localStorage].
  rewrite <- app_assoc. cbn [List.app].
  destruct (provider env (requests (log w)) config) as [|[v|]|d m]; try reflexivity.
  destruct v; try reflexivity.
  cbn. unfold field. cbn.
  now destruct (negb _ || negb _ || negb _).
Qed.

Lemma performQualityCheck_eval (env : Env) (f : File) (w : World) :
  performQualityCheck env f w =
  if readable env f
  then (qualityVerdict (provider env (requests (log w)) (qualityConfig f)),
        logged [GenerateContent (qualityConfig f); Settled] w)
  else (Throw Rejection, w).
Proof.
  unfold performQualityCheck, fileToBase64, generateContent, bind, history, emit,
    logged.
  destruct (readable env f); [|reflexivity].
  cbn [ret log app localStorage]. fold (qualityConfig f).
  rewrite <- app_assoc. cbn [List.app].
  destruct (provider env (requests (log w)) (qualityConfig f)) as [|[v|]|d m];
    try reflexivity.
  destruct v; try reflexivity.
  cbn. unfold field. cbn.
  now destruct (negb _ || negb _ || negb _).
Qed.

Lemma callProgress_requests onProgress (p : Q) (w : World) :
  requests (log (snd (callProgress onProgress p w))) = requests (log w).
Proof.
  destruct onProgress; [|reflexivity].
  unfold callProgress, bind, emit, update. cbn [snd log].
  rewrite requests_app. cbn. lia.
Qed.

Lemma callProgress_Some (callback : Q -> AppState -> AppState) (p : Q) (w : World) :
  callProgress (Some callback) p w =
  (Ok tt, {| app := callback p (app w); localStorage := localStorage w;
             log := log w ++ [OnProgress p] |}).
Proof. reflexivity. Qed.

Lemma callProgress_ok onProgress (p : Q) (w : World) :
  fst (callProgress onProgress p w) = Ok tt.
Proof. destruct onProgress; reflexivity. Qed.

Lemma analyzeIHCImage_outcome (env : Env) (f : File) onProgress (w : World) :
  fst (analyzeIHCImage env f onProgress w) = outcome env f (requests (log w)).
Proof.
  unfold analyzeIHCImage, outcome, bind, fileToBase64.
  pose proof (callProgress_ok onProgress 0 w) as H0.
  pose proof (callProgress_requests onProgress 0 w) as R0.
  destruct (callProgress onProgress 0 w) as [r0 w0]; cbn [fst snd] in H0, R0; subst r0.
  destruct (readable env f); [|reflexivity].
  cbn [ret]. rewrite runSingleAnalysis_eval, R0.
  destruct (verdict (provider env (requests (log w)) _)) as [result1|e]; [|reflexivity].
  set (w1 := logged _ w0).
  pose proof (callProgress_ok onProgress 50 w1) as H1.
  pose proof (callProgress_requests onProgress 50 w1) as R1.
  destruct (callProgress onProgress 50 w1) as [r1 w2]; cbn [fst snd] in H1, R1; subst r1.
  rewrite runSingleAnalysis_eval, R1.
  unfold w1, logged; cbn [log]. rewrite requests_app, R0.
  cbn [requests List.filter isRequest length].
  replace (requests (log w) + 1)%nat with (S (requests (log w))) by lia.
  destruct (verdict (provider env (S (requests (log w))) _)) as [result2|e]; [|reflexivity].
  match goal with |- context [callProgress onProgress 100 ?w3] =>
    pose proof (callProgress_ok onProgress 100 w3) as H2;
    destruct (callProgress onProgress 100 w3) as [r2 w4]
  end.
  cbn [fst] in H2; subst r2.
  reflexivity.
Qed.

(** ** The aggregate of two passes *)

Lemma halfRoundedUp_rounds (a b : Z) :
  roundsHalfUp ((inject_Z a + inject_Z b) / 2) (halfRoundedUp (a + b)).
Proof.
  unfold roundsHalfUp, halfRoundedUp.
  pose proof (Z.div_mod (a + b + 1) 2 ltac:(lia)) as D.
  pose proof (Z.mod_pos_bound (a + b + 1) 2 ltac:(lia)) as B.
  set (r := ((a + b + 1) / 2)%Z) in *.
  unfold Qle, Qlt, Qdiv, Qminus, Qplus, Qmult, Qinv, Qopp, inject_Z; cbn.
  lia.
Qed.

Lemma Math_round_half (a b : Z) :
  Math_round ((inject_Z a + inject_Z b) / 2) = inject_Z (halfRoundedUp (a + b)).
Proof.
  unfold Math_round, halfRoundedUp. f_equal.
  transitivity (Qfloor ((a + b + 1) # 2)); [|reflexivity].
  apply Qfloor_comp.
  unfold Qeq, Qdiv, Qplus, Qmult, Qinv, inject_Z; cbn. lia.
Qed.

Lemma verdict_hasCounts (v : JsValue) (p n : Z) :
  hasCounts v p n ->
  verdict (Text (Some v)) =
  Ok {| positive_nuclei_count := inject_Z p;
        negative_nuclei_count := inject_Z n;
        total_nuclei_count := asNumber (field v "total_nuclei_count") |}.
Proof.
  intros (Hp & Hn & Ht).
  destruct v; try discriminate Hp.
  unfold verdict. rewrite Hp, Hn, Ht. reflexivity.
Qed.

(** ** Binary64 on the integers up to 2^53

    Sums and halves of integers are exact as long as nothing exceeds 2^53,
    and [Math.round] of such a half is the half rounded up. *)

Section Binary64Integers.
Import Binary64.
Local Open Scope Z_scope.

(** The number of binary digits. *)
Lemma digits2_pos_size (m : positive) : digits2_pos m = Pos.size m.
Proof. induction m; cbn; now rewrite ?IHm. Qed.

Lemma size_bounds (m : positive) :
  2 ^ (Zpos (Pos.size m) - 1) <= Zpos m < 2 ^ Zpos (Pos.size m).
Proof.
  split.
  - pose proof (Pos.size_le m) as H.
    assert (Zpos (2 ^ Pos.size m) <= Zpos m~0) by exact H.
    rewrite Pos2Z.inj_pow in H0.
    replace (Zpos (Pos.size m)) with (Zpos (Pos.size m) - 1 + 1) in H0 by lia.
    rewrite Z.pow_add_r in H0 by lia.
    change (Zpos m~0) with (2 * Zpos m) in H0. lia.
  - pose proof (Pos.size_gt m) as H.
    assert (Zpos m < Zpos (2 ^ Pos.size m)) by exact H.
    now rewrite Pos2Z.inj_pow in H0.
Qed.

Lemma size_unique (m : positive) (d : Z) :
  2 ^ (d - 1) <= Zpos m < 2 ^ d -> Zpos (Pos.size m) = d.
Proof.
  intros [Hlo Hhi]. pose proof (size_bounds m) as [Slo Shi].
  assert (0 < d).
  { destruct (Z.ltb_spec 0 d); [assumption|].
    exfalso. assert (2 ^ d <= 2 ^ 0) by (apply Z.pow_le_mono_r; lia).
    change (2 ^ 0) with 1 in *. lia. }
  destruct (Z.lt_trichotomy (Zpos (Pos.size m)) d) as [Hlt|[Heq|Hgt]]; [|assumption|].
  - exfalso.
    assert (2 ^ Zpos (Pos.size m) <= 2 ^ (d - 1)) by (apply Z.pow_le_mono_r; lia). lia.
  - exfalso.
    assert (2 ^ d <= 2 ^ (Zpos (Pos.size m) - 1)) by (apply Z.pow_le_mono_r; lia). lia.
Qed.

Lemma iter_xO (m d : positive) : Zpos (Pos.iter xO m d) = Zpos m * 2 ^ Zpos d.
Proof.
  induction d as [|d IH] using Pos.peano_ind.
  - cbn. lia.
  - rewrite Pos.iter_succ, Pos2Z.inj_succ, Z.pow_succ_r by lia.
    change (Zpos (Pos.iter xO m d)~0) with (2 * Zpos (Pos.iter xO m d)). lia.
Qed.

Lemma size_shift (m : positive) (k : Z) (M : positive) :
  0 <= k -> Zpos M = Zpos m * 2 ^ k ->
  Zpos (Pos.size M) = Zpos (Pos.size m) + k.
Proof.
  intros Hk HM. apply size_unique. rewrite HM.
  pose proof (size_bounds m) as [Slo Shi].
  assert (0 < 2 ^ k) by (apply Z.pow_pos_nonneg; lia).
  replace (Zpos (Pos.size m) + k - 1) with (Zpos (Pos.size m) - 1 + k) by lia.
  rewrite !Z.pow_add_r by lia. split; nia.
Qed.

Lemma Zdigits2_pos (m : positive) : Zdigits2 (Zpos m) = Zpos (Pos.size m).
Proof. cbn. now rewrite digits2_pos_size. Qed.

(** Shifting zero bits out loses nothing. *)
Lemma iter_pos_nat {A} (f : A -> A) (p : positive) (x : A) :
  SpecFloat.iter_pos f p x = Nat.iter (Pos.to_nat p) f x.
Proof.
  revert x. induction p as [p IH|p IH|]; intros x; cbn [SpecFloat.iter_pos].
  - rewrite !IH. rewrite Pos2Nat.inj_xI. cbn [Nat.iter Nat.mul].
    rewrite <- !Nat.iter_add. rewrite Nat.iter_succ_r.
    f_equal. lia.
  - rewrite !IH. rewrite Pos2Nat.inj_xO. rewrite <- Nat.iter_add. f_equal. lia.
  - reflexivity.
Qed.

Lemma shr_1_even (m : positive) :
  shr_1 {| shr_m := Zpos m~0; shr_r := false; shr_s := false |}
  = {| shr_m := Zpos m; shr_r := false; shr_s := false |}.
Proof. reflexivity. Qed.

Lemma shr_exact_nat (n : nat) (m : positive) (M : Z) :
  M = Zpos m * 2 ^ Z.of_nat n ->
  Nat.iter n shr_1 {| shr_m := M; shr_r := false; shr_s := false |}
  = {| shr_m := Zpos m; shr_r := false; shr_s := false |}.
Proof.
  revert M. induction n as [|n IH]; intros M HM.
  - cbn in *. f_equal. lia.
  - rewrite Nat.iter_succ_r.
    rewrite Nat2Z.inj_succ, Z.pow_succ_r in HM by lia.
    assert (0 < 2 ^ Z.of_nat n) by (apply Z.pow_pos_nonneg; lia).
    pose (q := Z.to_pos (Zpos m * 2 ^ Z.of_nat n)).
    assert (Hq : Zpos q = Zpos m * 2 ^ Z.of_nat n) by (unfold q; rewrite Z2Pos.id; nia).
    replace M with (Zpos q~0) by lia.
    rewrite shr_1_even. apply IH. exact Hq.
Qed.

Lemma shr_exact (m : positive) (k e : Z) :
  0 <= k ->
  shr {| shr_m := Zpos m * 2 ^ k; shr_r := false; shr_s := false |} (e - k) k
  = ({| shr_m := Zpos m; shr_r := false; shr_s := false |}, e).
Proof.
  intros Hk. unfold shr. destruct k as [|k|k]; try lia.
  - cbn. do 2 f_equal; lia.
  - rewrite iter_pos_nat. rewrite (shr_exact_nat _ m).
    + f_equal. lia.
    + now rewrite positive_nat_Z.
Qed.

(** A mantissa of exactly 53 bits followed by [k] zero bits rounds to itself. *)
Lemma round_exact (s : bool) (m : positive) (e k : Z) :
  Zpos (Pos.size m) = 53 -> -1074 <= e <= 971 -> 0 <= k ->
  binary_round_aux prec emax s (Zpos m * 2 ^ k) (e - k) loc_Exact
  = S754_finite s m e.
Proof.
  intros Hm He Hk.
  assert (Hpos : 0 < Zpos m * 2 ^ k) by (assert (0 < 2 ^ k) by (apply Z.pow_pos_nonneg; lia); nia).
  pose (M := Z.to_pos (Zpos m * 2 ^ k)).
  assert (HM : Zpos M = Zpos m * 2 ^ k) by (unfold M; rewrite Z2Pos.id; lia).
  assert (Hd : Zdigits2 (Zpos m * 2 ^ k) = 53 + k).
  { rewrite <- HM, Zdigits2_pos, (size_shift m k M) by assumption. lia. }
  unfold binary_round_aux, shr_fexp.
  rewrite Hd. unfold fexp, emin, prec, emax, shr_record_of_loc.
  replace (Z.max (53 + k + (e - k) - 53) (3 - 1024 - 53) - (e - k)) with k by lia.
  rewrite shr_exact by assumption.
  cbn [shr_m loc_of_shr_record shr_r shr_s round_nearest_even].
  rewrite Zdigits2_pos, Hm.
  replace (Z.max (53 + e - 53) (3 - 1024 - 53) - e) with 0 by lia.
  cbn [shr shr_m].
  destruct (Z.leb_spec e (1024 - 53)); [reflexivity|lia].
Qed.

Lemma pow2_pos (k : Z) : 0 <= k -> 0 < 2 ^ k.
Proof. intros. apply Z.pow_pos_nonneg; lia. Qed.

Lemma pow2_split (a b : Z) : 0 <= b <= a -> 2 ^ a = 2 ^ (a - b) * 2 ^ b.
Proof. intros. rewrite <- Z.pow_add_r by lia. f_equal. lia. Qed.

Lemma shl_align_value (m : positive) (e e' : Z) :
  e' <= e ->
  Zpos (fst (shl_align m e e')) = Zpos m * 2 ^ (e - e')
  /\ snd (shl_align m e e') = e'.
Proof.
  intros H. unfold shl_align.
  destruct (e' - e) as [|d|d] eqn:Hd; try lia.
  - replace (e - e') with 0 by lia. cbn [fst snd]. split; lia.
  - cbn [fst snd]. unfold shift_pos. rewrite iter_xO.
    split; [|reflexivity]. do 2 f_equal. lia.
Qed.

Lemma shl_align_keep (m : positive) (e e' : Z) :
  e <= e' -> shl_align m e e' = (m, e).
Proof.
  intros H. unfold shl_align. destruct (e' - e) as [|d|d] eqn:Hd; try lia; reflexivity.
Qed.

(** The value [M * 2^E], written with a 53-bit mantissa [m], rounds to [m * 2^e]. *)
Lemma binary_round_value (s : bool) (M : positive) (E : Z) (m : positive) (e : Z) :
  Zpos (Pos.size m) = 53 -> -1074 <= e <= 971 -> -1074 <= E ->
  Zpos M * 2 ^ (E + 1074) = Zpos m * 2 ^ (e + 1074) ->
  binary_round prec emax s M E = S754_finite s m e.
Proof.
  intros Hm He HE Hv. unfold binary_round.
  pose proof (size_bounds m) as Bm. rewrite Hm in Bm.
  pose proof (size_bounds M) as BM.
  destruct (Z.le_gt_cases e E) as [Hle|Hgt].
  - (* the mantissa is short: align it to the left *)
    assert (HmM : Zpos m = Zpos M * 2 ^ (E - e)).
    { rewrite (pow2_split (E + 1074) (e + 1074)) in Hv by lia.
      replace (E + 1074 - (e + 1074)) with (E - e) in Hv by lia.
      pose proof (pow2_pos (e + 1074)). nia. }
    assert (Hs : Zpos (Pos.size m) = Zpos (Pos.size M) + (E - e))
      by (apply (size_shift M); [lia|assumption]).
    assert (Hf : fexp prec emax (Zpos (digits2_pos M) + E) = e).
    { rewrite digits2_pos_size. unfold fexp, emin, prec, emax. lia. }
    rewrite Hf.
    destruct (shl_align_value M E e Hle) as [Hv1 Hv2].
    destruct (shl_align M E e) as [mz ez]. cbn [fst snd] in *. subst ez.
    replace mz with m by lia.
    replace (Zpos m) with (Zpos m * 2 ^ 0) by (cbn; lia).
    replace e with (e - 0) at 1 by lia.
    apply round_exact; lia.
  - assert (HMm : Zpos M = Zpos m * 2 ^ (e - E)).
    { rewrite (pow2_split (e + 1074) (E + 1074)) in Hv by lia.
      replace (e + 1074 - (E + 1074)) with (e - E) in Hv by lia.
      pose proof (pow2_pos (E + 1074)). nia. }
    assert (Hs : Zpos (Pos.size M) = Zpos (Pos.size m) + (e - E))
      by (apply (size_shift m); [lia|assumption]).
    assert (Hf : fexp prec emax (Zpos (digits2_pos M) + E) = e).
    { rewrite digits2_pos_size. unfold fexp, emin, prec, emax. lia. }
    rewrite Hf, shl_align_keep by lia.
    rewrite HMm. replace E with (e - (e - E)) at 2 by lia.
    apply round_exact; lia.
Qed.

(** Every integer from 1 to 2^53 has a 53-bit representation. *)
Lemma canonical (n : positive) :
  Zpos n <= 2 ^ 53 ->
  exists (m : positive) (e : Z),
    Zpos (Pos.size m) = 53 /\ -52 <= e <= 1 /\
    Zpos n * 2 ^ 1074 = Zpos m * 2 ^ (e + 1074).
Proof.
  intros Hn. pose proof (size_bounds n) as Bn.
  destruct (Z.eq_dec (Zpos n) (2 ^ 53)) as [Heq|Hne].
  - exists 4503599627370496%positive, 1. rewrite Heq. repeat split; lia.
  - assert (Hd : Zpos (Pos.size n) <= 53).
    { destruct (Z.le_gt_cases (Zpos (Pos.size n)) 53); [assumption|exfalso].
      assert (2 ^ 53 <= 2 ^ (Zpos (Pos.size n) - 1)) by (apply Z.pow_le_mono_r; lia).
      lia. }
    pose (j := 53 - Zpos (Pos.size n)).
    pose (m := Z.to_pos (Zpos n * 2 ^ j)).
    assert (Hm : Zpos m = Zpos n * 2 ^ j).
    { unfold m. rewrite Z2Pos.id; [reflexivity|]. pose proof (pow2_pos j). unfold j in *. nia. }
    exists m, (- j). repeat split; try (unfold j; lia).
    + rewrite (size_shift n j m) by (unfold j; lia || assumption). unfold j. lia.
    + rewrite Hm. rewrite <- Z.mul_assoc, <- Z.pow_add_r by (unfold j; lia).
      do 2 f_equal. lia.
Qed.

Lemma num_value (n m : positive) (e : Z) :
  Zpos (Pos.size m) = 53 -> -1074 <= e <= 971 ->
  Zpos n * 2 ^ 1074 = Zpos m * 2 ^ (e + 1074) ->
  num (Zpos n) = S754_finite false m e.
Proof.
  intros. unfold num, binary_normalize. apply binary_round_value; lia.
Qed.

Lemma add_num (a b : Z) :
  0 <= a -> 0 <= b -> a + b <= 2 ^ 53 -> add (num a) (num b) = num (a + b).
Proof.
  intros Ha Hb Hab.
  destruct a as [|a|a]; [|destruct b as [|b|b]|]; try lia.
  - destruct b as [|b|b]; try lia; [reflexivity|].
    destruct (canonical b) as (m & e & Hm & He & Hv); [lia|].
    rewrite Z.add_0_l. rewrite (num_value b m e) by (assumption || lia). reflexivity.
  - rewrite Z.add_0_r.
    destruct (canonical a) as (m & e & Hm & He & Hv); [lia|].
    rewrite (num_value a m e) by (assumption || lia). reflexivity.
  - destruct (canonical a) as (ma & ea & Hma & Hea & Hva); [lia|].
    destruct (canonical b) as (mb & eb & Hmb & Heb & Hvb); [lia|].
    destruct (canonical (a + b)) as (mc & ec & Hmc & Hec & Hvc); [lia|].
    rewrite (num_value a ma ea), (num_value b mb eb) by (assumption || lia).
    change (Zpos a + Zpos b) with (Zpos (a + b)).
    rewrite (num_value (a + b) mc ec) by (assumption || lia).
    unfold add, SFadd. cbn [cond_Zopp].
    destruct (shl_align_value ma ea (Z.min ea eb)) as [A1 A2]; [lia|].
    destruct (shl_align_value mb eb (Z.min ea eb)) as [B1 B2]; [lia|].
    destruct (shl_align ma ea (Z.min ea eb)) as [xa xe].
    destruct (shl_align mb eb (Z.min ea eb)) as [xb ye].
    cbn [fst snd] in *. subst xe ye.
    change (Zpos xa + Zpos xb) with (Zpos (xa + xb)).
    unfold binary_normalize. apply binary_round_value; try lia.
    rewrite Pos2Z.inj_add, A1, B1, <- Hvc, Pos2Z.inj_add.
    rewrite Z.mul_add_distr_r, <- !Z.mul_assoc, <- !Z.pow_add_r by lia.
    replace (ea - Z.min ea eb + (Z.min ea eb + 1074)) with (ea + 1074) by lia.
    replace (eb - Z.min ea eb + (Z.min ea eb + 1074)) with (eb + 1074) by lia.
    lia.
Qed.

Lemma num_2 : num 2 = S754_finite false 4503599627370496 (-51).
Proof. reflexivity. Qed.

Lemma half_exact (m : positive) (e : Z) :
  Zpos (Pos.size m) = 53 -> -1072 <= e <= 972 ->
  div (S754_finite false m e) (num 2) = S754_finite false m (e - 1).
Proof.
  intros Hm He. rewrite num_2. unfold div, SFdiv. cbn [xorb].
  unfold SFdiv_core_binary.
  rewrite Zdigits2_pos, Hm.
  change (Zdigits2 4503599627370496) with 53.
  unfold fexp, emin, prec, emax.
  replace (Z.min (Z.max (53 + e - (53 + -51) - 53) (3 - 1024 - 53)) (e - -51))
    with (e - 2) by lia.
  replace (e - -51 - (e - 2)) with 53 by lia.
  cbn match.
  rewrite Z.shiftl_mul_pow2 by lia.
  assert (Hq : Z.div_eucl (Zpos m * 2 ^ 53) 4503599627370496 = (Zpos m * 2 ^ 1, 0)).
  { pose proof (Z.div_eucl_eq (Zpos m * 2 ^ 53) 4503599627370496 ltac:(lia)) as Hd.
    pose proof (Z.mod_pos_bound (Zpos m * 2 ^ 53) 4503599627370496 ltac:(lia)) as Hb.
    unfold Z.modulo in Hb.
    destruct (Z.div_eucl (Zpos m * 2 ^ 53) 4503599627370496) as [q r].
    change (2 ^ 53) with (2 * 4503599627370496) in Hd.
    assert (r = 0) by lia. subst r.
    f_equal. change (2 ^ 1) with 2. lia. }
  rewrite Hq. cbn match.
  change (new_location 4503599627370496 0) with loc_Exact.
  replace (e - 2) with (e - 1 - 1) by lia.
  apply round_exact; lia.
Qed.

Lemma round_half (s : Z) :
  0 <= s <= 2 ^ 53 -> Math_round (div (num s) (num 2)) = num ((s + 1) / 2).
Proof.
  intros Hs. destruct s as [|s|s]; try lia; [reflexivity|].
  destruct (canonical s) as (m & e & Hm & He & Hv); [lia|].
  rewrite (num_value s m e), half_exact by (assumption || lia).
  unfold Math_round. destruct (Z.leb_spec 0 (e - 1)) as [Hpos|Hneg].
  - (* an even integer of 53 bits: nothing to round *)
    assert (e = 1) by lia. subst e.
    assert (Hsm : Zpos s = Zpos m * 2).
    { change (2 ^ (1 + 1074)) with (2 * 2 ^ 1074) in Hv.
      pose proof (pow2_pos 1074). lia. }
    rewrite Hsm. replace ((Zpos m * 2 + 1) / 2) with (Zpos m)
      by (apply (Z.div_unique _ 2 _ 1); lia).
    symmetry. apply num_value; [assumption|lia|reflexivity].
  - cbn [cond_Zopp]. unfold num. f_equal.
    assert (Hms : Zpos m = Zpos s * 2 ^ (- e)).
    { rewrite (pow2_split 1074 (e + 1074)) in Hv by lia.
      replace (1074 - (e + 1074)) with (- e) in Hv by lia.
      pose proof (pow2_pos (e + 1074)). nia. }
    rewrite Z.shiftr_div_pow2 by lia.
    replace (- (e - 1) - 1) with (- e) by lia.
    replace (- (e - 1)) with (1 + - e) by lia.
    rewrite Z.pow_add_r by lia. change (2 ^ 1) with 2.
    rewrite Hms.
    pose proof (pow2_pos (- e)).
    replace (Zpos s * 2 ^ (- e) + 2 ^ (- e)) with ((Zpos s + 1) * 2 ^ (- e)) by ring.
    rewrite Z.div_mul_cancel_r by lia. reflexivity.
Qed.

Lemma toQ_num (z : Z) : 0 <= z <= 2 ^ 53 -> (toQ (num z) == inject_Z z)%Q.
Proof.
  intros Hz. destruct z as [|n|n]; try lia; [reflexivity|].
  destruct (canonical n) as (m & e & Hm & He & Hv); [lia|].
  rewrite (num_value n m e) by (assumption || lia).
  unfold toQ. cbn [cond_Zopp].
  destruct (Z.le_gt_cases e 0) as [Hle|Hgt].
  - assert (Hmn : Zpos m = Zpos n * 2 ^ (- e)).
    { rewrite (pow2_split 1074 (e + 1074)) in Hv by lia.
      replace (1074 - (e + 1074)) with (- e) in Hv by lia.
      pose proof (pow2_pos (e + 1074)). nia. }
    rewrite Hmn, inject_Z_mult, Zpower_Qpower by lia.
    rewrite <- Qmult_assoc, <- Qpower_plus by discriminate.
    replace (- e + e) with 0 by lia. apply Qmult_1_r.
  - assert (e = 1) by lia. subst e.
    assert (Hnm : Zpos n = Zpos m * 2).
    { change (2 ^ (1 + 1074)) with (2 * 2 ^ 1074) in Hv.
      pose proof (pow2_pos 1074). lia. }
    rewrite Hnm, inject_Z_mult. reflexivity.
Qed.

Lemma halfRoundedUp_bounds (s : Z) :
  0 <= s <= 2 ^ 53 -> 0 <= halfRoundedUp s <= 2 ^ 52.
Proof.
  intros Hs. unfold halfRoundedUp.
  pose proof (Z.div_mod (s + 1) 2 ltac:(lia)) as D.
  pose proof (Z.mod_pos_bound (s + 1) 2 ltac:(lia)) as B.
  change (2 ^ 53) with (2 * 2 ^ 52) in Hs. lia.
Qed.

Lemma average_exact (p1 n1 p2 n2 : Z) (t1 t2 : Number) :
  0 <= p1 -> 0 <= n1 -> 0 <= p2 -> 0 <= n2 ->
  p1 + p2 <= 2 ^ 53 -> n1 + n2 <= 2 ^ 53 ->
  average {| positive_nuclei_count := num p1; negative_nuclei_count := num n1;
             total_nuclei_count := t1 |}
          {| positive_nuclei_count := num p2; negative_nuclei_count := num n2;
             total_nuclei_count := t2 |}
  = {| positive_nuclei_count := num (halfRoundedUp (p1 + p2));
       negative_nuclei_count := num (halfRoundedUp (n1 + n2));
       total_nuclei_count :=
         num (halfRoundedUp (p1 + p2) + halfRoundedUp (n1 + n2)) |}.
Proof.
  intros. unfold average. cbn [positive_nuclei_count negative_nuclei_count].
  rewrite !add_num by lia.
  unfold halfRoundedUp at 1 2. rewrite <- !round_half by lia.
  pose proof (halfRoundedUp_bounds (p1 + p2) ltac:(lia)).
  pose proof (halfRoundedUp_bounds (n1 + n2) ltac:(lia)).
  rewrite !round_half by lia. fold (halfRoundedUp (p1 + p2)) (halfRoundedUp (n1 + n2)).
  rewrite add_num; [reflexivity|lia|lia|].
  change (2 ^ 53) with (2 ^ 52 + 2 ^ 52). lia.
Qed.

End Binary64Integers.

(** ** C1 *)

(** C1.  When the two passes return raw results with non-negative integer
    counts whose sums stay within 2^53, [analyzeIHCImage] returns the
    aggregate whose positive and negative counts are the two averages
    rounded to the nearest integer, an exact midpoint going up, and whose
    total is their sum.  The binary64 computation of lines 195-202 on the
    Numbers of these counts gives the Numbers of the same integers: within
    the bound no operation rounds. *)
Theorem C1_aggregate_rounds_half_up (env : Env) (f : File) onProgress
    (w : World) (v1 v2 : JsValue) (p1 n1 p2 n2 : Z) :
  (0 <= p1)%Z -> (0 <= n1)%Z -> (0 <= p2)%Z -> (0 <= n2)%Z ->
  (p1 + p2 <= 2 ^ 53)%Z -> (n1 + n2 <= 2 ^ 53)%Z ->
  readable env f = true ->
  provider env (requests (log w)) (requestConfig f (content f)) = Text (Some v1) ->
  provider env (S (requests (log w))) (requestConfig f (content f)) = Text (Some v2) ->
  hasCounts v1 p1 n1 ->
  hasCounts v2 p2 n2 ->
  let positive := halfRoundedUp (p1 + p2) in
  let negative := halfRoundedUp (n1 + n2) in
  fst (analyzeIHCImage env f onProgress w) =
    Ok {| positive_nuclei_count := inject_Z positive;
          negative_nuclei_count := inject_Z negative;
          total_nuclei_count := inject_Z positive + inject_Z negative |}
  /\ roundsHalfUp ((inject_Z p1 + inject_Z p2) / 2) positive
  /\ roundsHalfUp ((inject_Z n1 + inject_Z n2) / 2) negative
  /\ (forall t1 t2 : Binary64.Number,
        Binary64.average
          {| Binary64.positive_nuclei_count := Binary64.num p1;
             Binary64.negative_nuclei_count := Binary64.num n1;
             Binary64.total_nuclei_count := t1 |}
          {| Binary64.positive_nuclei_count := Binary64.num p2;
             Binary64.negative_nuclei_count := Binary64.num n2;
             Binary64.total_nuclei_count := t2 |}
        = {| Binary64.positive_nuclei_count := Binary64.num positive;
             Binary64.negative_nuclei_count := Binary64.num negative;
             Binary64.total_nuclei_count := Binary64.num (positive + negative) |})
  /\ (forall c, In c [p1; n1; p2; n2; positive; negative; (positive + negative)%Z] ->
        Binary64.toQ (Binary64.num c) == inject_Z c).
Proof.
  intros Hp1 Hn1 Hp2 Hn2 Bp Bn Hread H1 H2 C1 C2 positive negative.
  pose proof (halfRoundedUp_bounds (p1 + p2) ltac:(lia)) as Bpos.
  pose proof (halfRoundedUp_bounds (n1 + n2) ltac:(lia)) as Bneg.
  fold positive in Bpos. fold negative in Bneg.
  assert (2 ^ 53 = 2 ^ 52 + 2 ^ 52)%Z as Hdouble by reflexivity.
  split; [|split; [|split; [|split]]].
  - rewrite analyzeIHCImage_outcome. unfold outcome.
    rewrite Hread, H1, H2.
    rewrite (verdict_hasCounts _ _ _ C1), (verdict_hasCounts _ _ _ C2).
    unfold average. cbn [positive_nuclei_count negative_nuclei_count].
    now rewrite !Math_round_half.
  - apply halfRoundedUp_rounds.
  - apply halfRoundedUp_rounds.
  - intros t1 t2. now apply average_exact.
  - intros c Hc. apply toQ_num.
    cbn [In] in Hc.
    destruct Hc as [<-|[<-|[<-|[<-|[<-|[<-|[<-|[]]]]]]]]; lia.
Qed.

(** The scenario of the spec: passes [{10, 5, 15}] and [{12, 7, 19}]
    aggregate to [{11, 6, 17}]. *)
Lemma C1_scenario_10_5_12_7 :
  fst (analyzeIHCImage
         (scripted [Text (Some (rawResult 10 5 15)); Text (Some (rawResult 12 7 19))]
                   NoContext)
         slide None emptyWorld) =
    Ok {| positive_nuclei_count := 11; negative_nuclei_count := 6;
          total_nuclei_count := 17 |}
  /\ roundsHalfUp ((10 + 12) / 2) 11
  /\ roundsHalfUp ((5 + 7) / 2) 6
  /\ Binary64.average
       {| Binary64.positive_nuclei_count := Binary64.num 10;
          Binary64.negative_nuclei_count := Binary64.num 5;
          Binary64.total_nuclei_count := Binary64.num 15 |}
       {| Binary64.positive_nuclei_count := Binary64.num 12;
          Binary64.negative_nuclei_count := Binary64.num 7;
          Binary64.total_nuclei_count := Binary64.num 19 |}
     = {| Binary64.positive_nuclei_count := Binary64.num 11;
          Binary64.negative_nuclei_count := Binary64.num 6;
          Binary64.total_nuclei_count := Binary64.num 17 |}
  /\ Binary64.toQ (Binary64.num 17) == 17.
Proof.
  pose proof (C1_aggregate_rounds_half_up
           (scripted [Text (Some (rawResult 10 5 15)); Text (Some (rawResult 12 7 19))]
                     NoContext)
           slide None emptyWorld (rawResult 10 5 15) (rawResult 12 7 19) 10 5 12 7
           ltac:(lia) ltac:(lia) ltac:(lia) ltac:(lia)
           ltac:(vm_compute; discriminate) ltac:(vm_compute; discriminate)
           eq_refl eq_refl eq_refl
           (conj eq_refl (conj eq_refl eq_refl))
           (conj eq_refl (conj eq_refl eq_refl)))
    as (Hresult & Hpositive & Hnegative & Hnumbers & Hdenote).
  split; [exact Hresult|].
  split; [exact Hpositive|].
  split; [exact Hnegative|].
  split; [exact (Hnumbers (Binary64.num 15) (Binary64.num 19))|].
  apply (Hdenote 17%Z). cbn. tauto.
Defined.

(** Positives 3 and 4 average to 4, not 3. *)
Example average_3_4 :
  positive_nuclei_count
    (average {| positive_nuclei_count := 3; negative_nuclei_count := 0;
                total_nuclei_count := 3 |}
             {| positive_nuclei_count := 4; negative_nuclei_count := 0;
                total_nuclei_count := 4 |}) = 4%Q
  /\ Binary64.positive_nuclei_count
       (Binary64.average
          {| Binary64.positive_nuclei_count := Binary64.num 3;
             Binary64.negative_nuclei_count := Binary64.num 0;
             Binary64.total_nuclei_count := Binary64.num 3 |}
          {| Binary64.positive_nuclei_count := Binary64.num 4;
             Binary64.negative_nuclei_count := Binary64.num 0;
             Binary64.total_nuclei_count := Binary64.num 4 |}) = Binary64.num 4.
Proof. split; reflexivity. Qed.

(** Beyond the bound the sum itself is rounded.  The counts 2^53 and 1 are
    Numbers; their sum 2^53 + 1 is not, and the engine holds 2^53 for it.
    The aggregate is 2^52, where the average 2^52 + 1/2 rounded half up is
    2^52 + 1. *)
Lemma C1_sum_beyond_2_53_is_rounded :
  let result1 :=
    {| Binary64.positive_nuclei_count := Binary64.num (2 ^ 53);
       Binary64.negative_nuclei_count := Binary64.num 0;
       Binary64.total_nuclei_count := Binary64.num (2 ^ 53) |} in
  let result2 :=
    {| Binary64.positive_nuclei_count := Binary64.num 1;
       Binary64.negative_nuclei_count := Binary64.num 0;
       Binary64.total_nuclei_count := Binary64.num 1 |} in
  let aggregate := Binary64.average result1 result2 in
  Binary64.toQ (Binary64.positive_nuclei_count result1) == inject_Z (2 ^ 53)
  /\ Binary64.toQ (Binary64.positive_nuclei_count result2) == 1
  /\ Binary64.positive_nuclei_count aggregate = Binary64.num (2 ^ 52)
  /\ Binary64.toQ (Binary64.positive_nuclei_count aggregate) == inject_Z (2 ^ 52)
  /\ halfRoundedUp (2 ^ 53 + 1) = (2 ^ 52 + 1)%Z
  /\ roundsHalfUp ((inject_Z (2 ^ 53) + 1) / 2) (2 ^ 52 + 1)
  /\ ~ Binary64.toQ (Binary64.positive_nuclei_count aggregate)
       == inject_Z (halfRoundedUp (2 ^ 53 + 1))
  /\ (0 <= 2 ^ 53)%Z /\ (0 <= 1)%Z /\ ~ (2 ^ 53 + 1 <= 2 ^ 53)%Z.
Proof.
  cbv zeta.
  repeat split; try reflexivity; try (vm_compute; congruence).
Qed.

(** ** C5 *)



(** ** The trace of the two passes *)

Lemma analyzeIHCImage_trace (env : Env) (f : File)
    (callback : Q -> AppState -> AppState) (w : World) :
  let config := requestConfig f (content f) in
  let after := analyzeIHCImage env f (Some callback) w in
  exists trace : list Effect,
    log (snd after) = log w ++ trace /\
    trace `prefix_of` fullTrace config /\
    match fst after with
    | Ok _ => trace = fullTrace config
    | Throw _ =>
        trace = [OnProgress 0] \/
        trace = [OnProgress 0; GenerateContent config; Settled] \/
        trace = [OnProgress 0; GenerateContent config; Settled;
                 OnProgress 50; GenerateContent config; Settled]
    end.
Proof.
  intros config after. subst after.
  unfold analyzeIHCImage, bind, fileToBase64.
  rewrite callProgress_Some.
  destruct (readable env f).
  2:{ exists [OnProgress 0]. cbn. repeat split; auto.
      now exists (skipn 1 (fullTrace config)). }
  cbn [ret]. fold config. rewrite runSingleAnalysis_eval.
  destruct (verdict _) as [result1|e].
  2:{ exists [OnProgress 0; GenerateContent config; Settled].
      cbn. rewrite <- app_assoc. repeat split; auto.
      now exists (skipn 3 (fullTrace config)). }
  rewrite callProgress_Some, runSingleAnalysis_eval.
  destruct (verdict _) as [result2|e].
  - rewrite callProgress_Some.
    exists (fullTrace config). cbn. rewrite <- !app_assoc. repeat split; auto.
  - exists [OnProgress 0; GenerateContent config; Settled;
            OnProgress 50; GenerateContent config; Settled].
    cbn. rewrite <- !app_assoc. repeat split; auto.
    now exists (skipn 6 (fullTrace config)).
Qed.

(** ** C6 *)

Lemma analyzeIHCImage_log (env : Env) (f : File)
    (callback : Q -> AppState -> AppState) (w : World) :
  let config := requestConfig f (content f) in
  log (snd (analyzeIHCImage env f (Some callback) w)) =
  log w ++ passesTrace config (readable env f)
             (verdict (provider env (requests (log w)) config))
             (verdict (provider env (S (requests (log w))) config)).
Proof.
  intros config.
  unfold analyzeIHCImage, bind, fileToBase64, passesTrace.
  rewrite callProgress_Some.
  destruct (readable env f); [|reflexivity].
  cbn [ret]. fold config. rewrite runSingleAnalysis_eval.
  cbn [log logged]. rewrite requests_app. cbn [requests List.filter isRequest length].
  rewrite Nat.add_0_r.
  destruct (verdict (provider env (requests (log w)) config)) as [result1|e].
  2:{ cbn. now rewrite <- app_assoc. }
  rewrite callProgress_Some, runSingleAnalysis_eval.
  cbn [log logged app localStorage]. rewrite !requests_app.
  cbn [requests List.filter isRequest length].
  match goal with |- context [provider env ?n config] =>
    replace n with (S (requests (log w))) by lia
  end.
  destruct (verdict (provider env (S (requests (log w))) config)) as [result2|e].
  - rewrite callProgress_Some. cbn. now rewrite <- !app_assoc.
  - cbn. now rewrite <- !app_assoc.
Qed.



(** ** How [handleAnalyzeClick] evaluates *)

Lemma same_but_progress (st st' : AppState) :
  with_analysisProgress None st' = with_analysisProgress None st ->
  st' = with_analysisProgress (analysisProgress st') st.
Proof.
  destruct st, st'; cbn.
  now intros [= -> -> -> -> -> -> -> -> -> -> -> ->].
Qed.

Lemma getFileToProcess_frame (env : Env) (w : World) :
  let w0 := snd (getFileToProcess env w) in
  app w0 = app w /\ localStorage w0 = localStorage w /\
  requests (log w0) = requests (log w).
Proof.
  unfold getFileToProcess, getMaskedFile. js_unfold.
  destruct (image (app w)) as [img|]; [|easy].
  destruct (_ && _); [|easy].
  destruct (canvas env _ _); cbn [fst snd app localStorage log];
    rewrite ?requests_app; cbn; repeat split; lia.
Qed.

Lemma analyzeIHCImage_frame (env : Env) (f : File) (w : World) :
  let w' := snd (analyzeIHCImage env f (Some reportProgress) w) in
  localStorage w' = localStorage w /\
  with_analysisProgress None (app w') = with_analysisProgress None (app w).
Proof.
  unfold analyzeIHCImage, bind, fileToBase64.
  rewrite callProgress_Some.
  destruct (readable env f); [|easy].
  cbn [ret]. rewrite runSingleAnalysis_eval.
  destruct (verdict _); [|easy].
  rewrite callProgress_Some, runSingleAnalysis_eval.
  destruct (verdict _); [|easy].
  rewrite callProgress_Some. easy.
Qed.

Lemma handleAnalyzeClick_eval (env : Env) (w w0 : World) (img : Image) (f : File) :
  image (app w) = Some img ->
  getFileToProcess env w = (Ok (Some f), w0) ->
  let w' := run (handleAnalyzeClick env) w in
  match (if readable env (file img) then outcome env f (requests (log w))
         else Throw Rejection) with
  | Ok result =>
      app w' = succeededAnalysis result (app w) /\
      localStorage w' =
        <["lastAnalysisImage" :=
            StoredImage (content (file img)) (name (file img)) (type (file img))]>
          (<["lastAnalysisResult" := StoredResult result]> (localStorage w))
  | Throw _ =>
      app w' = failedAnalysis (app w) /\ localStorage w' = localStorage w
  end.
Proof.
  intros Himg Hfile.
  pose proof (getFileToProcess_frame env w) as (Happ & Hstore & Hreq).
  rewrite Hfile in Happ, Hstore, Hreq. cbn [snd] in Happ, Hstore, Hreq.
  unfold handleAnalyzeClick, fileToBase64. js_unfold.
  rewrite Hfile, Happ, Himg.
  destruct (readable env (file img)).
  2:{ cbn. rewrite Happ, Hstore. easy. }
  rewrite ?Happ, ?Hstore.
  change (fun progress : Q => with_analysisProgress (Some progress))
    with reportProgress.
  match goal with |- context [analyzeIHCImage env f _ ?wX] =>
    pose proof (analyzeIHCImage_outcome env f (Some reportProgress) wX) as Hout;
    pose proof (analyzeIHCImage_frame env f wX) as (Hst & Hfr);
    destruct (analyzeIHCImage env f (Some reportProgress) wX) as [r w1]
  end.
  cbn [fst snd app log localStorage] in Hout, Hst, Hfr.
  rewrite Hreq in Hout. rewrite <- Hout.
  apply same_but_progress in Hfr.
  destruct r; cbn [fst snd app log localStorage]; rewrite Hfr, Hst; easy.
Qed.

(** ** C4 *)

Lemma TypeTag_eqb_neq (t : TypeTag) :
  t <> TNumber -> TypeTag_eqb t TNumber = false.
Proof. destruct t; easy. Qed.

Lemma verdict_malformed (v : JsValue) :
  malformed v ->
  verdict (Text (Some v)) =
  Throw (match v with
         | JNull => TypeError
         | _ => Error "Invalid data format received from API."
         end).
Proof.
  intros (k & Hk & Hty). apply TypeTag_eqb_neq in Hty.
  destruct Hk as [<-|[<-|[<-|[]]]]; destruct v; try reflexivity;
    unfold verdict; rewrite Hty; cbn [negb orb]; rewrite ?orb_true_r; reflexivity.
Qed.

Lemma outcome_malformed (env : Env) (f : File) (n : nat) (v : JsValue) :
  malformed v ->
  provider env n (requestConfig f (content f)) = Text (Some v) \/
  provider env (S n) (requestConfig f (content f)) = Text (Some v) ->
  exists e, outcome env f n = Throw e.
Proof.
  intros Hbad Hreply. unfold outcome.
  destruct (readable env f); [|now eexists].
  destruct Hreply as [-> | ->]; rewrite (verdict_malformed v Hbad).
  - now eexists.
  - destruct (verdict _); now eexists.
Qed.

(** C4.  Let one of the two passes receive a raw result [v] in which a count
    field is missing or is not a number.  That pass throws (the error
    "Invalid data format received from API.", or a [TypeError] when [v] is
    [null]); [analyzeIHCImage] fails as a whole, so nothing is averaged; and
    [handleAnalyzeClick] ends with no analysis result, with its error
    message set and with [localStorage] as it was. *)
Theorem C4_malformed_pass_rejects_analysis (env : Env) (w w0 : World)
    (img : Image) (f : File) (v : JsValue) :
  image (app w) = Some img ->
  getFileToProcess env w = (Ok (Some f), w0) ->
  malformed v ->
  provider env (requests (log w)) (requestConfig f (content f)) = Text (Some v) \/
  provider env (S (requests (log w))) (requestConfig f (content f)) = Text (Some v) ->
  (forall w1 : World,
     provider env (requests (log w1)) (requestConfig f (content f)) = Text (Some v) ->
     fst (runSingleAnalysis env (requestConfig f (content f)) w1) =
     Throw (match v with
            | JNull => TypeError
            | _ => Error "Invalid data format received from API."
            end)) /\
  (forall onProgress (w1 : World),
     requests (log w1) = requests (log w) ->
     exists e, fst (analyzeIHCImage env f onProgress w1) = Throw e) /\
  analysisResult (app (run (handleAnalyzeClick env) w)) = None /\
  error (app (run (handleAnalyzeClick env) w)) =
    Some "An error occurred during analysis. Please try another image." /\
  localStorage (run (handleAnalyzeClick env) w) = localStorage w.
Proof.
  intros Himg Hfile Hbad Hreply.
  destruct (outcome_malformed env f _ v Hbad Hreply) as [e He].
  split; [|split].
  - intros w1 H1. rewrite runSingleAnalysis_eval. cbn [fst].
    rewrite H1. now apply verdict_malformed.
  - intros onProgress w1 H1. exists e.
    now rewrite analyzeIHCImage_outcome, H1.
  - pose proof (handleAnalyzeClick_eval env w w0 img f Himg Hfile) as Hrun.
    cbv zeta in Hrun. rewrite He in Hrun.
    destruct (readable env (file img)); destruct Hrun as [-> ->]; easy.
Qed.

Lemma stringCount_malformed : malformed stringCount.
Proof. exists "positive_nuclei_count". split; [now left | discriminate]. Qed.

(** The scenario of the spec: a valid first pass and a second pass whose
    positive count is a string. *)
Lemma C4_scenario_string_count :
  analysisResult (app (run (handleAnalyzeClick secondPassMalformed)
                           (checked secondPassMalformed))) = None /\
  error (app (run (handleAnalyzeClick secondPassMalformed)
                  (checked secondPassMalformed))) =
    Some "An error occurred during analysis. Please try another image." /\
  localStorage (run (handleAnalyzeClick secondPassMalformed)
                    (checked secondPassMalformed)) =
    localStorage (checked secondPassMalformed).
Proof.
  refine (proj2 (proj2 (C4_malformed_pass_rejects_analysis secondPassMalformed
           (checked secondPassMalformed) (checked secondPassMalformed)
           {| file := slide; url := 0%nat |} slide stringCount _ _ _ _))).
  - vm_compute. reflexivity.
  - vm_compute. reflexivity.
  - exact stringCount_malformed.
  - right. vm_compute. reflexivity.
Defined.

(** ** C3 *)

(** After the session is restored the analysis is offered; its first pass
    succeeds, its second pass is rejected, and the analysis result that was
    there before is gone. *)
Lemma C3_prior_result_is_cleared :
  let w := mount secondPassRejects savedSession in
  let w' := run (handleAnalyzeClick secondPassRejects) w in
  offered (app w) Analyze = true /\
  verdict (provider secondPassRejects 0 (requestConfig slide (content slide))) =
    Ok {| positive_nuclei_count := 10; negative_nuclei_count := 5;
          total_nuclei_count := 15 |} /\
  provider secondPassRejects 1 (requestConfig slide (content slide)) = Rejects /\
  analysisResult (app w) = Some prior /\
  analysisResult (app w') = None.
Proof. vm_compute. repeat split; reflexivity. Qed.

(** C3, amended.  When one of the two passes fails, [analyzeIHCImage] fails
    as a whole and returns no average; [handleAnalyzeClick] then writes
    nothing to [localStorage], sets its error message, and leaves the
    analysis result cleared, as it has been since the analysis started: the
    state is the one before the click with the result, the error, the
    loading flag and the progress replaced. *)
Theorem C3_failed_pass_aborts_analysis (env : Env) (w w0 : World)
    (img : Image) (f : File) :
  image (app w) = Some img ->
  getFileToProcess env w = (Ok (Some f), w0) ->
  passFails env (requestConfig f (content f)) (requests (log w)) \/
  passFails env (requestConfig f (content f)) (S (requests (log w))) ->
  (forall onProgress (w1 : World),
     requests (log w1) = requests (log w) ->
     exists e, fst (analyzeIHCImage env f onProgress w1) = Throw e) /\
  localStorage (run (handleAnalyzeClick env) w) = localStorage w /\
  error (app (run (handleAnalyzeClick env) w)) =
    Some "An error occurred during analysis. Please try another image." /\
  analysisResult (app (run (handleAnalyzeClick env) w)) = None /\
  app (run (handleAnalyzeClick env) w) = failedAnalysis (app w).
Proof.
  intros Himg Hfile Hfail.
  assert (exists e, outcome env f (requests (log w)) = Throw e) as [e He].
  { unfold outcome. destruct (readable env f); [|now eexists].
    destruct Hfail as [[e ->] | [e ->]]; [now eexists|].
    destruct (verdict _); now eexists. }
  split.
  - intros onProgress w1 H1. exists e.
    now rewrite analyzeIHCImage_outcome, H1.
  - pose proof (handleAnalyzeClick_eval env w w0 img f Himg Hfile) as Hrun.
    cbv zeta in Hrun. rewrite He in Hrun.
    destruct (readable env (file img)); destruct Hrun as [-> ->]; easy.
Qed.

(** The second pass is rejected after a first pass that succeeded. *)
Lemma C3_scenario_second_pass_rejected :
  localStorage (run (handleAnalyzeClick secondPassRejects)
                    (mount secondPassRejects savedSession)) =
    localStorage (mount secondPassRejects savedSession) /\
  error (app (run (handleAnalyzeClick secondPassRejects)
                  (mount secondPassRejects savedSession))) =
    Some "An error occurred during analysis. Please try another image." /\
  analysisResult (app (run (handleAnalyzeClick secondPassRejects)
                           (mount secondPassRejects savedSession))) = None.
Proof.
  pose proof (C3_failed_pass_aborts_analysis secondPassRejects
                (mount secondPassRejects savedSession)
                (mount secondPassRejects savedSession)
                {| file := slide; url := 0%nat |} slide) as H.
  destruct H as (_ & Hstore & Herr & Hres & _).
  - vm_compute. reflexivity.
  - vm_compute. reflexivity.
  - right. exists Rejection. vm_compute. reflexivity.
  - repeat split; assumption.
Defined.

(** ** C7 *)

Lemma length_append (s t : string) :
  String.length (s ++ t)%string = (String.length s + String.length t)%nat.
Proof. induction s as [|c s IH]; simpl; [reflexivity | now rewrite IH]. Qed.

Lemma maskedFile_not_source (sourceFile : File) (blob : string) :
  maskedFile sourceFile blob <> sourceFile.
Proof.
  intros H. apply (f_equal name) in H. simpl in H. unfold maskedName in H.
  apply (f_equal String.length) in H.
  rewrite length_append in H. simpl in H. lia.
Qed.

Ltac in_log H :=
  repeat (rewrite in_app_iff in H; cbn [In] in H);
  cbn [In] in H;
  repeat match type of H with
         | _ \/ _ => destruct H as [H|H]
         | False => destruct H
         end;
  try discriminate H.

Lemma getFileToProcess_requests (env : Env) (w : World) (req : Request) :
  In (GenerateContent req) (log (snd (getFileToProcess env w))) ->
  In (GenerateContent req) (log w).
Proof.
  unfold getFileToProcess, getMaskedFile. js_unfold.
  destruct (image (app w)) as [img|]; [|easy].
  destruct (_ && _); [|easy].
  destruct (canvas env _ _); cbn [fst snd app localStorage log];
    intros H; in_log H; assumption.
Qed.

Lemma performQualityCheck_requests (env : Env) (f : File) (w : World)
    (req : Request) :
  In (GenerateContent req) (log (snd (performQualityCheck env f w))) ->
  In (GenerateContent req) (log w) \/ req = qualityConfig f.
Proof.
  unfold performQualityCheck, fileToBase64, generateContent, JSON_parse_text, prop.
  js_unfold.
  destruct (readable env f); [|now left].
  cbn [fst snd app localStorage log].
  destruct (provider env _ _) as [|[v|]|d m];
    cbn [fst snd app localStorage log];
    try (intros H; in_log H; auto; injection H as <-; now right).
  destruct (getProp v "is_suitable"), (getProp v "feedback"), (getProp v "issues");
    cbn [fst snd app localStorage log];
    try (intros H; in_log H; auto; injection H as <-; now right).
  destruct (_ || _); cbn [fst snd app localStorage log];
    intros H; in_log H; auto; injection H as <-; now right.
Qed.

Lemma handleQualityCheck_requests (env : Env) (w : World) (req : Request) :
  In (GenerateContent req) (log (run (handleQualityCheck env) w)) ->
  In (GenerateContent req) (log w) \/
  exists f, fst (getFileToProcess env w) = Ok (Some f) /\ req = qualityConfig f.
Proof.
  pose proof (getFileToProcess_requests env w req) as Hpre.
  unfold handleQualityCheck. js_unfold.
  destruct (getFileToProcess env w) as [[[f|]|e] w0]; cbn [fst snd] in *; auto.
  match goal with |- context [performQualityCheck env f ?wX] =>
    pose proof (performQualityCheck_requests env f wX req) as Hcall;
    destruct (performQualityCheck env f wX) as [[r|e] w1]
  end; cbn [fst snd app localStorage log] in *; intros H; in_log H;
    destruct (Hcall H) as [Hold | ->]; eauto.
Qed.

Lemma handleAnalyzeClick_requests (env : Env) (w : World) (req : Request) :
  In (GenerateContent req) (log (run (handleAnalyzeClick env) w)) ->
  In (GenerateContent req) (log w) \/
  exists f, fst (getFileToProcess env w) = Ok (Some f) /\
            req = requestConfig f (content f).
Proof.
  pose proof (getFileToProcess_requests env w req) as Hpre.
  unfold handleAnalyzeClick, fileToBase64. js_unfold.
  destruct (getFileToProcess env w) as [[[f|]|e] w0]; cbn [fst snd] in *; auto.
  destruct (image (app w0)) as [img|]; cbn [fst snd] in *; auto.
  destruct (readable env (file img)).
  2:{ cbn [fst snd app localStorage log]. intros H; in_log H; auto. }
  match goal with |- context [analyzeIHCImage env f (Some ?cb) ?wX] =>
    pose proof (analyzeIHCImage_trace env f cb wX) as (trace & Hlog & [rest Hpref] & _);
    destruct (analyzeIHCImage env f (Some cb) wX) as [[r|e] w1]
  end; cbn [fst snd app localStorage log] in *; rewrite Hlog;
    intros H; in_log H; auto;
    right; exists f; (split; [reflexivity|]);
    assert (In (GenerateContent req) (fullTrace (requestConfig f (content f)))) as Hin
      by (rewrite Hpref; apply in_or_app; now left);
    unfold fullTrace in Hin; in_log Hin; congruence.
Qed.

Lemma getFileToProcess_eval (env : Env) (w : World) (img : Image) :
  image (app w) = Some img ->
  fst (getFileToProcess env w) =
  if (2 <? length (selectionPoints (app w)))%nat && negb (isDrawing (app w))
  then match canvas env (file img) (map scale (selectionPoints (app w))) with
       | LoadError => Throw Rejection
       | NoContext => Throw (Error "Failed to get canvas context")
       | NoBlob => Throw (Error "Canvas to Blob conversion failed")
       | Png blob => Ok (Some (maskedFile (file img) blob))
       end
  else Ok (Some (file img)).
Proof.
  intros Himg. unfold getFileToProcess, getMaskedFile. js_unfold. rewrite Himg.
  destruct (_ && _); [|reflexivity].
  now destruct (canvas env _ _).
Qed.

Lemma handleQualityCheck_log (env : Env) (w : World) (f : File) :
  fst (getFileToProcess env w) = Ok (Some f) ->
  readable env f = true ->
  exists rest,
    log (run (handleQualityCheck env) w) =
      log (snd (getFileToProcess env w))
      ++ GenerateContent (qualityConfig f) :: Settled :: rest /\
    requests rest = 0%nat.
Proof.
  intros Hfile Hread. unfold handleQualityCheck. js_unfold.
  destruct (getFileToProcess env w) as [[[f'|]|e] w0]; cbn [fst snd] in *;
    try discriminate Hfile.
  injection Hfile as ->.
  rewrite performQualityCheck_eval, Hread. cbn [fst snd app localStorage log logged].
  destruct (qualityVerdict _) as [r|e]; cbn [fst snd app localStorage log logged].
  - exists []. split; [reflexivity | reflexivity].
  - exists [ConsoleError e]. rewrite <- app_assoc. split; reflexivity.
Qed.

Lemma handleAnalyzeClick_log (env : Env) (w : World) (img : Image) (f : File) :
  image (app w) = Some img ->
  fst (getFileToProcess env w) = Ok (Some f) ->
  readable env (file img) = true ->
  let w0 := snd (getFileToProcess env w) in
  let config := requestConfig f (content f) in
  exists rest,
    log (run (handleAnalyzeClick env) w) =
      log w0
      ++ passesTrace config (readable env f)
           (verdict (provider env (requests (log w)) config))
           (verdict (provider env (S (requests (log w))) config))
      ++ rest /\
    requests rest = 0%nat.
Proof.
  intros Himg Hfile Hread w0 config. subst w0.
  pose proof (getFileToProcess_frame env w) as (Happ & Hstore & Hreq).
  cbv zeta in Happ, Hstore, Hreq.
  unfold handleAnalyzeClick, fileToBase64. js_unfold.
  destruct (getFileToProcess env w) as [[[f'|]|e] w0]; cbn [fst snd] in *;
    try discriminate Hfile.
  injection Hfile as ->.
  rewrite Happ, Himg, Hread.
  change (fun progress : Q => with_analysisProgress (Some progress))
    with reportProgress.
  match goal with |- context [analyzeIHCImage env f _ ?wX] =>
    pose proof (analyzeIHCImage_log env f reportProgress wX) as Hlog;
    destruct (analyzeIHCImage env f (Some reportProgress) wX) as [[r|e] w1]
  end; cbv zeta in Hlog; cbn [fst snd app localStorage log] in Hlog |- *;
    rewrite Hreq in Hlog; fold config in Hlog; rewrite Hlog.
  - exists []. rewrite app_nil_r. split; reflexivity.
  - exists [ConsoleError e]. rewrite <- app_assoc. split; reflexivity.
Qed.

(** C7.  With an image loaded, the file that [getFileToProcess] resolves to
    is the masked file (the canvas clip of the image file through the
    selection polygon scaled to 0-1) when the polygon has more than 2 points
    and drawing is finished (it rejects when the canvas gives no clip, and
    does not fall back on the image), and in every other case the image
    file itself; the masked file is never the image file.  Both
    [handleQualityCheck] and [handleAnalyzeClick] send the model that file
    and no other: the request that follows carries its type and content,
    and every request they add to the log does. *)
Theorem C7_effective_input (env : Env) (w : World) (img : Image) :
  image (app w) = Some img ->
  (forall f : File,
     fst (getFileToProcess env w) = Ok (Some f) ->
     ((2 < length (selectionPoints (app w)))%nat /\ isDrawing (app w) = false ->
      exists blob,
        canvas env (file img) (map scale (selectionPoints (app w))) = Png blob /\
        f = maskedFile (file img) blob /\ f <> file img) /\
     (~ ((2 < length (selectionPoints (app w)))%nat /\ isDrawing (app w) = false) ->
      f = file img)) /\
  (~ ((2 < length (selectionPoints (app w)))%nat /\ isDrawing (app w) = false) ->
   fst (getFileToProcess env w) = Ok (Some (file img))) /\
  (forall req : Request,
     In (GenerateContent req) (log (run (handleQualityCheck env) w)) ->
     In (GenerateContent req) (log w) \/
     exists f, fst (getFileToProcess env w) = Ok (Some f) /\
               mimeType req = type f /\ data req = content f) /\
  (forall req : Request,
     In (GenerateContent req) (log (run (handleAnalyzeClick env) w)) ->
     In (GenerateContent req) (log w) \/
     exists f, fst (getFileToProcess env w) = Ok (Some f) /\
               mimeType req = type f /\ data req = content f) /\
  ((2 < length (selectionPoints (app w)))%nat /\ isDrawing (app w) = false ->
   fst (getFileToProcess env w) =
     match canvas env (file img) (map scale (selectionPoints (app w))) with
     | Png blob => Ok (Some (maskedFile (file img) blob))
     | NoBlob => Throw (Error "Canvas to Blob conversion failed")
     | NoContext => Throw (Error "Failed to get canvas context")
     | LoadError => Throw Rejection
     end) /\
  (forall f : File,
     fst (getFileToProcess env w) = Ok (Some f) ->
     readable env f = true ->
     exists rest,
       log (run (handleQualityCheck env) w) =
         log (snd (getFileToProcess env w))
         ++ GenerateContent (qualityConfig f) :: Settled :: rest /\
       requests rest = 0%nat /\
       mimeType (qualityConfig f) = type f /\ data (qualityConfig f) = content f) /\
  (forall f : File,
     fst (getFileToProcess env w) = Ok (Some f) ->
     readable env (file img) = true ->
     readable env f = true ->
     exists rest,
       log (run (handleAnalyzeClick env) w) =
         log (snd (getFileToProcess env w))
         ++ OnProgress 0 :: GenerateContent (requestConfig f (content f)) :: rest /\
       mimeType (requestConfig f (content f)) = type f /\
       data (requestConfig f (content f)) = content f).
Proof.
  intros Himg.
  assert (forall c : bool,
            c = (2 <? length (selectionPoints (app w)))%nat && negb (isDrawing (app w)) ->
            c = true <->
            (2 < length (selectionPoints (app w)))%nat /\ isDrawing (app w) = false)
    as Hcond.
  { intros c ->. rewrite andb_true_iff, Nat.ltb_lt, negb_true_iff. reflexivity. }
  pose proof (getFileToProcess_eval env w img Himg) as Hfile.
  specialize (Hcond _ eq_refl).
  assert (forall req : Request,
     In (GenerateContent req) (log (run (handleQualityCheck env) w)) ->
     In (GenerateContent req) (log w) \/
     exists f, fst (getFileToProcess env w) = Ok (Some f) /\
               mimeType req = type f /\ data req = content f) as Hquality.
  { intros req H. destruct (handleQualityCheck_requests env w req H) as [|(f & Hf & ->)];
      eauto. }
  assert (forall req : Request,
     In (GenerateContent req) (log (run (handleAnalyzeClick env) w)) ->
     In (GenerateContent req) (log w) \/
     exists f, fst (getFileToProcess env w) = Ok (Some f) /\
               mimeType req = type f /\ data req = content f) as Hanalysis.
  { intros req H. destruct (handleAnalyzeClick_requests env w req H) as [|(f & Hf & ->)];
      eauto. }
  split; [|split; [|split; [exact Hquality|split; [exact Hanalysis|split; [|split]]]]].
  - intros f H. split.
    + intros Hyes. apply Hcond in Hyes. rewrite Hyes in Hfile. rewrite Hfile in H.
      destruct (canvas env _ _); try discriminate H.
      injection H as <-. eexists. repeat split. apply maskedFile_not_source.
    + intros Hno. destruct (_ && _).
      * exfalso. apply Hno, Hcond. reflexivity.
      * rewrite Hfile in H. now injection H as <-.
  - intros Hno. destruct (_ && _); [|exact Hfile].
    exfalso. apply Hno, Hcond. reflexivity.
  - intros Hyes. apply Hcond in Hyes. rewrite Hyes in Hfile. rewrite Hfile.
    now destruct (canvas env _ _).
  - intros f Hf Hread.
    destruct (handleQualityCheck_log env w f Hf Hread) as (rest & Hlog & Hrest).
    exists rest. repeat split; assumption.
  - intros f Hf Himgread Hread.
    destruct (handleAnalyzeClick_log env w img f Himg Hf Himgread) as (rest & Hlog & _).
    cbv zeta in Hlog. rewrite Hread in Hlog. unfold passesTrace in Hlog.
    eexists. split; [|split; reflexivity].
    rewrite Hlog. cbn [List.app]. reflexivity.
Qed.

(** A finished triangle is clipped, and the clip is what the quality check
    sends; a finished selection of two points and a triangle still being
    drawn are not clipped. *)
Lemma C7_scenario_triangle :
  (exists blob,
     canvas clipping slide (map scale triangle) = Png blob /\
     maskedFile slide "Y2xpcA==" = maskedFile slide blob /\
     maskedFile slide "Y2xpcA==" <> slide) /\
  fst (getFileToProcess clipping (selecting (firstn 2 triangle) false)) =
    Ok (Some slide) /\
  fst (getFileToProcess clipping (selecting triangle true)) = Ok (Some slide) /\
  fst (getFileToProcess clipping (selecting triangle false)) =
    Ok (Some (maskedFile slide "Y2xpcA==")) /\
  (exists rest,
     log (run (handleQualityCheck clipping) (selecting triangle false)) =
       log (snd (getFileToProcess clipping (selecting triangle false)))
       ++ GenerateContent (qualityConfig (maskedFile slide "Y2xpcA==")) :: Settled
          :: rest /\
     requests rest = 0%nat /\
     mimeType (qualityConfig (maskedFile slide "Y2xpcA==")) = "image/png" /\
     data (qualityConfig (maskedFile slide "Y2xpcA==")) = "Y2xpcA==").
Proof.
  pose proof (C7_effective_input clipping (selecting triangle false)
                {| file := slide; url := 0%nat |} eq_refl)
    as (Hmask & _ & _ & _ & Hclip & Hcheck & _).
  split; [|split; [|split; [|split]]].
  - refine (proj1 (Hmask (maskedFile slide "Y2xpcA==") eq_refl) _).
    split; [cbn; lia | reflexivity].
  - refine (proj1 (proj2 (C7_effective_input clipping
                            (selecting (firstn 2 triangle) false)
                            {| file := slide; url := 0%nat |} eq_refl)) _).
    cbn. lia.
  - refine (proj1 (proj2 (C7_effective_input clipping (selecting triangle true)
                            {| file := slide; url := 0%nat |} eq_refl)) _).
    cbn. intros [_ H]. discriminate H.
  - apply Hclip. split; [cbn; lia | reflexivity].
  - exact (Hcheck (maskedFile slide "Y2xpcA==") eq_refl eq_refl).
Defined.

(** ** The selection polygon *)

Section KeepsPolygon.

Context {A B : Type}.

Lemma keeps_ret (a : A) : keepsPolygon (ret a).
Proof. easy. Qed.

Lemma keeps_throw (e : Exn) : keepsPolygon (@throw A e).
Proof. easy. Qed.

Lemma keeps_bind (m : M A) (k : A -> M B) :
  keepsPolygon m -> (forall a, keepsPolygon (k a)) -> keepsPolygon (bind m k).
Proof.
  intros Hm Hk w. unfold bind. specialize (Hm w).
  destruct (m w) as [[a|e] w1]; cbn [snd] in *; [|assumption].
  now rewrite Hk.
Qed.

End KeepsPolygon.

Lemma keeps_try_catch (body : M unit) (handler : Exn -> M unit) :
  keepsPolygon body -> (forall e, keepsPolygon (handler e)) ->
  keepsPolygon (try_catch body handler).
Proof.
  intros Hb Hh w. unfold try_catch. specialize (Hb w).
  destruct (body w) as [[a|e] w1]; cbn [snd] in *; [assumption|].
  now rewrite Hh.
Qed.

Lemma keeps_try_finally (body final : M unit) :
  keepsPolygon body -> keepsPolygon final ->
  keepsPolygon (try_finally body final).
Proof.
  intros Hb Hf w. unfold try_finally. specialize (Hb w).
  destruct (body w) as [[a|e] w1]; cbn [snd] in *.
  - now rewrite Hf.
  - specialize (Hf w1). destruct (final w1) as [[a|e'] w2]; cbn [snd] in *; congruence.
Qed.

Lemma keeps_emit (e : Effect) : keepsPolygon (emit e).
Proof. easy. Qed.

Lemma keeps_history : keepsPolygon history.
Proof. easy. Qed.

Lemma keeps_getState : keepsPolygon getState.
Proof. easy. Qed.

Lemma keeps_getItem (k : string) : keepsPolygon (localStorage_getItem k).
Proof. easy. Qed.

Lemma keeps_setItem (k : string) (v : Stored) : keepsPolygon (localStorage_setItem k v).
Proof. easy. Qed.

Lemma keeps_removeItem (k : string) : keepsPolygon (localStorage_removeItem k).
Proof. easy. Qed.

Lemma keeps_update (f : AppState -> AppState) :
  (forall st, selectionPoints (f st) = selectionPoints st) ->
  (forall st, isDrawing (f st) = isDrawing st) ->
  keepsPolygon (update f).
Proof. intros Hp Hd w. unfold polygon, update. cbn. now rewrite Hp, Hd. Qed.

Create HintDb polygon.

#[local] Hint Resolve keeps_ret keeps_throw keeps_emit keeps_history keeps_getState
  keeps_getItem keeps_setItem keeps_removeItem : polygon.

(** Goes through a computation built from the monad's combinators, the
    primitive actions and the setters that do not touch the polygon. *)
Ltac keeps :=
  repeat first
    [ progress intros
    | solve [auto with polygon]
    | apply keeps_update; reflexivity
    | apply keeps_bind
    | apply keeps_try_catch
    | apply keeps_try_finally
    | match goal with
      | |- keepsPolygon (match ?c with _ => _ end) => destruct c
      | |- keepsPolygon (if ?c then _ else _) => destruct c
      end ].

Lemma keeps_generateContent (env : Env) (req : Request) :
  keepsPolygon (generateContent env req).
Proof. unfold generateContent. keeps. Qed.

Lemma keeps_performQualityCheck (env : Env) (f : File) :
  keepsPolygon (performQualityCheck env f).
Proof.
  pose proof (keeps_generateContent env).
  unfold performQualityCheck, fileToBase64, JSON_parse_text, prop. keeps.
Qed.

Lemma keeps_analyzeIHCImage (env : Env) (f : File) :
  keepsPolygon (analyzeIHCImage env f (Some reportProgress)).
Proof.
  pose proof (keeps_generateContent env).
  unfold analyzeIHCImage, runSingleAnalysis, callProgress, fileToBase64,
    JSON_parse_text, prop.
  keeps.
Qed.

Lemma keeps_getFileToProcess (env : Env) : keepsPolygon (getFileToProcess env).
Proof.
  unfold getFileToProcess, getMaskedFile, URL_createObjectURL, URL_revokeObjectURL.
  keeps.
Qed.

Lemma keeps_handleQualityCheck (env : Env) : keepsPolygon (handleQualityCheck env).
Proof.
  pose proof (keeps_getFileToProcess env).
  pose proof (keeps_performQualityCheck env).
  unfold handleQualityCheck, try_catch_finally, console_error,
    setIsQualityChecking, setQualityCheckError, setQualityCheckResult.
  keeps.
Qed.

Lemma keeps_handleAnalyzeClick (env : Env) : keepsPolygon (handleAnalyzeClick env).
Proof.
  pose proof (keeps_getFileToProcess env).
  pose proof (keeps_analyzeIHCImage env).
  unfold handleAnalyzeClick, try_catch_finally, console_error, fileToBase64,
    setIsLoading, setError, setAnalysisResult, setAnalysisProgress.
  keeps.
Qed.

Lemma keeps_loadLastSession (env : Env) : keepsPolygon (loadLastSession env).
Proof.
  unfold loadLastSession, base64ToFile, URL_createObjectURL, console_error,
    setImage, setAnalysisResult, setQualityCheckResult.
  keeps.
Qed.

Lemma keeps_editImageWithText (env : Env) (f : File) (instruction : string) :
  keepsPolygon (editImageWithText env f instruction).
Proof.
  pose proof (keeps_generateContent env).
  unfold editImageWithText, fileToBase64, base64ToFile, URL_createObjectURL.
  keeps.
Qed.

Lemma keeps_handleMouseMove (e : MouseEvent) : keepsPolygon (handleMouseMove e).
Proof. unfold handleMouseMove, setPreviewPoint. keeps. Qed.

Lemma keeps_navigate (targetMode : Mode) : keepsPolygon (navigate targetMode).
Proof. unfold navigate, setMode, setError. keeps. Qed.

Lemma keeps_setPrompt (s : string) : keepsPolygon (setPrompt s).
Proof. unfold setPrompt. keeps. Qed.

Lemma clearSelection_polygon (w : World) :
  polygon (run clearSelection w) = ([], true).
Proof. reflexivity. Qed.

Lemma resetState_eval (clearImage : bool) (w : World) :
  resetState clearImage w =
  (Ok tt,
   match clearImage, image (app w) with
   | true, Some img =>
       {| app := cleared (with_image None (app w));
          localStorage :=
            delete "lastAnalysisResult" (delete "lastAnalysisImage" (localStorage w));
          log := log w ++ [RevokeObjectURL (url img)] |}
   | _, _ =>
       {| app := cleared (app w);
          localStorage := delete "lastAnalysisResult" (localStorage w);
          log := log w |}
   end).
Proof.
  unfold resetState, clearSelection, bind at 1, getState at 1.
  destruct clearImage, (image (app w)); reflexivity.
Qed.

Lemma resetState_polygon (clearImage : bool) (w : World) :
  polygon (run (resetState clearImage) w) = ([], true).
Proof.
  unfold run. rewrite resetState_eval.
  destruct clearImage, (image (app w)); reflexivity.
Qed.

Lemma handleImageUpload_eval (env : Env) (f : File) (w : World) :
  run (handleImageUpload env f) w =
  let w1 := snd (resetState true w) in
  {| app := with_image (Some {| file := f; url := objectURL env (log w1) |}) (app w1);
     localStorage := localStorage w1;
     log := log w1 ++ [CreateObjectURL f (objectURL env (log w1))] |}.
Proof.
  unfold handleImageUpload, run, bind at 1.
  rewrite resetState_eval. reflexivity.
Qed.

Lemma handleImageUpload_polygon (env : Env) (f : File) (w : World) :
  polygon (run (handleImageUpload env f) w) = ([], true).
Proof.
  rewrite handleImageUpload_eval, resetState_eval.
  destruct (image (app w)); reflexivity.
Qed.

Lemma handleEditClick_polygon (env : Env) (w : World) :
  polygon (run (handleEditClick env) w) = polygon w \/
  polygon (run (handleEditClick env) w) = ([], true).
Proof.
  unfold handleEditClick. js_unfold.
  destruct (image (app w)) as [img|]; [|now left].
  destruct (String.eqb _ _); [now left|]. right.
  rewrite resetState_eval.
  match goal with |- context [editImageWithText env ?f ?p ?wX] =>
    pose proof (keeps_editImageWithText env f p wX) as Hkeep;
    destruct (editImageWithText env f p wX) as [[r|e] w1]
  end; cbn [snd] in Hkeep; cbn [fst snd app localStorage log]; exact Hkeep.
Qed.

(** What a click does to the polygon (lines 236-254). *)
Lemma handleImageClick_polygon (e : MouseEvent) (w : World) :
  polygon (run (handleImageClick e) w) =
  if isDrawing (app w)
  then if closesPolygon (selectionPoints (app w)) (getPointFromEvent e)
       then (selectionPoints (app w), false)
       else (selectionPoints (app w) ++ [getPointFromEvent e], true)
  else polygon w.
Proof.
  unfold handleImageClick. js_unfold.
  destruct (isDrawing (app w)) eqn:Hdrawing; cbn [negb]; [|reflexivity].
  destruct (closesPolygon _ _); unfold polygon; cbn; now rewrite ?Hdrawing.
Qed.

Lemma sqrt_lt_2 (s : R) : (0 <= s)%R -> (sqrt s < 2)%R <-> (s < 4)%R.
Proof.
  intros Hs. replace 2%R with (sqrt 4) at 1.
  2:{ replace 4%R with (Rsqr 2) by (unfold Rsqr; lra). apply sqrt_Rsqr. lra. }
  split.
  - intros H. apply sqrt_lt_0_alt in H. exact H.
  - intros H. apply sqrt_lt_1_alt. lra.
Qed.

(** On rational points the closing test of [handleImageClick] is the
    computation [closesRational]. *)
Lemma closesPolygon_rational (first p : Q * Q) (rest : list Point) :
  closesPolygon (rational first :: rest) (rational p) = closesRational first p.
Proof.
  unfold closesPolygon, closesRational, distance, clickRadius, rational. cbn [x y].
  set (s := ((Q2R (fst p) - Q2R (fst first)) ^ 2
             + (Q2R (snd p) - Q2R (snd first)) ^ 2)%R).
  assert (s = Q2R ((fst p - fst first) * (fst p - fst first)
                   + (snd p - snd first) * (snd p - snd first))) as Hs.
  { rewrite Q2R_plus, !Q2R_mult, !Q2R_minus. unfold s. ring. }
  assert (0 <= s)%R as Hpos.
  { unfold s. pose proof (pow2_ge_0 (Q2R (fst p) - Q2R (fst first))).
    pose proof (pow2_ge_0 (Q2R (snd p) - Q2R (snd first))). lra. }
  assert (Q2R 4 = 4%R) as H4 by (unfold Q2R; cbn; lra).
  destruct (Rlt_dec (sqrt s) 2) as [Hlt|Hge], (Qlt_le_dec _ 4) as [Hq|Hq];
    try reflexivity.
  - exfalso. apply sqrt_lt_2 in Hlt; [|exact Hpos]. apply Qle_Rle in Hq. lra.
  - exfalso. apply Hge, sqrt_lt_2; [exact Hpos|]. apply Qlt_Rlt in Hq. lra.
Qed.

(** A click 1.4 units to the right of and below the first point is within
    the radius (its distance is about 1.98); one 2 units to the right is
    not. *)
Example closes_at_1_4_not_at_2 :
  closesPolygon [rational (10, 10)%Q] (rational (11.4, 11.4)%Q) = true /\
  closesPolygon [rational (10, 10)%Q] (rational (12, 10)%Q) = false.
Proof. rewrite !closesPolygon_rational. split; reflexivity. Qed.

(** A property of the polygon that holds of the empty open polygon and that
    clicks preserve holds in every reachable world. *)
Lemma polygon_invariant (env : Env) (P : list Point * bool -> Prop) :
  P ([], true) ->
  (forall w e, boxed (Click e) -> P (polygon w) ->
               P (polygon (run (handleImageClick e) w))) ->
  forall w, reachable env w -> P (polygon w).
Proof.
  intros Hinit Hclick w Hreach.
  induction Hreach as [store | w w' Hreach IH Hstep].
  - unfold mount, run. rewrite keeps_loadLastSession. exact Hinit.
  - destruct Hstep as [w ev Hoffered Hboxed].
    destruct ev; cbn [handler]; unfold run.
    + fold (run (handleImageUpload env f) w).
      now rewrite handleImageUpload_polygon.
    + now apply Hclick.
    + now rewrite keeps_handleMouseMove.
    + now rewrite keeps_handleQualityCheck.
    + fold (run clearSelection w). now rewrite clearSelection_polygon.
    + now rewrite keeps_handleAnalyzeClick.
    + fold (run (resetState true) w). now rewrite resetState_polygon.
    + now rewrite keeps_setPrompt.
    + fold (run (handleEditClick env) w).
      destruct (handleEditClick_polygon env w) as [-> | ->]; assumption.
    + now rewrite keeps_navigate.
Qed.

(** ** C2 *)

Section Binary64Grid.
Import Binary64.
Local Open Scope Z_scope.

(** A square does not depend on the sign. *)
Lemma num_opp (p : positive) : num (Zneg p) = SFopp (num (Zpos p)).
Proof.
  unfold num, binary_normalize, binary_round.
  destruct (shl_align _ _ _) as [mz ez].
  unfold binary_round_aux.
  destruct (shr_fexp _ _ _ _ _) as [mrs' e'].
  destruct (shr_fexp _ _ _ _ _) as [mrs'' e''].
  destruct (shr_m mrs''); try reflexivity.
  destruct (e'' <=? _); reflexivity.
Qed.

Lemma mul_opp (a : Number) : mul (SFopp a) (SFopp a) = mul a a.
Proof. destruct a as [s|s| |s m e]; try destruct s; reflexivity. Qed.

Lemma square_abs (d : Z) :
  mul (num d) (num d) = mul (num (Z.abs d)) (num (Z.abs d)).
Proof. destruct d; try reflexivity. cbn [Z.abs]. now rewrite num_opp, mul_opp. Qed.

Lemma in_range (n : nat) (z : Z) : 0 <= z < Z.of_nat n -> In z (range n).
Proof.
  intros Hz. unfold range. apply in_map_iff. exists (Z.to_nat z).
  split; [lia|]. apply in_seq. lia.
Qed.

Lemma same_eq (a b : Number) : same a b = true -> a = b.
Proof.
  destruct a as [s|s| |s m e], b as [t|t| |t n f]; cbn; try discriminate;
    try reflexivity.
  - intros H. apply Bool.eqb_prop in H. now subst.
  - intros H. apply Bool.eqb_prop in H. now subst.
  - intros H. apply andb_prop in H as [H He]. apply andb_prop in H as [Hs Hm].
    apply Bool.eqb_prop in Hs. apply Pos.eqb_eq in Hm. apply Z.eqb_eq in He.
    now subst.
Qed.

(** The differences and the closing test on the integers from 0 to 100, by
    evaluation. *)
Lemma differences_exact :
  forallb (fun a => forallb (fun c => same (sub (num a) (num c)) (num (a - c)))
                            (range 101)) (range 101) = true.
Proof. vm_compute. reflexivity. Qed.

Lemma near_exact :
  forallb (fun dx => forallb (fun dy =>
      Bool.eqb (lt (Math_sqrt (add (mul (num dx) (num dx)) (mul (num dy) (num dy))))
                   (num 2))
               (dx * dx + dy * dy <? 4)) (range 101)) (range 101) = true.
Proof. vm_compute. reflexivity. Qed.

Lemma sub_grid (a c : Z) :
  0 <= a <= 100 -> 0 <= c <= 100 -> sub (num a) (num c) = num (a - c).
Proof.
  intros Ha Hc. apply same_eq.
  pose proof (proj1 (forallb_forall _ _) differences_exact a
                (in_range 101 a ltac:(lia))) as H.
  exact (proj1 (forallb_forall _ _) H c (in_range 101 c ltac:(lia))).
Qed.

Lemma near_grid (dx dy : Z) :
  -100 <= dx <= 100 -> -100 <= dy <= 100 ->
  lt (Math_sqrt (add (mul (num dx) (num dx)) (mul (num dy) (num dy)))) (num 2)
  = (dx * dx + dy * dy <? 4).
Proof.
  intros Hx Hy. rewrite (square_abs dx), (square_abs dy).
  rewrite <- (Z.abs_square dx), <- (Z.abs_square dy).
  apply Bool.eqb_prop.
  pose proof (proj1 (forallb_forall _ _) near_exact (Z.abs dx)
                (in_range 101 (Z.abs dx) ltac:(lia))) as H.
  exact (proj1 (forallb_forall _ _) H (Z.abs dy) (in_range 101 (Z.abs dy) ltac:(lia))).
Qed.

Lemma closesPolygon_grid (a b c d : Z) (rest : list Point) :
  0 <= a <= 100 -> 0 <= b <= 100 -> 0 <= c <= 100 -> 0 <= d <= 100 ->
  closesPolygon bySquaring ({| x := num c; y := num d |} :: rest)
                {| x := num a; y := num b |}
  = ((a - c) * (a - c) + (b - d) * (b - d) <? 4).
Proof.
  intros. unfold closesPolygon, distance, bySquaring, clickRadius. cbn [x y].
  rewrite !sub_grid by lia. apply near_grid; lia.
Qed.

End Binary64Grid.

(** C2.  While the polygon is being drawn, a click at [p] (the clamped point
    of the event) closes it and appends nothing when the polygon has a
    first point and the distance from [p] to it, as line 244 computes it in
    binary64, is less than 2; in every other case [p] is appended and the
    polygon stays open.  When the engine squares by one multiplication and
    both points have integer coordinates from 0 to 100, that computed test
    is the exact one: the squared Euclidean distance is less than 4. *)
Theorem C2_click_closes_or_appends
    (Math_pow : Binary64.Number -> Binary64.Number -> Binary64.Number)
    (e : Binary64.MouseEvent) (s : Binary64.Selection) :
  Binary64.isDrawing s = true ->
  let p := Binary64.getPointFromEvent e in
  let s' := Binary64.handleImageClick Math_pow e s in
  ((exists first rest,
      Binary64.selectionPoints s = first :: rest /\
      Binary64.lt (Binary64.distance Math_pow p first) (Binary64.num 2) = true) ->
   Binary64.isDrawing s' = false /\
   Binary64.selectionPoints s' = Binary64.selectionPoints s /\
   Binary64.previewPoint s' = None) /\
  (~ (exists first rest,
        Binary64.selectionPoints s = first :: rest /\
        Binary64.lt (Binary64.distance Math_pow p first) (Binary64.num 2) = true) ->
   Binary64.isDrawing s' = true /\
   Binary64.selectionPoints s' = Binary64.selectionPoints s ++ [p] /\
   Binary64.previewPoint s' = Binary64.previewPoint s) /\
  (forall a b c d : Z,
     (0 <= a <= 100)%Z -> (0 <= b <= 100)%Z ->
     (0 <= c <= 100)%Z -> (0 <= d <= 100)%Z ->
     Binary64.lt
       (Binary64.distance Binary64.bySquaring
          {| Binary64.x := Binary64.num a; Binary64.y := Binary64.num b |}
          {| Binary64.x := Binary64.num c; Binary64.y := Binary64.num d |})
       (Binary64.num 2)
     = ((a - c) * (a - c) + (b - d) * (b - d) <? 4)%Z).
Proof.
  intros Hdrawing p s'.
  assert (Binary64.closesPolygon Math_pow (Binary64.selectionPoints s) p = true <->
          exists first rest,
            Binary64.selectionPoints s = first :: rest /\
            Binary64.lt (Binary64.distance Math_pow p first) (Binary64.num 2) = true)
    as Hcloses.
  { unfold Binary64.closesPolygon, Binary64.clickRadius.
    destruct (Binary64.selectionPoints s) as [|first rest].
    - split; [discriminate | now intros (? & ? & ? & _)].
    - split; [eauto | now intros (? & ? & [= <- <-] & Hlt)]. }
  assert (s' = if Binary64.closesPolygon Math_pow (Binary64.selectionPoints s) p
               then Binary64.setPreviewPoint None (Binary64.setIsDrawing false s)
               else Binary64.setSelectionPoints (Binary64.selectionPoints s ++ [p]) s)
    as Hclick.
  { unfold s', Binary64.handleImageClick. now rewrite Hdrawing. }
  split; [|split].
  - intros Hyes. apply Hcloses in Hyes. rewrite Hyes in Hclick.
    rewrite Hclick. easy.
  - intros Hno.
    destruct (Binary64.closesPolygon Math_pow (Binary64.selectionPoints s) p) eqn:Hc.
    + exfalso. apply Hno, Hcloses. reflexivity.
    + rewrite Hclick. cbn. easy.
  - intros a b c d Ha Hb Hc Hd.
    exact (closesPolygon_grid a b c d [] Ha Hb Hc Hd).
Qed.

(** With the polygon open at its first point (10, 10): a click at (11, 10)
    closes it, a click at (60, 10) is appended. *)
Lemma C2_scenario_near_and_far :
  (Binary64.isDrawing
     (Binary64.handleImageClick Binary64.bySquaring (percentAt 11 10) openAtCorner)
     = false /\
   Binary64.selectionPoints
     (Binary64.handleImageClick Binary64.bySquaring (percentAt 11 10) openAtCorner)
     = Binary64.selectionPoints openAtCorner) /\
  (Binary64.isDrawing
     (Binary64.handleImageClick Binary64.bySquaring (percentAt 60 10) openAtCorner)
     = true /\
   Binary64.selectionPoints
     (Binary64.handleImageClick Binary64.bySquaring (percentAt 60 10) openAtCorner)
     = Binary64.selectionPoints openAtCorner
       ++ [Binary64.getPointFromEvent (percentAt 60 10)]).
Proof.
  split.
  - destruct (proj1 (C2_click_closes_or_appends Binary64.bySquaring
                       (percentAt 11 10) openAtCorner eq_refl))
      as (Hopen & Hpoints & _).
    + exists {| Binary64.x := Binary64.num 10; Binary64.y := Binary64.num 10 |}, [].
      split; reflexivity.
    + split; assumption.
  - destruct (proj1 (proj2 (C2_click_closes_or_appends Binary64.bySquaring
                              (percentAt 60 10) openAtCorner eq_refl)))
      as (Hopen & Hpoints & _).
    + intros (first & rest & [= <- <-] & Hnear).
      vm_compute in Hnear. discriminate Hnear.
    + split; assumption.
Defined.

(** The Euclidean distance of the claim against the distance of line 244.
    In a box of 250 pixels the clicks at the pixels (1, 1) and (1, 6) store
    the points (0.4, 0.4) and (0.4, 2.4) as binary64 has them: the first a
    little above 0.4, the second a little below 2.4.  They are less than 2
    apart, the difference of their ordinates rounds to 2, and the second
    click is appended. *)
Lemma C2_rounded_distance_appends :
  let first := Binary64.getPointFromEvent (pixelAt 1 1) in
  let p := Binary64.getPointFromEvent (pixelAt 1 6) in
  Binary64.selectionPoints firstClick = [first]
  /\ Binary64.isDrawing firstClick = true
  /\ ((Binary64.toQ (Binary64.x p) - Binary64.toQ (Binary64.x first)) ^ 2
      + (Binary64.toQ (Binary64.y p) - Binary64.toQ (Binary64.y first)) ^ 2
      < 2 ^ 2)%Q
  /\ Binary64.distance Binary64.bySquaring p first = Binary64.num 2
  /\ Binary64.isDrawing secondClick = true
  /\ Binary64.selectionPoints secondClick = [first; p].
Proof.
  cbv zeta. repeat split; try reflexivity.
Qed.

(** ** C8 *)

Lemma distance_self (p : Point) : distance p p = 0%R.
Proof.
  unfold distance.
  replace ((x p - x p) ^ 2 + (y p - y p) ^ 2)%R with 0%R by ring.
  apply sqrt_0.
Qed.

Lemma closesPolygon_first (p : Point) (rest : list Point) :
  closesPolygon (p :: rest) p = true.
Proof.
  unfold closesPolygon, clickRadius. rewrite distance_self.
  destruct (Rlt_dec 0 2) as [|Hno]; [reflexivity | exfalso; lra].
Qed.

Lemma offered_click_after_click (e e' : MouseEvent) (w : World) :
  offered (app (run (handleImageClick e) w)) (Click e') = offered (app w) (Click e').
Proof.
  unfold handleImageClick. js_unfold.
  destruct (isDrawing (app w)); cbn [negb]; [|reflexivity].
  destruct (closesPolygon _ _); reflexivity.
Qed.

Lemma pointerAt_boxed (cx cy : R) : boxed (Click (pointerAt cx cy)).
Proof. cbn. lra. Qed.

Lemma uploaded_reachable : reachable clipping uploaded.
Proof.
  apply (reachable_step clipping (mount clipping ∅)); [apply reachable_mount|].
  apply (step_event clipping (mount clipping ∅) (Upload slide));
    [vm_compute; reflexivity | exact I].
Qed.

Lemma uploaded_offers_click (e : MouseEvent) : offered (app uploaded) (Click e) = true.
Proof. vm_compute. reflexivity. Qed.

Lemma clickedOnce_reachable : reachable clipping clickedOnce.
Proof.
  apply (reachable_step clipping uploaded); [apply uploaded_reachable|].
  apply (step_event clipping uploaded (Click (pointerAt 10 10)));
    [apply uploaded_offers_click | apply pointerAt_boxed].
Qed.

Lemma clickedTwice_reachable : reachable clipping clickedTwice.
Proof.
  apply (reachable_step clipping clickedOnce); [apply clickedOnce_reachable|].
  apply (step_event clipping clickedOnce (Click (pointerAt 10 10)));
    [|apply pointerAt_boxed].
  unfold clickedOnce. cbn [handler].
  rewrite offered_click_after_click. apply uploaded_offers_click.
Qed.

Lemma uploaded_polygon : polygon uploaded = ([], true).
Proof. apply handleImageUpload_polygon. Qed.

Lemma clickedOnce_polygon :
  polygon clickedOnce = ([getPointFromEvent (pointerAt 10 10)], true).
Proof.
  unfold clickedOnce. cbn [handler]. rewrite handleImageClick_polygon.
  pose proof (f_equal fst uploaded_polygon) as Hp.
  pose proof (f_equal snd uploaded_polygon) as Hd.
  cbn [fst snd polygon] in Hp, Hd. rewrite Hp, Hd. reflexivity.
Qed.

Lemma clickedTwice_polygon :
  polygon clickedTwice = ([getPointFromEvent (pointerAt 10 10)], false).
Proof.
  unfold clickedTwice. cbn [handler]. rewrite handleImageClick_polygon.
  pose proof (f_equal fst clickedOnce_polygon) as Hp.
  pose proof (f_equal snd clickedOnce_polygon) as Hd.
  cbn [fst snd polygon] in Hp, Hd. rewrite Hp, Hd.
  now rewrite closesPolygon_first.
Qed.

(** Two clicks at the same spot close a polygon of one point: a closed
    polygon with fewer than 3 points is reachable. *)
Lemma C8_closed_polygon_of_one_point :
  reachable clipping clickedTwice /\
  isDrawing (app clickedTwice) = false /\
  length (selectionPoints (app clickedTwice)) = 1%nat.
Proof.
  split; [exact clickedTwice_reachable|].
  pose proof (f_equal fst clickedTwice_polygon) as Hp.
  pose proof (f_equal snd clickedTwice_polygon) as Hd.
  cbn [fst snd polygon] in Hp, Hd. split; [exact Hd|]. rewrite Hp. reflexivity.
Qed.

(** C8, amended.  In every reachable world the polygon is open or closed,
    and a closed polygon has at least one point: closing needs a first point
    to click near, and nothing more. *)
Theorem C8_closed_polygon_has_a_point (env : Env) (w : World) :
  reachable env w ->
  (isDrawing (app w) = true \/ isDrawing (app w) = false) /\
  (isDrawing (app w) = false -> (1 <= length (selectionPoints (app w)))%nat).
Proof.
  intros Hreach. split; [destruct (isDrawing (app w)); auto|].
  apply (polygon_invariant env
           (fun poly => snd poly = false -> (1 <= length (fst poly))%nat));
    [discriminate | | exact Hreach].
  clear. intros w e _ Hw. rewrite handleImageClick_polygon.
  destruct (isDrawing (app w)) eqn:Hdrawing; [|exact Hw].
  destruct (selectionPoints (app w)) as [|first rest] eqn:Hpoints.
  - cbn. discriminate.
  - destruct (closesPolygon _ _); cbn; intros; lia.
Qed.

(** The closed polygon of one point has its one point. *)
Lemma C8_scenario_clicked_twice :
  (isDrawing (app clickedTwice) = true \/ isDrawing (app clickedTwice) = false) /\
  (isDrawing (app clickedTwice) = false ->
   (1 <= length (selectionPoints (app clickedTwice)))%nat).
Proof.
  exact (C8_closed_polygon_has_a_point clipping clickedTwice clickedTwice_reachable).
Defined.

(** ** C10 *)

Lemma clamp_range (v : R) : (0 <= Rmax 0 (Rmin 100 v) <= 100)%R.
Proof.
  split; [apply Rmax_l|].
  apply Rmax_lub; [lra | apply Rmin_l].
Qed.

Lemma getPointFromEvent_inSquare (e : MouseEvent) : inSquare (getPointFromEvent e).
Proof. split; apply clamp_range. Qed.

(** C10.  The point that [getPointFromEvent] makes of a pointer event has
    both coordinates in [0, 100], wherever the pointer is; so in every
    reachable world every point of the polygon lies in the normalized
    square. *)
Theorem C10_points_in_square (env : Env) (w : World) :
  reachable env w ->
  (forall e : MouseEvent, inSquare (getPointFromEvent e)) /\
  Forall inSquare (selectionPoints (app w)).
Proof.
  intros Hreach. split; [exact getPointFromEvent_inSquare|].
  apply (polygon_invariant env (fun poly => Forall inSquare (fst poly)));
    [constructor | | exact Hreach].
  clear. intros w e _ Hw. rewrite handleImageClick_polygon.
  destruct (isDrawing (app w)); [|exact Hw].
  destruct (closesPolygon _ _); cbn [fst]; [exact Hw|].
  apply Forall_app. split; [exact Hw|].
  constructor; [apply getPointFromEvent_inSquare | constructor].
Qed.

Lemma clickedOutside_reachable : reachable clipping clickedOutside.
Proof.
  apply (reachable_step clipping uploaded); [apply uploaded_reachable|].
  apply (step_event clipping uploaded (Click (pointerAt 500 (-30))));
    [apply uploaded_offers_click | apply pointerAt_boxed].
Qed.

Lemma clickedOutside_points :
  selectionPoints (app clickedOutside) = [{| x := 100; y := 0 |}].
Proof.
  pose proof (handleImageClick_polygon (pointerAt 500 (-30)) uploaded) as H.
  pose proof (f_equal fst uploaded_polygon) as Hp.
  pose proof (f_equal snd uploaded_polygon) as Hd.
  cbn [fst snd polygon] in Hp, Hd. rewrite Hp, Hd in H.
  apply (f_equal fst) in H. cbn [fst polygon closesPolygon app] in H.
  unfold clickedOutside. cbn [handler]. rewrite H.
  unfold getPointFromEvent, pointerAt. cbn.
  replace ((500 - 0) / 100 * 100)%R with 500%R by lra.
  replace ((-30 - 0) / 100 * 100)%R with (-30)%R by lra.
  rewrite (Rmin_left 100 500), (Rmax_right 0 100) by lra.
  rewrite (Rmin_right 100 (-30)), (Rmax_left 0 (-30)) by lra.
  reflexivity.
Qed.

Lemma C10_scenario_click_outside :
  (forall e : MouseEvent, inSquare (getPointFromEvent e)) /\
  Forall inSquare (selectionPoints (app clickedOutside)).
Proof.
  exact (C10_points_in_square clipping clickedOutside clickedOutside_reachable).
Defined.

(** ** The event loop *)

(** The handlers of the first part are the handlers of the event loop run
    with no event in between. *)

Lemma complete_lift {A} (m : M A) :
  Interleaved.complete (Interleaved.lift m) = m.
Proof.
  extensionality w. cbn. destruct (m w) as [[a|e] w']; reflexivity.
Qed.

Lemma complete_abind {A B} (a : Interleaved.Async A) (f : A -> Interleaved.Async B) :
  Interleaved.complete (Interleaved.abind a f) =
  bind (Interleaved.complete a) (fun x => Interleaved.complete (f x)).
Proof.
  induction a as [x|e|C m k IH|k IH]; cbn.
  - reflexivity.
  - reflexivity.
  - extensionality w. unfold bind. destruct (m w) as [r w']. now rewrite IH.
  - exact IH.
Qed.

Lemma complete_try_catch (body : Interleaved.Async unit)
    (handler : Exn -> Interleaved.Async unit) :
  Interleaved.complete (Interleaved.try_catch body handler) =
  try_catch (Interleaved.complete body) (fun e => Interleaved.complete (handler e)).
Proof.
  induction body as [x|e|C m k IH|k IH]; cbn.
  - reflexivity.
  - reflexivity.
  - extensionality w. unfold try_catch. destruct (m w) as [r w']. now rewrite IH.
  - exact IH.
Qed.

Lemma complete_try_finally (body final : Interleaved.Async unit) :
  Interleaved.complete (Interleaved.try_finally body final) =
  try_finally (Interleaved.complete body) (Interleaved.complete final).
Proof.
  induction body as [x|e|C m k IH|k IH]; cbn.
  - reflexivity.
  - rewrite complete_abind. extensionality w. unfold bind, try_finally, throw.
    destruct (Interleaved.complete final w) as [[a|e'] w']; reflexivity.
  - extensionality w. unfold try_finally. destruct (m w) as [r w']. now rewrite IH.
  - exact IH.
Qed.

Lemma complete_try_catch_finally (body : Interleaved.Async unit)
    (handler : Exn -> Interleaved.Async unit) (final : Interleaved.Async unit) :
  Interleaved.complete (Interleaved.try_catch_finally body handler final) =
  try_catch_finally (Interleaved.complete body)
    (fun e => Interleaved.complete (handler e)) (Interleaved.complete final).
Proof.
  unfold Interleaved.try_catch_finally, try_catch_finally.
  now rewrite complete_try_finally, complete_try_catch.
Qed.

Lemma bind_ret_l {A B} (a : A) (k : A -> M B) : bind (ret a) k = k a.
Proof. reflexivity. Qed.

Lemma bind_assoc {A B C} (m : M A) (k : A -> M B) (h : B -> M C) :
  bind (bind m k) h = bind m (fun a => bind (k a) h).
Proof.
  extensionality w. unfold bind. destruct (m w) as [[a|e] w']; reflexivity.
Qed.

Lemma complete_fileToBase64 (env : Env) (f : File) :
  Interleaved.complete (Interleaved.fileToBase64 env f) = fileToBase64 env f.
Proof.
  unfold Interleaved.fileToBase64. rewrite complete_abind, complete_lift.
  reflexivity.
Qed.

Lemma complete_generateContent (env : Env) (req : Request) :
  Interleaved.complete (Interleaved.generateContent env req) = generateContent env req.
Proof.
  unfold Interleaved.generateContent, generateContent.
  rewrite complete_abind, complete_lift, !bind_assoc.
  f_equal. extensionality h. rewrite bind_assoc. f_equal. extensionality u.
  rewrite bind_ret_l, complete_abind. cbn [Interleaved.suspend Interleaved.complete].
  rewrite bind_ret_l, complete_lift. reflexivity.
Qed.

Lemma complete_editImageWithText (env : Env) (f : File) (instruction : string) :
  Interleaved.complete (Interleaved.editImageWithText env f instruction) =
  editImageWithText env f instruction.
Proof.
  unfold Interleaved.editImageWithText, editImageWithText.
  rewrite complete_abind, complete_fileToBase64. f_equal. extensionality base64Image.
  rewrite complete_abind, complete_generateContent. f_equal. extensionality response.
  apply complete_lift.
Qed.

Lemma complete_performQualityCheck (env : Env) (f : File) :
  Interleaved.complete (Interleaved.performQualityCheck env f) =
  performQualityCheck env f.
Proof.
  unfold Interleaved.performQualityCheck, performQualityCheck.
  rewrite complete_abind, complete_fileToBase64. f_equal. extensionality base64Image.
  rewrite complete_abind, complete_generateContent. f_equal. extensionality response.
  apply complete_lift.
Qed.

Lemma complete_runSingleAnalysis (env : Env) (config : Request) :
  Interleaved.complete (Interleaved.runSingleAnalysis env config) =
  runSingleAnalysis env config.
Proof.
  unfold Interleaved.runSingleAnalysis, runSingleAnalysis.
  rewrite complete_abind, complete_generateContent. f_equal. extensionality response.
  apply complete_lift.
Qed.

Lemma complete_analyzeIHCImage (env : Env) (f : File) onProgress :
  Interleaved.complete (Interleaved.analyzeIHCImage env f onProgress) =
  analyzeIHCImage env f onProgress.
Proof.
  unfold Interleaved.analyzeIHCImage, analyzeIHCImage.
  rewrite complete_abind, complete_lift. f_equal. extensionality u0.
  rewrite complete_abind, complete_fileToBase64. f_equal. extensionality base64Image.
  cbv zeta.
  rewrite complete_abind, complete_runSingleAnalysis. f_equal. extensionality result1.
  rewrite complete_abind, complete_lift. f_equal. extensionality u1.
  rewrite complete_abind, complete_runSingleAnalysis. f_equal. extensionality result2.
  rewrite complete_abind, complete_lift. reflexivity.
Qed.

Lemma complete_getMaskedFile (env : Env) (f : File) (points : list Point) :
  Interleaved.complete (Interleaved.getMaskedFile env f points) =
  getMaskedFile env f points.
Proof.
  unfold Interleaved.getMaskedFile, getMaskedFile.
  rewrite complete_abind, complete_lift. f_equal. extensionality src.
  rewrite complete_abind. cbn [Interleaved.suspend Interleaved.complete].
  rewrite bind_ret_l.
  destruct (canvas env f points); reflexivity.
Qed.

Lemma complete_getFileToProcess (env : Env) (w : World) :
  Interleaved.complete (Interleaved.getFileToProcess env (app w)) w =
  getFileToProcess env w.
Proof.
  unfold Interleaved.getFileToProcess, getFileToProcess.
  unfold bind at 1, getState.
  destruct (image (app w)) as [img|]; [|reflexivity].
  destruct (_ && _); [|reflexivity].
  rewrite complete_abind, complete_getMaskedFile. reflexivity.
Qed.

Lemma bind_getState {A} (k : AppState -> M A) (w : World) :
  bind getState k w = k (app w) w.
Proof. reflexivity. Qed.

Lemma bind_at {A B} (m : M A) (k : A -> M B) (w : World) :
  bind m k w =
  match m w with
  | (Ok a, w') => k a w'
  | (Throw e, w') => (Throw e, w')
  end.
Proof. reflexivity. Qed.

Lemma bind_complete_getFileToProcess {A} (env : Env) (k : option File -> M A)
    (w : World) :
  bind (Interleaved.complete (Interleaved.getFileToProcess env (app w))) k w =
  bind (getFileToProcess env) k w.
Proof. unfold bind. now rewrite complete_getFileToProcess. Qed.

(** Compares two computations piece by piece, going under the binders. *)
Ltac same_pieces :=
  repeat first
    [ reflexivity
    | progress rewrite ?complete_abind, ?complete_lift, ?complete_analyzeIHCImage
    | match goal with
      | |- (fun _ => _) = (fun _ => _) => let x := fresh "x" in extensionality x
      | |- bind _ _ = bind _ _ => f_equal
      | |- try_catch_finally _ _ _ = try_catch_finally _ _ _ => f_equal
      end ].

Lemma complete_handleQualityCheck (env : Env) :
  Interleaved.complete (Interleaved.handleQualityCheck env) = handleQualityCheck env.
Proof.
  extensionality w. unfold Interleaved.handleQualityCheck, handleQualityCheck.
  rewrite complete_abind, complete_lift, bind_getState, complete_abind,
    bind_complete_getFileToProcess.
  apply (f_equal (fun k => bind (getFileToProcess env) k w)).
  extensionality fileToProcess. destruct fileToProcess as [f|]; [|reflexivity].
  rewrite complete_abind, complete_lift, complete_try_catch_finally, complete_abind,
    complete_performQualityCheck, !bind_assoc, complete_lift.
  same_pieces.
Qed.

Lemma complete_handleAnalyzeClick (env : Env) :
  Interleaved.complete (Interleaved.handleAnalyzeClick env) = handleAnalyzeClick env.
Proof.
  extensionality w. unfold Interleaved.handleAnalyzeClick, handleAnalyzeClick.
  rewrite complete_abind, complete_lift, bind_getState, complete_abind,
    bind_complete_getFileToProcess.
  pose proof (getFileToProcess_frame env w) as (Happ & _ & _). cbv zeta in Happ.
  rewrite !(bind_at (getFileToProcess env)).
  destruct (getFileToProcess env w) as [[fileToProcess|e] w0]; cbn [snd] in Happ;
    [|reflexivity].
  rewrite bind_getState, Happ.
  destruct fileToProcess as [f|]; [|reflexivity].
  destruct (image (app w)) as [img|]; [|reflexivity].
  rewrite complete_abind, complete_lift, complete_try_catch_finally, complete_abind,
    complete_fileToBase64, !bind_assoc, complete_lift.
  apply equal_f. same_pieces.
Qed.

Lemma complete_handleEditClick (env : Env) :
  Interleaved.complete (Interleaved.handleEditClick env) = handleEditClick env.
Proof.
  extensionality w. unfold Interleaved.handleEditClick, handleEditClick.
  rewrite complete_abind, complete_lift, !bind_getState.
  destruct (image (app w)) as [img|]; [|reflexivity].
  destruct (String.eqb _ _); [reflexivity|].
  rewrite complete_abind, complete_lift, complete_try_catch_finally, complete_abind,
    complete_editImageWithText, !bind_assoc, complete_lift.
  apply equal_f. same_pieces.
Qed.

(** Every handler of the event loop, run with no event in between, is the
    handler of the first part. *)
Lemma complete_handler (env : Env) (ev : UserEvent) :
  Interleaved.complete (Interleaved.handler env ev) = handler env ev.
Proof.
  destruct ev; cbn [Interleaved.handler handler];
    auto using complete_lift, complete_handleQualityCheck,
      complete_handleAnalyzeClick, complete_handleEditClick.
Qed.

(** What is left of a handler that has started, in a loop with the waiting
    handlers [p]. *)
Lemma spawn_eval (a : Interleaved.Async unit) (w : World)
    (p : list (Interleaved.Async unit)) :
  Interleaved.spawn a {| Interleaved.world := w; Interleaved.pending := p |} =
  match Interleaved.advance a w with
  | (inr k, w') => {| Interleaved.world := w'; Interleaved.pending := p ++ [k] |}
  | (inl _, w') => {| Interleaved.world := w'; Interleaved.pending := p |}
  end.
Proof. reflexivity. Qed.

Lemma settle_last (k : Interleaved.Async unit) (w : World)
    (p : list (Interleaved.Async unit)) :
  Interleaved.settle (length p)
    {| Interleaved.world := w; Interleaved.pending := p ++ [k] |} =
  Interleaved.spawn k {| Interleaved.world := w; Interleaved.pending := p |}.
Proof.
  unfold Interleaved.settle, Interleaved.spawn.
  cbn [Interleaved.world Interleaved.pending].
  rewrite nth_error_app2, Nat.sub_diag by lia. cbn [nth_error].
  rewrite firstn_app, Nat.sub_diag, firstn_all, firstn_O, app_nil_r.
  rewrite skipn_app, skipn_all2 by (cbn; lia).
  replace (S (length p) - length p)%nat with 1%nat by lia. cbn [skipn].
  destruct (Interleaved.advance k w) as [[r|k'] w']; [|reflexivity].
  now rewrite app_nil_r.
Qed.

(** A handler that is never kept waiting ends as the handler of the first
    part does. *)
Lemma spawn_completes (env : Env) (a : Interleaved.Async unit) :
  forall (w : World) (p : list (Interleaved.Async unit)),
    Interleaved.reachable env
      (Interleaved.spawn a {| Interleaved.world := w; Interleaved.pending := p |}) ->
    Interleaved.reachable env
      {| Interleaved.world := run (Interleaved.complete a) w;
         Interleaved.pending := p |}.
Proof.
  induction a as [x|e|C m k IH|k IH]; intros w p Hreach.
  - exact Hreach.
  - exact Hreach.
  - unfold run. cbn [Interleaved.complete].
    rewrite spawn_eval in Hreach. cbn [Interleaved.advance] in Hreach.
    destruct (m w) as [r w'] eqn:Hm.
    apply (IH r w' p). rewrite spawn_eval. exact Hreach.
  - cbn [Interleaved.complete]. apply IH.
    rewrite <- settle_last.
    apply (Interleaved.reachable_step env _ _ Hreach).
    apply Interleaved.step_settle.
    cbn [Interleaved.pending]. rewrite length_app. cbn. lia.
Qed.

(** Every world of the first part is a world of the event loop: the
    handlers are then never kept waiting. *)
Lemma reachable_in_the_loop (env : Env) (w : World) :
  reachable env w ->
  Interleaved.reachable env {| Interleaved.world := w; Interleaved.pending := [] |}.
Proof.
  induction 1 as [store | w w' Hreach IH Hstep].
  - apply Interleaved.reachable_mount.
  - destruct Hstep as [w ev Hoffered Hboxed].
    rewrite <- complete_handler.
    apply spawn_completes.
    apply (Interleaved.reachable_step env _ _ IH).
    now apply (Interleaved.step_event env
                 {| Interleaved.world := w; Interleaved.pending := [] |} ev).
Qed.




(** ** C9 *)




(** The sequence of the spec: analyze, clear, load a new image.  The
    analysis is offered after the first quality check, not after the new
    upload, and again after a second quality check; nothing of the first
    session is left in [localStorage]. *)
Example analyze_then_upload_requires_quality_check :
  let env := scripted [qualityOk; Text (Some (rawResult 10 5 15));
                       Text (Some (rawResult 12 7 19)); qualityOk] NoContext in
  let analyzed := run (handler env Analyze) (checked env) in
  let reloaded := run (handler env (Upload slide)) (run (handler env ClearImage) analyzed) in
  offered (app (checked env)) Analyze = true /\
  analysisResult (app analyzed) =
    Some {| positive_nuclei_count := 11; negative_nuclei_count := 6;
            total_nuclei_count := 17 |} /\
  localStorage analyzed !! "lastAnalysisResult" =
    Some (StoredResult {| positive_nuclei_count := 11; negative_nuclei_count := 6;
                          total_nuclei_count := 17 |}) /\
  offered (app reloaded) Analyze = false /\
  analysisResult (app reloaded) = None /\
  localStorage reloaded = ∅ /\
  offered (app (run (handler env QualityCheck) reloaded)) Analyze = true.
Proof. vm_compute. repeat split; reflexivity. Qed.

(** * Further properties of the handlers *)

(** ** Frames *)

Section Preserves.

Context {A B C : Type} (proj : World -> C).

Lemma preserves_ret (a : A) : preserves proj (ret a).
Proof. easy. Qed.

Lemma preserves_throw (e : Exn) : preserves proj (@throw A e).
Proof. easy. Qed.

Lemma preserves_bind (m : M A) (k : A -> M B) :
  preserves proj m -> (forall a, preserves proj (k a)) -> preserves proj (bind m k).
Proof.
  intros Hm Hk w. unfold bind. specialize (Hm w).
  destruct (m w) as [[a|e] w1]; cbn [snd] in *; [|assumption].
  now rewrite Hk.
Qed.

Lemma preserves_try_catch (body : M unit) (handler : Exn -> M unit) :
  preserves proj body -> (forall e, preserves proj (handler e)) ->
  preserves proj (try_catch body handler).
Proof.
  intros Hb Hh w. unfold try_catch. specialize (Hb w).
  destruct (body w) as [[a|e] w1]; cbn [snd] in *; [assumption|].
  now rewrite Hh.
Qed.

Lemma preserves_try_finally (body final : M unit) :
  preserves proj body -> preserves proj final ->
  preserves proj (try_finally body final).
Proof.
  intros Hb Hf w. unfold try_finally. specialize (Hb w).
  destruct (body w) as [[a|e] w1]; cbn [snd] in *.
  - now rewrite Hf.
  - specialize (Hf w1). destruct (final w1) as [[a|e'] w2]; cbn [snd] in *; congruence.
Qed.

End Preserves.

Section OnApp.

Context {B : Type} (g : AppState -> B).

Lemma onApp_emit (e : Effect) : preserves (onApp g) (emit e).
Proof. easy. Qed.

Lemma onApp_history : preserves (onApp g) history.
Proof. easy. Qed.

Lemma onApp_getState : preserves (onApp g) getState.
Proof. easy. Qed.

Lemma onApp_getItem (k : string) : preserves (onApp g) (localStorage_getItem k).
Proof. easy. Qed.

Lemma onApp_setItem (k : string) (v : Stored) :
  preserves (onApp g) (localStorage_setItem k v).
Proof. easy. Qed.

Lemma onApp_removeItem (k : string) : preserves (onApp g) (localStorage_removeItem k).
Proof. easy. Qed.

Lemma onApp_update (f : AppState -> AppState) :
  (forall st, g (f st) = g st) -> preserves (onApp g) (update f).
Proof. intros Hf w. unfold onApp, update. cbn. apply Hf. Qed.

End OnApp.

Lemma store_emit (e : Effect) : preserves localStorage (emit e).
Proof. easy. Qed.

Lemma store_history : preserves localStorage history.
Proof. easy. Qed.

Lemma store_getState : preserves localStorage getState.
Proof. easy. Qed.

Lemma store_getItem (k : string) : preserves localStorage (localStorage_getItem k).
Proof. easy. Qed.

Lemma store_update (f : AppState -> AppState) : preserves localStorage (update f).
Proof. easy. Qed.

Create HintDb frame.

#[local] Hint Resolve preserves_ret preserves_throw onApp_emit onApp_history
  onApp_getState onApp_getItem onApp_setItem onApp_removeItem
  store_emit store_history store_getState store_getItem store_update : frame.

(** Goes through a computation built from the combinators, the primitive
    actions and the setters that do not touch the view. *)
Ltac frame :=
  repeat first
    [ progress intros
    | solve [auto with frame]
    | apply onApp_update; reflexivity
    | apply preserves_bind
    | apply preserves_try_catch
    | apply preserves_try_finally
    | match goal with
      | |- preserves _ (match ?c with _ => _ end) => destruct c
      | |- preserves _ (if ?c then _ else _) => destruct c
      end ].

Lemma generateContent_onApp {B} (g : AppState -> B) (env : Env) (req : Request) :
  preserves (onApp g) (generateContent env req).
Proof. unfold generateContent. frame. Qed.

Lemma generateContent_store (env : Env) (req : Request) :
  preserves localStorage (generateContent env req).
Proof. unfold generateContent. frame. Qed.

Lemma getFileToProcess_onApp {B} (g : AppState -> B) (env : Env) :
  preserves (onApp g) (getFileToProcess env).
Proof.
  unfold getFileToProcess, getMaskedFile, URL_createObjectURL, URL_revokeObjectURL.
  frame.
Qed.

Lemma getFileToProcess_store (env : Env) : preserves localStorage (getFileToProcess env).
Proof.
  unfold getFileToProcess, getMaskedFile, URL_createObjectURL, URL_revokeObjectURL.
  frame.
Qed.

Lemma performQualityCheck_onApp {B} (g : AppState -> B) (env : Env) (f : File) :
  preserves (onApp g) (performQualityCheck env f).
Proof.
  pose proof (generateContent_onApp g env).
  unfold performQualityCheck, fileToBase64, JSON_parse_text, prop. frame.
Qed.

Lemma performQualityCheck_store (env : Env) (f : File) :
  preserves localStorage (performQualityCheck env f).
Proof.
  pose proof (generateContent_store env).
  unfold performQualityCheck, fileToBase64, JSON_parse_text, prop. frame.
Qed.

Lemma editImageWithText_onApp {B} (g : AppState -> B) (env : Env) (f : File)
    (instruction : string) :
  preserves (onApp g) (editImageWithText env f instruction).
Proof.
  pose proof (generateContent_onApp g env).
  unfold editImageWithText, fileToBase64, base64ToFile, URL_createObjectURL. frame.
Qed.

Lemma editImageWithText_store (env : Env) (f : File) (instruction : string) :
  preserves localStorage (editImageWithText env f instruction).
Proof.
  pose proof (generateContent_store env).
  unfold editImageWithText, fileToBase64, base64ToFile, URL_createObjectURL. frame.
Qed.

(** ** The saved session (lines 58-76 and 194-201) *)

Lemma mount_eval (env : Env) (store : gmap string Stored) :
  mount env store =
  match store !! "lastAnalysisResult", store !! "lastAnalysisImage" with
  | Some (StoredResult r), Some (StoredImage base64 name type) =>
      let f := {| name := name; type := type; content := base64 |} in
      {| app := with_qualityCheckResult (Some restoredMarker)
                  (with_analysisResult (Some r)
                     (with_image (Some {| file := f; url := objectURL env [] |})
                        initialState));
         localStorage := store;
         log := [CreateObjectURL f (objectURL env [])] |}
  | Some _, Some _ =>
      {| app := initialState;
         localStorage := delete "lastAnalysisImage" (delete "lastAnalysisResult" store);
         log := [ConsoleError SyntaxError] |}
  | _, _ => {| app := initialState; localStorage := store; log := [] |}
  end.
Proof.
  unfold mount, loadLastSession, base64ToFile, URL_createObjectURL. js_unfold.
  destruct (store !! "lastAnalysisResult") as [[r|b n t]|];
    destruct (store !! "lastAnalysisImage") as [[r'|b' n' t']|]; reflexivity.
Qed.

(** X2.  When a key of the session is missing, the component starts in its
    initial state, sends the model nothing and leaves the store as it is, a
    lone key included; the next start finds the same. *)
Theorem X2_unusable_session_is_dropped (env : Env) (store : gmap string Stored) :
  store !! "lastAnalysisResult" = None \/ store !! "lastAnalysisImage" = None ->
  mount env store = {| app := initialState; localStorage := store; log := [] |} /\
  requests (log (mount env store)) = 0%nat /\
  savedSessionOf (localStorage (mount env store)) = None /\
  mount env (localStorage (mount env store)) = mount env store.
Proof.
  intros Hmissing.
  assert (mount env store = {| app := initialState; localStorage := store; log := [] |})
    as Hmount.
  { rewrite mount_eval.
    destruct Hmissing as [-> | Himage]; [reflexivity|]. rewrite Himage.
    destruct (store !! "lastAnalysisResult") as [[r|b n t]|]; reflexivity. }
  rewrite !Hmount. cbn [localStorage log]. rewrite Hmount.
  repeat split.
  unfold savedSessionOf.
  destruct Hmissing as [-> | Himage]; [reflexivity|]. rewrite Himage.
  destruct (store !! "lastAnalysisResult") as [[r|b n t]|]; reflexivity.
Qed.

Lemma X2_scenario_orphan_image :
  mount clipping orphanImage =
    {| app := initialState; localStorage := orphanImage; log := [] |} /\
  requests (log (mount clipping orphanImage)) = 0%nat /\
  savedSessionOf (localStorage (mount clipping orphanImage)) = None /\
  mount clipping (localStorage (mount clipping orphanImage)) =
    mount clipping orphanImage.
Proof.
  apply (X2_unusable_session_is_dropped clipping orphanImage).
  left. vm_compute. reflexivity.
Defined.

(** ** The quality check (lines 61-120 of the service, 167-183 of [App]) *)

(** X4.  [performQualityCheck] returns a result exactly when the file can be
    read and the reply is a JSON value whose [is_suitable] is a boolean,
    whose [feedback] is a string and whose [issues] is an array; the result
    then holds these three values.  Every other reply makes it throw. *)
Theorem X4_quality_reply_is_validated (env : Env) (f : File) (w : World)
    (r : QualityCheckResult) :
  fst (performQualityCheck env f w) = Ok r <->
  readable env f = true /\
  exists v b s l,
    provider env (requests (log w)) (qualityConfig f) = Text (Some v) /\
    field v "is_suitable" = Some (JBool b) /\
    field v "feedback" = Some (JString s) /\
    field v "issues" = Some (JArray l) /\
    r = {| is_suitable := b; feedback := s; issues := l |}.
Proof.
  rewrite performQualityCheck_eval.
  destruct (readable env f); cbn [fst].
  2:{ split; [discriminate | now intros [? _]]. }
  destruct (provider env _ _) as [|[v|]|d m]; cbn [qualityVerdict].
  1,3,4: split; [discriminate | intros (_ & ? & ? & ? & ? & [=] & _)].
  split.
  - intros H. split; [reflexivity|]. exists v.
    destruct v; try discriminate H.
    all: destruct (field _ "is_suitable") as [[| | | | |]|]; try discriminate H.
    all: destruct (field _ "feedback") as [[| | | | |]|]; try discriminate H.
    all: destruct (field _ "issues") as [[| | | | |]|]; try discriminate H.
    all: injection H as <-; eauto 10.
  - intros (_ & v' & b & s0 & l & [= <-] & Hb & Hs & Hl & ->).
    destruct v; try discriminate Hb.
    all: now rewrite Hb, Hs, Hl.
Qed.

(** X5.  Once the file to process is there, [handleQualityCheck] ends with
    the quality check result of the reply and no error message when
    [performQualityCheck] returns, and with no quality check result (a
    result of an earlier check is dropped) and the message "An error
    occurred during quality check." when it throws.  Either way the flag
    [isQualityChecking] is down again and the image, the analysis result,
    the polygon and [localStorage] are as they were; so after a failed
    check the analysis is not offered. *)
Theorem X5_quality_check_outcome (env : Env) (w w0 : World) (f : File) :
  getFileToProcess env w = (Ok (Some f), w0) ->
  match fst (performQualityCheck env f w) with
  | Ok r =>
      qualityCheckResult (app (run (handleQualityCheck env) w)) = Some r /\
      qualityCheckError (app (run (handleQualityCheck env) w)) = None
  | Throw _ =>
      qualityCheckResult (app (run (handleQualityCheck env) w)) = None /\
      qualityCheckError (app (run (handleQualityCheck env) w)) =
        Some "An error occurred during quality check." /\
      offered (app (run (handleQualityCheck env) w)) Analyze = false
  end /\
  isQualityChecking (app (run (handleQualityCheck env) w)) = false /\
  image (app (run (handleQualityCheck env) w)) = image (app w) /\
  analysisResult (app (run (handleQualityCheck env) w)) = analysisResult (app w) /\
  polygon (run (handleQualityCheck env) w) = polygon w /\
  localStorage (run (handleQualityCheck env) w) = localStorage w.
Proof.
  intros Hfile.
  pose proof (getFileToProcess_frame env w) as (Happ & Hstore & Hreq).
  rewrite Hfile in Happ, Hstore, Hreq. cbn [snd] in Happ, Hstore, Hreq.
  rewrite performQualityCheck_eval.
  unfold handleQualityCheck. js_unfold. rewrite Hfile.
  rewrite performQualityCheck_eval. cbn [log]. rewrite Hreq.
  unfold polygon.
  destruct (readable env f); [destruct (qualityVerdict _)|];
    cbn [fst snd app localStorage log logged]; rewrite ?Happ, ?Hstore;
    repeat split.
  all: unfold offered, renderContent; cbn.
  all: destruct (isLoading (app w)), (mode (app w)), (analysisResult (app w)),
         (truthy (error (app w))), (image (app w)); reflexivity.
Qed.

(** A check that passes, and one whose reply has no [issues]. *)
Lemma X5_scenario_pass_and_missing_issues :
  qualityCheckResult (app (run (handleQualityCheck passingCheck) uploaded)) =
    Some {| is_suitable := true; feedback := "Sharp and well stained.";
            issues := [] |} /\
  qualityCheckResult (app (run (handleQualityCheck issuesMissing) uploaded)) = None /\
  qualityCheckError (app (run (handleQualityCheck issuesMissing) uploaded)) =
    Some "An error occurred during quality check.".
Proof.
  pose proof (X5_quality_check_outcome passingCheck uploaded uploaded slide) as H1.
  pose proof (X5_quality_check_outcome issuesMissing uploaded uploaded slide) as H2.
  split; [|split].
  - exact (proj1 (proj1 (H1 ltac:(vm_compute; reflexivity)))).
  - exact (proj1 (proj1 (H2 ltac:(vm_compute; reflexivity)))).
  - exact (proj1 (proj2 (proj1 (H2 ltac:(vm_compute; reflexivity))))).
Defined.

(** ** A mask that cannot be made (lines 106-164) *)

(** X6.  When a finished polygon of more than 2 points is there and the
    canvas does not give the clipped image, [getFileToProcess] rejects, and
    [handleQualityCheck] and [handleAnalyzeClick] stop there: the React
    state and [localStorage] are as they were (no flag is raised, no error
    message is set) and no request goes to the model; the whole image is
    not sent in place of the selection. *)
Theorem X6_failed_mask_stops_the_handlers (env : Env) (w : World) (img : Image) :
  image (app w) = Some img ->
  (2 < length (selectionPoints (app w)))%nat ->
  isDrawing (app w) = false ->
  (forall blob, canvas env (file img) (map scale (selectionPoints (app w))) <> Png blob) ->
  (exists e, fst (getFileToProcess env w) = Throw e) /\
  (app (run (handleQualityCheck env) w) = app w /\
   localStorage (run (handleQualityCheck env) w) = localStorage w /\
   requests (log (run (handleQualityCheck env) w)) = requests (log w)) /\
  (app (run (handleAnalyzeClick env) w) = app w /\
   localStorage (run (handleAnalyzeClick env) w) = localStorage w /\
   requests (log (run (handleAnalyzeClick env) w)) = requests (log w)).
Proof.
  intros Himg Hlen Hclosed Hfail.
  apply Nat.ltb_lt in Hlen.
  unfold handleQualityCheck, handleAnalyzeClick, getFileToProcess, getMaskedFile.
  js_unfold. rewrite Himg, Hlen, Hclosed. cbn [negb andb].
  destruct (canvas env _ _) as [| | |blob];
    [| | |now contradiction (Hfail blob)];
    cbn [fst snd app localStorage log]; rewrite ?requests_app; cbn;
    (split; [eexists; reflexivity|]); repeat split; lia.
Qed.

Lemma X6_scenario_no_canvas_context :
  (exists e, fst (getFileToProcess noContext (selecting triangle false)) = Throw e) /\
  (app (run (handleQualityCheck noContext) (selecting triangle false)) =
     app (selecting triangle false) /\
   localStorage (run (handleQualityCheck noContext) (selecting triangle false)) =
     localStorage (selecting triangle false) /\
   requests (log (run (handleQualityCheck noContext) (selecting triangle false))) =
     requests (log (selecting triangle false))) /\
  (app (run (handleAnalyzeClick noContext) (selecting triangle false)) =
     app (selecting triangle false) /\
   localStorage (run (handleAnalyzeClick noContext) (selecting triangle false)) =
     localStorage (selecting triangle false) /\
   requests (log (run (handleAnalyzeClick noContext) (selecting triangle false))) =
     requests (log (selecting triangle false))).
Proof.
  apply (X6_failed_mask_stops_the_handlers noContext (selecting triangle false)
           {| file := slide; url := 0%nat |}).
  - reflexivity.
  - cbn. lia.
  - reflexivity.
  - intros blob. discriminate.
Defined.

(** ** The edit (lines 31-59 of the service, 211-226 of [App]) *)

Lemma editImageWithText_eval (env : Env) (f : File) (instruction : string) (w : World) :
  editImageWithText env f instruction w =
  if readable env f
  then
    let sent := [GenerateContent (editConfig f instruction); Settled] in
    match provider env (requests (log w)) (editConfig f instruction) with
    | Rejects => (Throw Rejection, logged sent w)
    | InlineData enhancedBase64 mimeType =>
        let edited := editedFile f enhancedBase64 mimeType in
        let u := objectURL env (log w ++ sent) in
        (Ok {| file := edited; url := u |},
         logged (sent ++ [CreateObjectURL edited u]) w)
    | Text _ =>
        (Throw (Error "Failed to edit image. No image data received from API."),
         logged sent w)
    end
  else (Throw Rejection, w).
Proof.
  unfold editImageWithText, fileToBase64, generateContent, base64ToFile,
    URL_createObjectURL, logged.
  js_unfold.
  destruct (readable env f); [|reflexivity].
  fold (editConfig f instruction).
  rewrite <- !app_assoc. cbn [List.app].
  destruct (provider env _ _); cbn [fst snd app localStorage log];
    rewrite <- ?app_assoc; reflexivity.
Qed.

(** X8.  With an image loaded and an instruction typed, when the edit fails
    (the file cannot be read, the provider rejects or its reply holds no
    image), [handleEditClick] keeps the image and revokes no object URL,
    and sets the message "An error occurred during image editing."; but
    polygon, quality check result and analysis result have been cleared
    and the saved result removed from [localStorage] all the same. *)
Theorem X8_failed_edit_keeps_image_clears_rest (env : Env) (w : World) (img : Image) :
  image (app w) = Some img ->
  prompt (app w) <> "" ->
  (readable env (file img) = false \/
   forall enhancedBase64 mimeType,
     provider env (requests (log w)) (editConfig (file img) (prompt (app w))) <>
     InlineData enhancedBase64 mimeType) ->
  app (run (handleEditClick env) w) =
    with_error (Some "An error occurred during image editing.") (cleared (app w)) /\
  image (app (run (handleEditClick env) w)) = Some img /\
  (forall u, In (RevokeObjectURL u) (log (run (handleEditClick env) w)) ->
             In (RevokeObjectURL u) (log w)) /\
  localStorage (run (handleEditClick env) w) =
    delete "lastAnalysisResult" (localStorage w).
Proof.
  intros Himg Hprompt Hfail.
  apply String.eqb_neq in Hprompt.
  unfold handleEditClick. js_unfold. rewrite Himg, Hprompt.
  rewrite resetState_eval. cbn [fst snd app localStorage log].
  rewrite editImageWithText_eval. cbn [log].
  destruct (readable env (file img)).
  - destruct Hfail as [[=]|Hfail].
    destruct (provider env _ _) as [|t|d m];
      [| |now contradiction (Hfail d m)];
      cbn [fst snd app localStorage log logged];
      (split; [reflexivity|]); (split; [exact Himg|]); (split; [|reflexivity]);
      intros u Hin; in_log Hin; assumption.
  - cbn [fst snd app localStorage log logged].
    split; [reflexivity|]. split; [exact Himg|]. split; [|reflexivity].
    intros u Hin. in_log Hin. assumption.
Qed.

Lemma X8_scenario_text_reply :
  app (run (handleEditClick notEditing) readyToEdit) =
    with_error (Some "An error occurred during image editing.")
      (cleared (app readyToEdit)) /\
  image (app (run (handleEditClick notEditing) readyToEdit)) =
    Some {| file := slide; url := 0%nat |} /\
  (forall u, In (RevokeObjectURL u) (log (run (handleEditClick notEditing) readyToEdit)) ->
             In (RevokeObjectURL u) (log readyToEdit)) /\
  localStorage (run (handleEditClick notEditing) readyToEdit) =
    delete "lastAnalysisResult" (localStorage readyToEdit).
Proof.
  apply (X8_failed_edit_keeps_image_clears_rest notEditing readyToEdit
           {| file := slide; url := 0%nat |}).
  - reflexivity.
  - discriminate.
  - right. intros d m. discriminate.
Defined.

(** ** Clearing (lines 78-99) *)

(** X9.  [resetState()] (the button "Clear Image") leaves the initial state,
    the mode tab and the edit prompt apart, so the uploader is offered
    again; [resetState] with either argument removes the saved result; and
    running it a second time changes nothing: state, [localStorage] and log
    stay as the first run left them. *)
Theorem X9_reset_clears_once_and_for_all (clearImage : bool) (w : World) (f : File) :
  run (resetState clearImage) (run (resetState clearImage) w) =
    run (resetState clearImage) w /\
  localStorage (run (resetState clearImage) w) !! "lastAnalysisResult" = None /\
  app (run (resetState true) w) =
    with_prompt (prompt (app w)) (with_mode (mode (app w)) initialState) /\
  offered (app (run (resetState true) w)) (Upload f) = true.
Proof.
  unfold run. rewrite !resetState_eval. cbn [snd].
  split; [|split; [|split]].
  - destruct clearImage, (image (app w)) as [img|] eqn:Himg;
      cbn [app localStorage log image cleared with_image];
      rewrite ?Himg; cbn [app localStorage log image cleared with_image];
      f_equal; apply delete_delete_eq.
  - destruct clearImage, (image (app w)); cbn [localStorage]; apply lookup_delete_eq.
  - destruct (image (app w)) eqn:Himg; cbn [app]; [reflexivity|].
    unfold cleared, with_prompt, with_mode. cbn. now rewrite Himg.
  - destruct (image (app w)) eqn:Himg; unfold offered, renderContent; cbn;
      rewrite ?Himg; now destruct (mode (app w)).
Qed.

(** ** After a failed analysis (lines 185-209, 292-304 and 407) *)

Lemma offered_Analyze (st : AppState) :
  offered st Analyze = true ->
  renderContent st = AnalysisView /\ isSome (image st) = true /\
  isSome (qualityCheckResult st) = true /\ isLoading st = false /\
  hasSelection st && isDrawing st = false.
Proof.
  unfold offered. destruct (renderContent st); try discriminate.
  destruct (isSome (image st)), (isSome (qualityCheckResult st)), (isLoading st),
    (hasSelection st && isDrawing st); try discriminate; easy.
Qed.

(** X10.  When the analysis was offered and it fails, the render shows the
    failure message in place of everything else: no control is offered but
    the two navigation tabs.  Clicking a tab clears the message, and after
    the tab of the analysis the analysis is offered again. *)
Theorem X10_failed_analysis_leaves_only_the_tabs (env : Env) (w w0 : World)
    (img : Image) (f : File) :
  offered (app w) Analyze = true ->
  image (app w) = Some img ->
  getFileToProcess env w = (Ok (Some f), w0) ->
  (readable env (file img) = false \/
   exists e, fst (analyzeIHCImage env f None w) = Throw e) ->
  (forall ev, offered (app (run (handleAnalyzeClick env) w)) ev = true ->
              exists targetMode, ev = Navigate targetMode) /\
  (forall targetMode,
     error (app (run (navigate targetMode) (run (handleAnalyzeClick env) w))) = None) /\
  offered (app (run (navigate ANALYSIS) (run (handleAnalyzeClick env) w))) Analyze = true.
Proof.
  intros Hoffered Himg Hfile Hfail.
  apply offered_Analyze in Hoffered as (_ & _ & Hqc & Hload & Hsel).
  pose proof (handleAnalyzeClick_eval env w w0 img f Himg Hfile) as Hrun.
  cbv zeta in Hrun.
  assert (forall targetMode w',
            app (run (navigate targetMode) w') =
            with_error None (with_mode targetMode (app w'))) as Hnav by reflexivity.
  rewrite Hnav. setoid_rewrite Hnav.
  assert (app (run (handleAnalyzeClick env) w) = failedAnalysis (app w)) as ->.
  { destruct Hfail as [Hread | [e He]].
    - rewrite Hread in Hrun. apply Hrun.
    - rewrite analyzeIHCImage_outcome in He. rewrite He in Hrun.
      destruct (readable env (file img)); apply Hrun. }
  split; [|split].
  - intros ev. unfold offered, renderContent, failedAnalysis. cbn.
    destruct ev; try discriminate. eauto.
  - reflexivity.
  - assert (hasSelection (with_error None (with_mode ANALYSIS (failedAnalysis (app w))))
            = hasSelection (app w)) as Hh by reflexivity.
    assert (isDrawing (with_error None (with_mode ANALYSIS (failedAnalysis (app w))))
            = isDrawing (app w)) as Hd by reflexivity.
    unfold offered, renderContent. rewrite Hh, Hd, Hsel. cbn.
    rewrite Himg. cbn.
    destruct (qualityCheckResult (app w)); [reflexivity | discriminate].
Qed.

Lemma X10_scenario_second_pass_rejected :
  (forall ev,
     offered (app (run (handleAnalyzeClick secondPassRejects)
                       (mount secondPassRejects savedSession))) ev = true ->
     exists targetMode, ev = Navigate targetMode) /\
  (forall targetMode,
     error (app (run (navigate targetMode)
                     (run (handleAnalyzeClick secondPassRejects)
                          (mount secondPassRejects savedSession)))) = None) /\
  offered (app (run (navigate ANALYSIS)
                    (run (handleAnalyzeClick secondPassRejects)
                         (mount secondPassRejects savedSession)))) Analyze = true.
Proof.
  apply (X10_failed_analysis_leaves_only_the_tabs secondPassRejects
           (mount secondPassRejects savedSession)
           (mount secondPassRejects savedSession)
           {| file := slide; url := 0%nat |} slide).
  - vm_compute. reflexivity.
  - vm_compute. reflexivity.
  - vm_compute. reflexivity.
  - right. exists Rejection. vm_compute. reflexivity.
Defined.

(** ** What the handlers leave alone *)

Lemma analyzeIHCImage_onApp {B} (g : AppState -> B) (env : Env) (f : File) :
  (forall progress st, g (with_analysisProgress progress st) = g st) ->
  preserves (onApp g)
    (analyzeIHCImage env f (Some (fun progress => with_analysisProgress (Some progress)))).
Proof.
  intros Hg.
  pose proof (generateContent_onApp g env).
  assert (forall p, preserves (onApp g)
                      (update (fun st => with_analysisProgress (Some p) st))) as Hup.
  { intros p. apply onApp_update. intros st. apply Hg. }
  unfold analyzeIHCImage, runSingleAnalysis, callProgress, fileToBase64,
    JSON_parse_text, prop.
  frame.
Qed.

Lemma analyzeIHCImage_store (env : Env) (f : File) onProgress :
  preserves localStorage (analyzeIHCImage env f onProgress).
Proof.
  pose proof (generateContent_store env).
  unfold analyzeIHCImage, runSingleAnalysis, callProgress, fileToBase64,
    JSON_parse_text, prop.
  frame.
Qed.

Lemma handleQualityCheck_store (env : Env) : preserves localStorage (handleQualityCheck env).
Proof.
  pose proof (getFileToProcess_store env).
  pose proof (performQualityCheck_store env).
  unfold handleQualityCheck, try_catch_finally, console_error,
    setIsQualityChecking, setQualityCheckError, setQualityCheckResult.
  frame.
Qed.

Lemma handleImageClick_image (e : MouseEvent) :
  preserves (onApp image) (handleImageClick e).
Proof.
  unfold handleImageClick, setIsDrawing, setPreviewPoint, setSelectionPoints. frame.
Qed.

Lemma handleImageClick_store (e : MouseEvent) :
  preserves localStorage (handleImageClick e).
Proof.
  unfold handleImageClick, setIsDrawing, setPreviewPoint, setSelectionPoints. frame.
Qed.

Lemma handleMouseMove_store (e : MouseEvent) :
  preserves localStorage (handleMouseMove e).
Proof. unfold handleMouseMove, setPreviewPoint. frame. Qed.

Lemma clearSelection_store : preserves localStorage clearSelection.
Proof.
  unfold clearSelection, setIsDrawing, setPreviewPoint, setSelectionPoints. frame.
Qed.

Lemma navigate_store (targetMode : Mode) : preserves localStorage (navigate targetMode).
Proof. unfold navigate, setMode, setError. frame. Qed.

Lemma handleEditClick_store (env : Env) (w : World) :
  localStorage (run (handleEditClick env) w) = localStorage w \/
  localStorage (run (handleEditClick env) w) =
    delete "lastAnalysisResult" (localStorage w).
Proof.
  unfold handleEditClick. js_unfold.
  destruct (image (app w)) as [img|]; [|now left].
  destruct (String.eqb _ _); [now left|]. right.
  rewrite resetState_eval.
  match goal with |- context [editImageWithText env ?f ?p ?wX] =>
    pose proof (editImageWithText_store env f p wX) as Hkeep;
    destruct (editImageWithText env f p wX) as [[r|e] w1]
  end; cbn [snd] in Hkeep; cbn [fst snd app localStorage log] in *; exact Hkeep.
Qed.

(** ** Only a finished analysis writes to [localStorage] *)

(** X11.  No event but the analysis adds to [localStorage] or changes what a
    key holds: after any other event the store is a part of what it was,
    and so it is after the session effect of the first render. *)
Theorem X11_only_the_analysis_writes (env : Env) (w : World) (ev : UserEvent)
    (store : gmap string Stored) :
  ev <> Analyze ->
  localStorage (run (handler env ev) w) ⊆ localStorage w /\
  localStorage (mount env store) ⊆ store.
Proof.
  intros Hev. split.
  - destruct ev; cbn [handler]; try contradiction.
    + rewrite handleImageUpload_eval, resetState_eval. cbn [snd localStorage].
      destruct (image (app w)); cbn [localStorage];
        repeat (etransitivity; [apply delete_subseteq|]); reflexivity.
    + unfold run. now rewrite handleImageClick_store.
    + unfold run. now rewrite handleMouseMove_store.
    + unfold run. now rewrite handleQualityCheck_store.
    + unfold run. now rewrite clearSelection_store.
    + unfold run. rewrite resetState_eval. cbn [snd].
      destruct (image (app w)); cbn [localStorage];
        repeat (etransitivity; [apply delete_subseteq|]); reflexivity.
    + reflexivity.
    + destruct (handleEditClick_store env w) as [-> | ->];
        [reflexivity | apply delete_subseteq].
    + unfold run. now rewrite navigate_store.
  - rewrite mount_eval.
    destruct (store !! "lastAnalysisResult") as [[r|b n t]|];
      destruct (store !! "lastAnalysisImage") as [[r'|b' n' t']|];
      cbn [localStorage];
      repeat (etransitivity; [apply delete_subseteq|]); reflexivity.
Qed.

Lemma X11_scenario_clear_image :
  localStorage (run (handler clipping ClearImage) (mount clipping savedSession))
    ⊆ localStorage (mount clipping savedSession) /\
  localStorage (mount clipping savedSession) ⊆ savedSession.
Proof.
  apply (X11_only_the_analysis_writes clipping (mount clipping savedSession)
           ClearImage savedSession).
  discriminate.
Defined.

(** ** [parseInt] on what a number field holds *)

Lemma digits_string_of_uint (d : uint) (rest : string) :
  CalibrationModal.digits rest = Nil ->
  CalibrationModal.digits (NilEmpty.string_of_uint d ++ rest)%string = d.
Proof.
  intros Hrest.
  induction d; simpl; [exact Hrest | rewrite IHd; reflexivity ..].
Qed.

Lemma to_uint_not_Nil (n : N) : N.to_uint n <> Nil.
Proof.
  destruct n as [|p]; [discriminate|]. cbn.
  pose proof (DecimalPos.Unsigned.to_uint_nonnil p) as H. exact H.
Qed.

Lemma magnitude_decimal (n : N) (rest : string) :
  CalibrationModal.digits rest = Nil ->
  CalibrationModal.magnitude (CalibrationModal.decimal n ++ rest)%string =
    Some (Z.of_N n).
Proof.
  intros Hrest. unfold CalibrationModal.magnitude, CalibrationModal.decimal.
  rewrite (digits_string_of_uint _ _ Hrest).
  pose proof (to_uint_not_Nil n) as Hnil.
  rewrite <- (DecimalN.Unsigned.of_to n) at 2.
  destruct (N.to_uint n); [contradiction | reflexivity ..].
Qed.

Lemma parseInt_decimal (n : N) (rest : string) :
  CalibrationModal.digits rest = Nil ->
  CalibrationModal.parseInt (CalibrationModal.decimal n ++ rest)%string =
    Some (Z.of_N n).
Proof.
  intros Hrest. pose proof (magnitude_decimal n rest Hrest) as Hm.
  pose proof (to_uint_not_Nil n) as Hnil.
  unfold CalibrationModal.parseInt, CalibrationModal.decimal in *.
  destruct (N.to_uint n); [contradiction | exact Hm ..].
Qed.

Lemma parseInt_minus (s : string) :
  CalibrationModal.parseInt (String "-"%char s) =
    option_map Z.opp (CalibrationModal.magnitude s).
Proof. reflexivity. Qed.

(** ** The handlers of [CalibrationModal] *)

Lemma withCount_description field intValue ex :
  description (CalibrationModal.withCount field intValue ex) = description ex.
Proof. destruct field; reflexivity. Qed.

Lemma withCount_countOf field intValue ex :
  countOf field (CalibrationModal.withCount field intValue ex) = inject_Z intValue.
Proof. destruct field; reflexivity. Qed.

Lemma withCount_other field intValue ex :
  countOf (otherField field) (CalibrationModal.withCount field intValue ex) =
    countOf (otherField field) ex.
Proof. destruct field; reflexivity. Qed.

Lemma withCount_id field intValue ex :
  CalibrationModal.id (CalibrationModal.withCount field intValue ex) =
    CalibrationModal.id ex.
Proof. destruct field; reflexivity. Qed.

Lemma handleCountChange_decimal i field (n : N) rest prev :
  CalibrationModal.digits rest = Nil ->
  CalibrationModal.handleCountChange i field
      (CalibrationModal.decimal n ++ rest)%string prev =
    map (fun ex => if String.eqb (CalibrationModal.id ex) i
                   then CalibrationModal.withCount field (Z.of_N n) ex else ex)
        prev.
Proof.
  intros Hrest. unfold CalibrationModal.handleCountChange.
  rewrite (parseInt_decimal n rest Hrest).
  destruct (Z.ltb_spec (Z.of_N n) 0) as [Hneg|_]; [lia | reflexivity].
Qed.

(** X16.  Typing a decimal numeral [n] of at most 2^53 (followed by anything
    that does not begin with a digit; a larger numeral need not be a Number)
    into a count field of the example [i] keeps the
    number and the order of the examples; in every example with that id the
    named count becomes [n], the other count and the rest of the example
    stay; every other example is unchanged. *)
Theorem X16_count_change_sets_one_field (i : string)
    (field : CalibrationModal.CountField) (n : N) (rest : string)
    (prev : list CalibrationModal.TrainingExample) :
  (n <= 2 ^ 53)%N ->
  CalibrationModal.digits rest = Nil ->
  let next :=
    CalibrationModal.handleCountChange i field
      (CalibrationModal.decimal n ++ rest)%string prev in
  length next = length prev /\
  forall k ex, nth_error prev k = Some ex ->
    exists ex', nth_error next k = Some ex' /\
      description ex' = description ex /\
      countOf (otherField field) ex' = countOf (otherField field) ex /\
      (CalibrationModal.id ex = i -> countOf field ex' = inject_Z (Z.of_N n)) /\
      (CalibrationModal.id ex <> i -> ex' = ex).
Proof.
  intros _ Hrest next. unfold next. rewrite (handleCountChange_decimal _ _ _ _ _ Hrest).
  split; [apply length_map|].
  intros k ex Hk. rewrite nth_error_map, Hk. cbn [option_map].
  destruct (String.eqb_spec (CalibrationModal.id ex) i) as [Heq|Hne].
  - eexists. split; [reflexivity|].
    rewrite withCount_description, withCount_other, withCount_countOf.
    split; [reflexivity|]. split; [reflexivity|].
    split; [reflexivity | contradiction].
  - exists ex. split; [reflexivity|]. split; [reflexivity|].
    split; [reflexivity|]. split; [contradiction | reflexivity].
Qed.

Lemma X16_scenario_shared_id :
  CalibrationModal.digits ".5" = Nil /\
  let next :=
    CalibrationModal.handleCountChange "a.png-1700000000000"
      CalibrationModal.negative_field "12.5" calibration in
  next = [example "a.png-1700000000000" "a.png" 3 12;
          example "b.png-1700000000001" "b.png" 0 0;
          example "a.png-1700000000000" "a.png" 7 12] /\
  length next = length calibration /\
  forall k ex, nth_error calibration k = Some ex ->
    exists ex', nth_error next k = Some ex' /\
      description ex' = description ex /\
      countOf (otherField CalibrationModal.negative_field) ex' =
        countOf (otherField CalibrationModal.negative_field) ex /\
      (CalibrationModal.id ex = "a.png-1700000000000" ->
       countOf CalibrationModal.negative_field ex' = inject_Z (Z.of_N 12)) /\
      (CalibrationModal.id ex <> "a.png-1700000000000" -> ex' = ex).
Proof.
  split; [reflexivity|]. split; [reflexivity|].
  exact (X16_count_change_sets_one_field "a.png-1700000000000"
           CalibrationModal.negative_field 12 ".5" calibration
           ltac:(vm_compute; discriminate) eq_refl).
Defined.

Lemma readFiles_eval (readable : File -> bool) (now : nat -> N) (files : list File) :
  forall k newExamples,
    CalibrationModal.readFiles readable now k files newExamples =
      if forallb readable files
      then Some (newExamples ++
                 map (fun jf => CalibrationModal.newExample now (fst jf) (snd jf))
                     (combine (seq k (length files)) files))
      else None.
Proof.
  induction files as [|f files IH]; intros k newExamples; cbn.
  - now rewrite app_nil_r.
  - destruct (readable f); [|reflexivity]. cbn [andb]. rewrite IH.
    destruct (forallb readable files); [|reflexivity].
    now rewrite <- app_assoc.
Qed.

Lemma nth_error_numbered (files : list File) :
  forall base k f, nth_error files k = Some f ->
    nth_error (combine (seq base (length files)) files) k = Some ((base + k)%nat, f).
Proof.
  induction files as [|g files IH]; intros base k f Hk.
  - destruct k; discriminate Hk.
  - destruct k as [|k]; cbn in *.
    + injection Hk as ->. now rewrite Nat.add_0_r.
    + rewrite (IH (S base) k f Hk). do 2 f_equal. lia.
Qed.

(** X18.  What a count field ignores: an empty value, a negative numeral,
    and any value at all when no example has the id; the examples are then
    exactly what they were. *)
Theorem X18_invalid_count_is_ignored (i : string)
    (field : CalibrationModal.CountField)
    (prev : list CalibrationModal.TrainingExample) :
  CalibrationModal.handleCountChange i field "" prev = prev /\
  (forall n rest, n <> 0%N -> CalibrationModal.digits rest = Nil ->
     CalibrationModal.handleCountChange i field
       ("-" ++ CalibrationModal.decimal n ++ rest)%string prev = prev) /\
  (forall value, Forall (fun ex => CalibrationModal.id ex <> i) prev ->
     CalibrationModal.handleCountChange i field value prev = prev).
Proof.
  split; [reflexivity|]. split.
  - intros n rest Hn Hrest. unfold CalibrationModal.handleCountChange.
    change (CalibrationModal.parseInt ("-" ++ CalibrationModal.decimal n ++ rest)%string)
      with (CalibrationModal.parseInt
              (String "-"%char (CalibrationModal.decimal n ++ rest)%string)).
    rewrite parseInt_minus, magnitude_decimal by exact Hrest. cbn [option_map].
    destruct (Z.ltb_spec (- Z.of_N n) 0) as [_|Hpos]; [reflexivity | lia].
  - intros value Hids. unfold CalibrationModal.handleCountChange.
    destruct (CalibrationModal.parseInt value) as [intValue|]; [|reflexivity].
    destruct (intValue <? 0)%Z; [reflexivity|].
    induction Hids as [|ex prev Hex _ IH]; [reflexivity|]. cbn [map].
    rewrite IH. apply String.eqb_neq in Hex. now rewrite Hex.
Qed.

(** X19.  Removing the example [i] leaves exactly the examples with another
    id; removing it again changes nothing, a count change of [i] after it
    changes nothing, and removal and count changes can be made in either
    order. *)
Theorem X19_removal (i : string) (prev : list CalibrationModal.TrainingExample) :
  (forall ex, In ex (CalibrationModal.handleRemoveExample i prev) <->
              In ex prev /\ CalibrationModal.id ex <> i) /\
  CalibrationModal.handleRemoveExample i (CalibrationModal.handleRemoveExample i prev) =
    CalibrationModal.handleRemoveExample i prev /\
  (forall field value,
     CalibrationModal.handleCountChange i field value
       (CalibrationModal.handleRemoveExample i prev) =
     CalibrationModal.handleRemoveExample i prev) /\
  (forall j field value,
     CalibrationModal.handleRemoveExample i
       (CalibrationModal.handleCountChange j field value prev) =
     CalibrationModal.handleCountChange j field value
       (CalibrationModal.handleRemoveExample i prev)).
Proof.
  assert (forall ex, In ex (CalibrationModal.handleRemoveExample i prev) <->
                     In ex prev /\ CalibrationModal.id ex <> i) as Hin.
  { intros ex. unfold CalibrationModal.handleRemoveExample.
    rewrite List.filter_In, negb_true_iff, String.eqb_neq. reflexivity. }
  split; [exact Hin|]. split; [|split].
  - unfold CalibrationModal.handleRemoveExample.
    induction prev as [|ex prev IH]; [reflexivity|]. cbn [List.filter].
    destruct (negb (String.eqb (CalibrationModal.id ex) i)) eqn:Hex.
    + cbn [List.filter]. rewrite Hex. f_equal. apply IH.
      intros ex'. unfold CalibrationModal.handleRemoveExample.
      rewrite List.filter_In, negb_true_iff, String.eqb_neq. reflexivity.
    + apply IH. intros ex'. unfold CalibrationModal.handleRemoveExample.
      rewrite List.filter_In, negb_true_iff, String.eqb_neq. reflexivity.
  - intros field value. unfold CalibrationModal.handleCountChange.
    destruct (CalibrationModal.parseInt value) as [intValue|]; [|reflexivity].
    destruct (intValue <? 0)%Z; [reflexivity|].
    rewrite <- (map_id (CalibrationModal.handleRemoveExample i prev)) at 2.
    apply map_ext_in. intros ex Hex. apply Hin in Hex. destruct Hex as [_ Hne].
    apply String.eqb_neq in Hne. now rewrite Hne.
  - intros j field value. unfold CalibrationModal.handleCountChange.
    destruct (CalibrationModal.parseInt value) as [intValue|]; [|reflexivity].
    destruct (intValue <? 0)%Z; [reflexivity|].
    unfold CalibrationModal.handleRemoveExample. clear Hin.
    induction prev as [|ex prev IH]; [reflexivity|]. cbn [map List.filter].
    assert (CalibrationModal.id
              (if String.eqb (CalibrationModal.id ex) j
               then CalibrationModal.withCount field intValue ex else ex) =
            CalibrationModal.id ex) as ->.
    { destruct (String.eqb _ j); [apply withCount_id | reflexivity]. }
    destruct (negb (String.eqb (CalibrationModal.id ex) i)); cbn [map];
      now rewrite IH.
Qed.

(** X20.  Adding files that can all be read: the examples that were there
    stay in place, one example per file follows them in the order of the
    selection, each with the name, the type and the content of its file and
    both counts 0, and the modal is no longer loading. *)
Theorem X20_files_become_examples (readable : File -> bool) (now : nat -> N)
    (files : list File) (st : CalibrationModal.State) :
  forallb readable files = true ->
  let st' := CalibrationModal.handleFileChange readable now (Some files) st in
  CalibrationModal.isLoading st' = false /\
  length (CalibrationModal.examples st') =
    (length (CalibrationModal.examples st) + length files)%nat /\
  (forall k ex, nth_error (CalibrationModal.examples st) k = Some ex ->
     nth_error (CalibrationModal.examples st') k = Some ex) /\
  (forall k f, nth_error files k = Some f ->
     nth_error (CalibrationModal.examples st')
       (length (CalibrationModal.examples st) + k) =
     Some {| CalibrationModal.id :=
               (name f ++ "-" ++ CalibrationModal.decimal (now k))%string;
             CalibrationModal.image_base64 := content f;
             CalibrationModal.image_name := name f;
             CalibrationModal.mime_type := type f;
             CalibrationModal.positive_nuclei_count := 0;
             CalibrationModal.negative_nuclei_count := 0 |}).
Proof.
  intros Hread st'. unfold st', CalibrationModal.handleFileChange.
  rewrite readFiles_eval, Hread. cbn [CalibrationModal.examples CalibrationModal.isLoading].
  split; [reflexivity|]. split; [|split].
  - rewrite length_app, length_map, length_combine, length_seq. lia.
  - intros k ex Hk. rewrite nth_error_app1; [exact Hk|].
    apply nth_error_Some. congruence.
  - intros k f Hk. rewrite nth_error_app2 by lia.
    replace (length (CalibrationModal.examples st) + k
             - length (CalibrationModal.examples st))%nat with k by lia.
    rewrite nth_error_map.
    rewrite (nth_error_numbered files 0 k f Hk). reflexivity.
Qed.

Lemma X20_scenario_one_more_slide :
  forallb (fun _ : File => true) [slide] = true /\
  let st' :=
    CalibrationModal.handleFileChange (fun _ => true)
      (fun k => (1700000000002 + N.of_nat k)%N) (Some [slide])
      {| CalibrationModal.examples := calibration;
         CalibrationModal.isLoading := false |} in
  CalibrationModal.isLoading st' = false /\
  length (CalibrationModal.examples st') = (length calibration + 1)%nat /\
  (forall k ex, nth_error calibration k = Some ex ->
     nth_error (CalibrationModal.examples st') k = Some ex) /\
  (forall k f, nth_error [slide] k = Some f ->
     nth_error (CalibrationModal.examples st') (length calibration + k) =
     Some {| CalibrationModal.id :=
               (name f ++ "-" ++
                CalibrationModal.decimal (1700000000002 + N.of_nat k)%N)%string;
             CalibrationModal.image_base64 := content f;
             CalibrationModal.image_name := name f;
             CalibrationModal.mime_type := type f;
             CalibrationModal.positive_nuclei_count := 0;
             CalibrationModal.negative_nuclei_count := 0 |}).
Proof.
  split; [reflexivity|].
  exact (X20_files_become_examples (fun _ => true)
           (fun k => (1700000000002 + N.of_nat k)%N) [slide]
           {| CalibrationModal.examples := calibration;
              CalibrationModal.isLoading := false |} eq_refl).
Defined.

(** X21.  Adding files of which one cannot be read: no example is added,
    not even for the files read before it, and the modal stays loading. *)
Theorem X21_unreadable_file_blocks_the_modal (readable : File -> bool)
    (now : nat -> N) (files : list File) (st : CalibrationModal.State) :
  forallb readable files = false ->
  let st' := CalibrationModal.handleFileChange readable now (Some files) st in
  CalibrationModal.examples st' = CalibrationModal.examples st /\
  CalibrationModal.isLoading st' = true.
Proof.
  intros Hread st'. unfold st', CalibrationModal.handleFileChange.
  rewrite !readFiles_eval, Hread.
  cbn [CalibrationModal.examples CalibrationModal.isLoading].
  split; reflexivity.
Qed.

Lemma X21_scenario_second_file_unreadable :
  forallb (fun f => String.eqb (name f) (name slide))
          [slide; {| name := "broken.png"; type := "image/png"; content := "" |}]
    = false /\
  let st' :=
    CalibrationModal.handleFileChange (fun f => String.eqb (name f) (name slide))
      (fun _ => 0%N)
      (Some [slide; {| name := "broken.png"; type := "image/png"; content := "" |}])
      {| CalibrationModal.examples := calibration;
         CalibrationModal.isLoading := false |} in
  CalibrationModal.examples st' = calibration /\
  CalibrationModal.isLoading st' = true.
Proof.
  split; [vm_compute; reflexivity|].
  apply (X21_unreadable_file_blocks_the_modal
           (fun f => String.eqb (name f) (name slide)) (fun _ => 0%N)
           [slide; {| name := "broken.png"; type := "image/png"; content := "" |}]
           {| CalibrationModal.examples := calibration;
              CalibrationModal.isLoading := false |}).
  vm_compute. reflexivity.
Defined.

(** ** The payload of a data URL *)

Lemma split_comma_free (s : string) :
  commaFree s = true -> split_comma s = [s].
Proof.
  induction s as [|c s IH]; [reflexivity|]. cbn [commaFree split_comma].
  destruct (Ascii.eqb c ","%char); [discriminate|]. cbn [negb andb].
  intros Hs. now rewrite (IH Hs).
Qed.

Lemma split_comma_nonempty (s : string) : split_comma s <> [].
Proof.
  destruct s as [|c s]; [discriminate|]. cbn [split_comma].
  destruct (Ascii.eqb c ","%char); [discriminate|].
  destruct (split_comma s); discriminate.
Qed.

Lemma split_comma_app (a b : string) :
  commaFree a = true ->
  split_comma (a ++ String ","%char b)%string = a :: split_comma b.
Proof.
  induction a as [|c a IH]; [reflexivity|]. cbn [commaFree].
  change (String c a ++ String ","%char b)%string
    with (String c (a ++ String ","%char b)%string).
  cbn [split_comma].
  destruct (Ascii.eqb c ","%char); [discriminate|]. cbn [negb andb].
  intros Ha. now rewrite (IH Ha).
Qed.

Lemma commaFree_app (a b : string) :
  commaFree (a ++ b)%string = commaFree a && commaFree b.
Proof.
  induction a as [|c a IH]; [reflexivity|].
  change (negb (Ascii.eqb c ","%char) && commaFree (a ++ b)%string =
          negb (Ascii.eqb c ","%char) && commaFree a && commaFree b).
  rewrite IH. now rewrite andb_assoc.
Qed.

Lemma append_assoc (a b c : string) :
  ((a ++ b) ++ c)%string = (a ++ (b ++ c))%string.
Proof.
  induction a as [|x a IH]; [reflexivity|].
  change (String x ((a ++ b) ++ c)%string = String x (a ++ (b ++ c))%string).
  now rewrite IH.
Qed.

Lemma dataUrl_parts (mime_type image_base64 : string) :
  dataUrl mime_type image_base64 =
    (("data:" ++ mime_type ++ ";base64") ++ String ","%char image_base64)%string.
Proof.
  unfold dataUrl. rewrite !append_assoc. reflexivity.
Qed.

(** X22.  What [fileToBase64] takes from the result of the reader: of a
    data URL with a media type and a payload without commas it is the
    payload; of a payload with commas it is the part before the first of
    them; of a string without a comma it is [undefined]. *)
Theorem X22_payload_of_a_data_url (mime_type : string) :
  commaFree mime_type = true ->
  (forall image_base64, commaFree image_base64 = true ->
     base64String (dataUrl mime_type image_base64) = Some image_base64) /\
  (forall head tail, commaFree head = true ->
     base64String (dataUrl mime_type (head ++ "," ++ tail)) = Some head) /\
  (forall readerResult, commaFree readerResult = true ->
     base64String readerResult = None).
Proof.
  intros Hmime.
  assert (commaFree ("data:" ++ mime_type ++ ";base64")%string = true) as Hhead.
  { change (commaFree (mime_type ++ ";base64")%string = true).
    rewrite commaFree_app, Hmime. reflexivity. }
  split; [|split].
  - intros image_base64 Hb. unfold base64String.
    rewrite dataUrl_parts, (split_comma_app _ _ Hhead), (split_comma_free _ Hb).
    reflexivity.
  - intros head tail Hh. unfold base64String.
    rewrite dataUrl_parts, (split_comma_app _ _ Hhead).
    change (head ++ "," ++ tail)%string with (head ++ String ","%char tail)%string.
    rewrite (split_comma_app _ _ Hh). reflexivity.
  - intros readerResult Hr. unfold base64String.
    rewrite (split_comma_free _ Hr). reflexivity.
Qed.

Lemma X22_scenario_png :
  commaFree "image/png" = true /\
  (forall image_base64, commaFree image_base64 = true ->
     base64String (dataUrl "image/png" image_base64) = Some image_base64) /\
  (forall head tail, commaFree head = true ->
     base64String (dataUrl "image/png" (head ++ "," ++ tail)) = Some head) /\
  (forall readerResult, commaFree readerResult = true ->
     base64String readerResult = None).
Proof.
  split; [reflexivity|].
  exact (X22_payload_of_a_data_url "image/png" eq_refl).
Defined.

(** ** The requests an event may cost *)

Section Spends.

Context {A B : Type}.

Lemma spends_ret (k : nat) (a : A) : spends k (ret a).
Proof. intros w. cbn. lia. Qed.

Lemma spends_throw (k : nat) (e : Exn) : spends k (@throw A e).
Proof. intros w. cbn. lia. Qed.

Lemma spends_bind (k1 k2 k : nat) (m : M A) (f : A -> M B) :
  spends k1 m -> (forall a, spends k2 (f a)) -> (k1 + k2 <= k)%nat ->
  spends k (bind m f).
Proof.
  intros Hm Hf Hk w. unfold bind. specialize (Hm w).
  destruct (m w) as [[a|e] w1]; cbn [snd] in *; [|lia].
  specialize (Hf a w1). lia.
Qed.

End Spends.

Lemma spends_try_catch (k : nat) (body : M unit) (handler : Exn -> M unit) :
  spends k body -> (forall e, spends 0 (handler e)) ->
  spends k (try_catch body handler).
Proof.
  intros Hb Hh w. unfold try_catch. specialize (Hb w).
  destruct (body w) as [[a|e] w1]; cbn [snd] in *; [lia|].
  specialize (Hh e w1). lia.
Qed.

Lemma spends_try_finally (k : nat) (body final : M unit) :
  spends k body -> spends 0 final -> spends k (try_finally body final).
Proof.
  intros Hb Hf w. unfold try_finally. specialize (Hb w).
  destruct (body w) as [[a|e] w1]; cbn [snd] in *.
  - specialize (Hf w1). lia.
  - specialize (Hf w1). destruct (final w1) as [[a|e'] w2]; cbn [snd] in *; lia.
Qed.

Lemma spends_emit (k : nat) (e : Effect) : isRequest e = false -> spends k (emit e).
Proof.
  intros He w. unfold emit. cbn [snd log]. rewrite requests_app.
  destruct e; try discriminate He; cbn; lia.
Qed.

Lemma spends_history (k : nat) : spends k history.
Proof. intros w. unfold history. cbn [snd log]. lia. Qed.

Lemma spends_getState (k : nat) : spends k getState.
Proof. intros w. unfold getState. cbn [snd log]. lia. Qed.

Lemma spends_update (k : nat) (f : AppState -> AppState) : spends k (update f).
Proof. intros w. unfold update. cbn [snd log]. lia. Qed.

Lemma spends_getItem (k : nat) (key : string) : spends k (localStorage_getItem key).
Proof. intros w. unfold localStorage_getItem. cbn [snd log]. lia. Qed.

Lemma spends_setItem (k : nat) (key : string) (v : Stored) :
  spends k (localStorage_setItem key v).
Proof. intros w. unfold localStorage_setItem. cbn [snd log]. lia. Qed.

Lemma spends_removeItem (k : nat) (key : string) :
  spends k (localStorage_removeItem key).
Proof. intros w. unfold localStorage_removeItem. cbn [snd log]. lia. Qed.

Lemma spends_generateContent (k : nat) (env : Env) (req : Request) :
  spends (S k) (generateContent env req).
Proof.
  intros w. unfold generateContent, bind, history, emit. cbn [fst snd log].
  destruct (provider env _ req); unfold ret, throw; cbn [snd log];
    rewrite !requests_app; cbn; lia.
Qed.

Create HintDb spends.

#[local] Hint Resolve spends_ret spends_throw spends_history spends_getState
  spends_update spends_getItem spends_setItem spends_removeItem
  spends_generateContent : spends.

#[local] Hint Extern 1 (spends _ (emit _)) =>
  apply spends_emit; reflexivity : spends.

(** Goes through a computation built from the combinators and the primitive
    actions, looking for a way to share the budget out. *)
Ltac spend :=
  intros;
  lazymatch goal with
  | |- spends _ (try_finally _ _) =>
      apply spends_try_finally; [spend | solve [spend]]
  | |- spends _ (try_catch _ _) =>
      apply spends_try_catch; [spend | solve [spend]]
  | |- spends _ (match ?c with _ => _ end) => destruct c; spend
  | |- spends ?k (bind _ _) =>
      first
        [ apply (spends_bind 0 k); [solve [spend] | spend | lia]
        | apply (spends_bind 1 (k - 1)); [solve [spend] | spend | cbn; lia]
        | apply (spends_bind 2 (k - 2)); [solve [spend] | spend | cbn; lia] ]
  | |- _ => solve [auto with spends]
  end.

Lemma spends_getFileToProcess (k : nat) (env : Env) : spends k (getFileToProcess env).
Proof.
  unfold getFileToProcess, getMaskedFile, URL_createObjectURL, URL_revokeObjectURL.
  spend.
Qed.

Lemma spends_performQualityCheck (k : nat) (env : Env) (f : File) :
  spends (S k) (performQualityCheck env f).
Proof.
  unfold performQualityCheck, fileToBase64, JSON_parse_text, prop. spend.
Qed.

Lemma spends_editImageWithText (k : nat) (env : Env) (f : File) (instruction : string) :
  spends (S k) (editImageWithText env f instruction).
Proof.
  unfold editImageWithText, fileToBase64, base64ToFile, URL_createObjectURL. spend.
Qed.

Lemma spends_runSingleAnalysis (k : nat) (env : Env) (config : Request) :
  spends (S k) (runSingleAnalysis env config).
Proof. unfold runSingleAnalysis, JSON_parse_text, prop. spend. Qed.

Lemma spends_analyzeIHCImage (k : nat) (env : Env) (f : File) onProgress :
  spends (S (S k)) (analyzeIHCImage env f onProgress).
Proof.
  pose proof (fun k => spends_runSingleAnalysis k env).
  unfold analyzeIHCImage, callProgress, fileToBase64. spend.
Qed.

Lemma spends_resetState (k : nat) (clearImage : bool) : spends k (resetState clearImage).
Proof.
  unfold resetState, clearSelection, URL_revokeObjectURL, setImage, setAnalysisResult,
    setError, setIsLoading, setQualityCheckResult, setIsQualityChecking,
    setQualityCheckError, setAnalysisProgress, setSelectionPoints, setIsDrawing,
    setPreviewPoint.
  spend.
Qed.

Lemma spends_handler (env : Env) (ev : UserEvent) :
  spends (budget ev) (handler env ev).
Proof.
  pose proof (fun k => spends_getFileToProcess k env).
  pose proof (fun k => spends_performQualityCheck k env).
  pose proof (fun k => spends_editImageWithText k env).
  pose proof (fun k => spends_analyzeIHCImage k env).
  pose proof spends_resetState.
  destruct ev; cbn [handler budget].
  - unfold handleImageUpload, URL_createObjectURL, setImage. spend.
  - unfold handleImageClick, setIsDrawing, setPreviewPoint, setSelectionPoints. spend.
  - unfold handleMouseMove, setPreviewPoint. spend.
  - unfold handleQualityCheck, try_catch_finally, console_error,
      setIsQualityChecking, setQualityCheckError, setQualityCheckResult.
    spend.
  - unfold clearSelection, setIsDrawing, setPreviewPoint, setSelectionPoints. spend.
  - unfold handleAnalyzeClick, try_catch_finally, console_error, fileToBase64,
      setIsLoading, setError, setAnalysisResult, setAnalysisProgress.
    spend.
  - spend.
  - unfold setPrompt. spend.
  - unfold handleEditClick, try_catch_finally, console_error, URL_revokeObjectURL,
      setIsLoading, setError, setImage.
    spend.
  - unfold navigate, setMode, setError. spend.
Qed.

(** X23.  What an event may cost: the analysis sends at most two requests
    to the provider, a quality check and an edit at most one, every other
    event none; nor does the session effect of the first render send any.
    No request already sent disappears from the log. *)
Theorem X23_requests_per_event (env : Env) (w : World) (ev : UserEvent)
    (store : gmap string Stored) :
  (requests (log w) <= requests (log (run (handler env ev) w))
     <= requests (log w) + budget ev)%nat /\
  requests (log (mount env store)) = 0%nat.
Proof.
  split; [exact (spends_handler env ev w)|].
  rewrite mount_eval.
  destruct (store !! "lastAnalysisResult") as [[r|b n t]|];
    destruct (store !! "lastAnalysisImage") as [[r'|b' n' t']|]; reflexivity.
Qed.

(** ** The preview point *)

Lemma handleQualityCheck_rubberBand (env : Env) :
  preserves (onApp rubberBand) (handleQualityCheck env).
Proof.
  pose proof (getFileToProcess_onApp rubberBand env).
  pose proof (performQualityCheck_onApp rubberBand env).
  unfold handleQualityCheck, try_catch_finally, console_error,
    setIsQualityChecking, setQualityCheckError, setQualityCheckResult.
  frame.
Qed.

Lemma handleAnalyzeClick_rubberBand (env : Env) :
  preserves (onApp rubberBand) (handleAnalyzeClick env).
Proof.
  pose proof (getFileToProcess_onApp rubberBand env).
  pose proof (analyzeIHCImage_onApp rubberBand env) as Hrun.
  assert (forall f, preserves (onApp rubberBand)
            (analyzeIHCImage env f (Some (fun progress => with_analysisProgress (Some progress)))))
    by (intros f; now apply Hrun).
  clear Hrun.
  unfold handleAnalyzeClick, try_catch_finally, console_error, fileToBase64,
    setIsLoading, setError, setAnalysisResult, setAnalysisProgress.
  frame.
Qed.

Lemma handleEditClick_rubberBand (env : Env) (w : World) :
  rubberBand (app (run (handleEditClick env) w)) = rubberBand (app w) \/
  previewPoint (app (run (handleEditClick env) w)) = None.
Proof.
  unfold handleEditClick. js_unfold.
  destruct (image (app w)) as [img|]; [|now left].
  destruct (String.eqb _ _); [now left|]. right.
  rewrite resetState_eval.
  match goal with |- context [editImageWithText env ?f ?p ?wX] =>
    pose proof (editImageWithText_onApp previewPoint env f p wX) as Hkeep;
    destruct (editImageWithText env f p wX) as [[r|e] w1]
  end; unfold onApp in Hkeep; cbn [fst snd app localStorage log] in *;
    cbn in Hkeep |- *; exact Hkeep.
Qed.

(** X24.  In every state the application reaches, a preview point is only
    there while a polygon that has a first point is still being drawn, and
    it lies in the normalized square: closing or clearing the polygon, and
    everything that resets the state, takes the preview point away. *)
Theorem X24_preview_only_while_drawing (env : Env) (w : World) :
  reachable env w -> previewWhileDrawing (app w).
Proof.
  induction 1 as [store | w w' Hreach IH Hstep].
  - rewrite mount_eval.
    destruct (store !! "lastAnalysisResult") as [[r|b n t]|];
      destruct (store !! "lastAnalysisImage") as [[r'|b' n' t']|];
      intros p Hp; discriminate Hp.
  - destruct Hstep as [w ev _ _]. unfold previewWhileDrawing in *.
    destruct ev; cbn [handler].
    + rewrite handleImageUpload_eval, resetState_eval.
      destruct (image (app w)); intros p Hp; discriminate Hp.
    + unfold handleImageClick. js_unfold.
      destruct (isDrawing (app w)) eqn:Hd; cbn [negb snd].
      2:{ rewrite Hd. exact IH. }
      destruct (closesPolygon _ _); cbn; [intros p Hp; discriminate Hp|].
      intros p Hp. destruct (IH p Hp) as (_ & _ & Hsq). rewrite ?Hd.
      split; [reflexivity|]. split; [|exact Hsq].
      intros Hnil. apply app_eq_nil in Hnil. destruct Hnil as [_ Hnil].
      discriminate Hnil.
    + unfold handleMouseMove. js_unfold.
      destruct (isDrawing (app w)) eqn:Hd; cbn [andb snd].
      2:{ rewrite Hd. exact IH. }
      destruct (selectionPoints (app w)) as [|first points] eqn:Hs; cbn.
      { rewrite ?Hd, ?Hs. exact IH. }
      intros p [= <-]. rewrite ?Hd, ?Hs.
      split; [reflexivity|]. split; [discriminate | apply getPointFromEvent_inSquare].
    + pose proof (handleQualityCheck_rubberBand env w) as Hk.
      unfold onApp, rubberBand in Hk. unfold run.
      injection Hk as -> -> ->. exact IH.
    + intros p Hp. discriminate Hp.
    + pose proof (handleAnalyzeClick_rubberBand env w) as Hk.
      unfold onApp, rubberBand in Hk. unfold run.
      injection Hk as -> -> ->. exact IH.
    + unfold run. rewrite resetState_eval.
      destruct (image (app w)); intros p Hp; discriminate Hp.
    + exact IH.
    + destruct (handleEditClick_rubberBand env w) as [Hk | Hk].
      * unfold rubberBand in Hk. injection Hk as -> -> ->. exact IH.
      * intros p Hp. rewrite Hk in Hp. discriminate Hp.
    + exact IH.
Qed.

Lemma pointerAt_moves (cx cy : R) : boxed (Move (pointerAt cx cy)).
Proof. cbn. lra. Qed.

Lemma movedOn_reachable : reachable clipping movedOn.
Proof.
  apply (reachable_step clipping clickedOnce); [apply clickedOnce_reachable|].
  apply (step_event clipping clickedOnce (Move (pointerAt 40 40)));
    [|apply pointerAt_moves].
  unfold clickedOnce. cbn [handler].
  pose proof (handleImageClick_image (pointerAt 10 10) uploaded) as Hi.
  unfold onApp in Hi. unfold run, offered.
  assert (renderContent (app (snd (handleImageClick (pointerAt 10 10) uploaded)))
          = AnalysisView) as ->.
  { unfold handleImageClick. js_unfold.
    destruct (closesPolygon _ _); reflexivity. }
  rewrite Hi. reflexivity.
Qed.

Lemma X24_scenario_moved_on :
  reachable clipping movedOn /\ previewWhileDrawing (app movedOn).
Proof.
  split; [exact movedOn_reachable|].
  exact (X24_preview_only_while_drawing clipping movedOn movedOn_reachable).
Defined.

(** ** A failed analysis and the saved session *)

(** X26.  An analysis that fails takes the result off the screen but leaves
    [localStorage] as it is: a session saved by an earlier analysis is still
    there. *)
Theorem X26_failed_analysis_keeps_the_saved_session (env : Env) (w w0 : World)
    (img : Image) (f : File) :
  image (app w) = Some img ->
  getFileToProcess env w = (Ok (Some f), w0) ->
  (readable env (file img) = false \/
   exists e, fst (analyzeIHCImage env f None w) = Throw e) ->
  analysisResult (app (run (handleAnalyzeClick env) w)) = None /\
  localStorage (run (handleAnalyzeClick env) w) = localStorage w /\
  savedSessionOf (localStorage (run (handleAnalyzeClick env) w)) =
    savedSessionOf (localStorage w).
Proof.
  intros Himg Hfile Hfail.
  pose proof (handleAnalyzeClick_eval env w w0 img f Himg Hfile) as Hrun.
  cbv zeta in Hrun.
  assert (app (run (handleAnalyzeClick env) w) = failedAnalysis (app w) /\
          localStorage (run (handleAnalyzeClick env) w) = localStorage w)
    as [Happ Hstore].
  { destruct Hfail as [Hread | [e He]].
    - rewrite Hread in Hrun. exact Hrun.
    - rewrite analyzeIHCImage_outcome in He. rewrite He in Hrun.
      destruct (readable env (file img)); exact Hrun. }
  rewrite Happ, Hstore. repeat split.
Qed.

Lemma X26_scenario_second_pass_rejected :
  analysisResult (app failedRun) = None /\
  localStorage failedRun = localStorage (mount secondPassRejects savedSession) /\
  savedSessionOf (localStorage failedRun) =
    savedSessionOf (localStorage (mount secondPassRejects savedSession)).
Proof.
  apply (X26_failed_analysis_keeps_the_saved_session secondPassRejects
           (mount secondPassRejects savedSession)
           (mount secondPassRejects savedSession)
           {| file := slide; url := 0%nat |} slide).
  - vm_compute. reflexivity.
  - vm_compute. reflexivity.
  - right. exists Rejection. vm_compute. reflexivity.
Defined.
